(** * A Discord administration bridge: whitelist, bans and ban listing

    Shallow embedding of [src/main.py].  The bot keeps an in-memory whitelist
    of Discord user ids, backed by [whitelist.json], and talks to a remote
    key-value store over HTTP to write, delete and list ban records.

    Embedded here: [load_whitelist], [save_whitelist], the checks
    [is_whitelisted] and [is_bot_owner], [manage_whitelist],
    [get_username_from_id], [create_api_error_embed], [banid_cmd],
    [unban_cmd] and [get_datastore_ban_list].

    Conventions of the embedding.

    - Python [int] is [Z]; Python [str] is [string], the bytes of the
      text's UTF-8 encoding (comparing such strings bytewise is comparing
      them by code point; [len] counts characters, see [py_len]).  On ASCII
      text [str.isdigit] is "non-empty and every character in 0..9"; the
      statements about text that is not all digits are about ASCII text.
    - [int] of a string raises [ValueError] beyond [int_max_str_digits]
      digits (4300, the default of CPython since 3.11 and of the security
      releases before it), see [py_int].
    - The value returned by a JSON decoder is a [json]; JSON numbers with a
      fraction (Python floats) are left out of the type.  The body of a
      response is JSON that [json()] decodes, or text it rejects with its
      decode error; the decoder of [whitelist.json] may raise any error.
    - A Python call that may raise returns an [outcome]; [print] is left
      out.
    - A command that talks to the network is a function of the state: the
      world behind the network, and the log of the requests made. *)

From Stdlib Require Import ZArith List String Ascii Bool Lia.
From Stdlib Require Import DecimalString Orders Sorted Permutation Mergesort.
Import ListNotations.

Local Open Scope string_scope.
Local Open Scope Z_scope.

(** ** Python values *)

#[warnings="-register-all"]
Inductive json : Type :=
| JNull
| JBool (b : bool)
| JInt (n : Z)
| JStr (s : string)
| JArr (items : list json)
| JObj (members : list (string * json)).

(** Truth value of an object, as tested by [if x] and [not x]. *)
Definition truthy (v : json) : bool :=
  match v with
  | JNull => false
  | JBool b => b
  | JInt n => negb (n =? 0)
  | JStr s => negb (s =? "")%string
  | JArr items => match items with [] => false | _ => true end
  | JObj members => match members with [] => false | _ => true end
  end.

(** [d[k]] on the items of a dict (keys are unique, the first binding is
    the binding). *)
Fixpoint dict_lookup (members : list (string * json)) (k : string) : option json :=
  match members with
  | [] => None
  | (k', v) :: rest => if (k' =? k)%string then Some v else dict_lookup rest k
  end.

(** [str(n)] for an integer. *)
Definition str_int (n : Z) : string := NilZero.string_of_int (Z.to_int n).

Definition is_digit_char (c : ascii) : bool :=
  let n := nat_of_ascii c in (48 <=? n)%nat && (n <=? 57)%nat.

Fixpoint all_digits (s : string) : bool :=
  match s with
  | EmptyString => true
  | String c rest => is_digit_char c && all_digits rest
  end.

(** [s.isdigit()] on ASCII text: not empty, and every character in 0..9.
    (Python also counts the digits of other scripts; what is stated below
    about text that is not numeric is stated of ASCII text, see
    [is_ascii].) *)
Definition isdigit (s : string) : bool :=
  match s with
  | EmptyString => false
  | _ => all_digits s
  end.

Fixpoint int_digits (acc : Z) (s : string) : option Z :=
  match s with
  | EmptyString => Some acc
  | String c rest =>
      if is_digit_char c
      then int_digits (10 * acc + (Z.of_nat (nat_of_ascii c) - 48)) rest
      else None
  end.

(** [sys.get_int_max_str_digits()]: CPython's default limit on the number
    of digits a decimal string may have for [int] to convert it.  Leading
    zeros count. *)
Definition int_max_str_digits : nat := 4300.

(** [int(s)] on the strings the bot passes to it, which have all gone
    through [isdigit]; [None] is [ValueError], raised for the empty string,
    for a character that is no digit, and for a string of more than
    [int_max_str_digits] digits. *)
Definition py_int (s : string) : option Z :=
  match s with
  | EmptyString => None
  | _ => if (String.length s <=? int_max_str_digits)%nat then int_digits 0 s else None
  end.

(** Text of ASCII characters only.  On such text [isdigit] above is
    [str.isdigit]; beyond it Python also counts the digits of other scripts,
    which [isdigit] here does not. *)
Definition is_ascii (s : string) : bool :=
  forallb (fun c => (nat_of_ascii c <? 128)%nat) (list_ascii_of_string s).

(** [len(s)]: the number of characters of the text, whose bytes are its
    UTF-8 encoding; a character is one byte that is no continuation byte
    (10xxxxxx), followed by its continuation bytes. *)
Definition is_continuation_byte (c : ascii) : bool :=
  let n := nat_of_ascii c in (128 <=? n)%nat && (n <? 192)%nat.

Fixpoint py_len (s : string) : nat :=
  match s with
  | EmptyString => 0%nat
  | String c rest => ((if is_continuation_byte c then 0 else 1) + py_len rest)%nat
  end.

(** [x in l] and [l.remove(x)] on a list of integers. *)
Definition py_in (x : Z) (l : list Z) : bool := existsb (Z.eqb x) l.

Fixpoint list_remove (x : Z) (l : list Z) : list Z :=
  match l with
  | [] => []
  | y :: rest => if y =? x then rest else y :: list_remove x rest
  end.

Definition newline : string := String (ascii_of_nat 10) "".

(** ** Exceptions and outcomes *)

(** An HTTP response as the bot reads it: [status_code], [text], and what
    [json()] finds in the body ([None] when the body is not JSON). *)
Record response : Type := Response {
  status_code : Z;
  text : string;
  body_json : option json
}.

Inductive exception : Type :=
| HTTPError (r : response)              (* raised by raise_for_status *)
| RequestException (r : option response) (* raised by requests.get/post/delete *)
| RequestsJSONDecodeError                (* requests >= 2.27: both of the next and a RequestException *)
| JSONDecodeError                        (* json.JSONDecodeError *)
| FileNotFoundError
| PermissionError
| UnicodeDecodeError
| AttributeError
| TypeError
| KeyError
| IndexError
| ValueError
| RecursionError.

(** [isinstance(e, requests.exceptions.RequestException)] *)
Definition is_RequestException (e : exception) : bool :=
  match e with
  | HTTPError _ | RequestException _ | RequestsJSONDecodeError => true
  | _ => false
  end.

(** [isinstance(e, json.JSONDecodeError)] *)
Definition is_JSONDecodeError (e : exception) : bool :=
  match e with
  | RequestsJSONDecodeError | JSONDecodeError => true
  | _ => false
  end.

Definition is_FileNotFoundError (e : exception) : bool :=
  match e with
  | FileNotFoundError => true
  | _ => false
  end.

(** [e.response] *)
Definition exn_response (e : exception) : option response :=
  match e with
  | HTTPError r => Some r
  | RequestException r => r
  | _ => None
  end.

Inductive outcome (A : Type) : Type :=
| Ret (a : A)
| Raise (e : exception)
| Diverge.   (* a loop that has not finished within the fuel given *)
Arguments Ret {A} a.
Arguments Raise {A} e.
Arguments Diverge {A}.

(** ** Configuration and Discord embeds *)

Class Config : Type := {
  BOT_OWNER_ID : Z;
  ROBLOX_API_KEY : string;
  ROBLOX_UNIVERSE_ID : string;
  ROBLOX_DATASTORE_NAME : string
}.

Definition WHITELIST_FILE : string := "whitelist.json".
Definition EMBED_COLOR_SUCCESS : Z := 0x00FF00.
Definition EMBED_COLOR_ERROR : Z := 0xFF0000.
Definition EMBED_COLOR_INFO : Z := 0x00BFFF.

Record embed : Type := Embed {
  title : string;
  description : string;
  color : Z;
  fields : list (string * string);
  footer : option string
}.

(** ** Whitelist management *)

(** What [load_whitelist] sees of the disk: whether the path exists, and
    what opening and reading it gives. *)
Record whitelist_disk : Type := {
  path_exists : bool;
  open_read : outcome string
}.

Section LoadWhitelist.
(** [json.loads]: the value decoded, or the exception raised
    ([json.JSONDecodeError] for text that is not JSON, [RecursionError] for
    text nested too deep). *)
Variable json_loads : string -> outcome json.

(** [except (json.JSONDecodeError, FileNotFoundError)] *)
Definition load_handler (e : exception) : outcome json :=
  if is_JSONDecodeError e || is_FileNotFoundError e then Ret (JArr [])
  else Raise e.

Definition load_whitelist (disk : whitelist_disk) : outcome json :=
  if negb (path_exists disk) then Ret (JArr [])
  else
    match open_read disk with
    | Ret content =>
        if (content =? "")%string then Ret (JArr [])
        else match json_loads content with
             | Ret v => Ret v
             | Raise e => load_handler e
             | Diverge => Diverge
             end
    | Raise e => load_handler e
    | Diverge => Diverge
    end.
End LoadWhitelist.

(** The global [whitelisted_users] and the successive contents handed to
    [save_whitelist] (oldest first). *)
Record whitelist_state : Type := {
  whitelisted_users : list Z;
  saved : list (list Z)
}.

Definition save_whitelist (whitelist_data : list Z) (s : whitelist_state) : whitelist_state :=
  {| whitelisted_users := whitelisted_users s;
     saved := saved s ++ [whitelist_data] |}.

(** The check installed by [is_whitelisted()]: the verdict, and the embed
    sent when access is denied. *)
Definition is_whitelisted `{Config} (user : Z) (users : list Z) : bool * option embed :=
  if (user =? BOT_OWNER_ID) || py_in user users then (true, None)
  else (false, Some (Embed "Access Denied" "You are not authorized to use this command."
                           EMBED_COLOR_ERROR [] None)).

(** The check installed by [is_bot_owner()]. *)
Definition is_bot_owner `{Config} (user : Z) : bool * option embed :=
  if user =? BOT_OWNER_ID then (true, None)
  else (false, Some (Embed "Access Denied" "Only the bot owner can manage the whitelist."
                           EMBED_COLOR_ERROR [] None)).

(** [not user_id or not user_id.isdigit()] *)
Definition missing_or_not_digits (user_id : option string) : bool :=
  match user_id with
  | None => true
  | Some u => (u =? "")%string || negb (isdigit u)
  end.

(** The handler of [/whitelist]: the embed it replies with and the state
    it leaves.  [action_value] is [action.value]; [user_id] is [None] when
    the option is not given. *)
Definition manage_whitelist `{Config} (action_value : string) (user_id : option string)
    (s : whitelist_state) : embed * whitelist_state :=
  let title := "Whitelist Management" in
  let description := "An error occurred." in
  let color := EMBED_COLOR_ERROR in
  let '(title, description, color, s) :=
    if (action_value =? "add")%string then
      if missing_or_not_digits user_id then
        (title, "Invalid or missing User ID for 'add' action.", color, s)
      else
        match py_int (match user_id with Some u => u | None => "" end) with
        | Some user_id_int =>
            if user_id_int =? BOT_OWNER_ID then
              (title, "The bot owner is always authorized.", EMBED_COLOR_INFO, s)
            else if negb (py_in user_id_int (whitelisted_users s)) then
              let s := {| whitelisted_users := whitelisted_users s ++ [user_id_int];
                          saved := saved s |} in
              let s := save_whitelist (whitelisted_users s) s in
              (title, "User ID `" ++ str_int user_id_int ++ "` added to the whitelist.",
               EMBED_COLOR_SUCCESS, s)
            else
              (title, "User ID `" ++ str_int user_id_int ++ "` is already in the whitelist.",
               EMBED_COLOR_INFO, s)
        | None => (title, "Invalid User ID format.", color, s)
        end
    else if (action_value =? "remove")%string then
      if missing_or_not_digits user_id then
        (title, "Invalid or missing User ID for 'remove' action.", color, s)
      else
        match py_int (match user_id with Some u => u | None => "" end) with
        | Some user_id_int =>
            if py_in user_id_int (whitelisted_users s) then
              let s := {| whitelisted_users := list_remove user_id_int (whitelisted_users s);
                          saved := saved s |} in
              let s := save_whitelist (whitelisted_users s) s in
              (title, "User ID `" ++ str_int user_id_int ++ "` removed from the whitelist.",
               EMBED_COLOR_SUCCESS, s)
            else
              (title, "User ID `" ++ str_int user_id_int ++ "` was not found in the whitelist.",
               EMBED_COLOR_INFO, s)
        | None => (title, "Invalid User ID format.", color, s)
        end
    else if (action_value =? "list")%string then
      match whitelisted_users s with
      | [] => (title, "The whitelist is currently empty.", EMBED_COLOR_INFO, s)
      | _ =>
          let id_list :=
            String.concat newline
              (map (fun uid => "`" ++ str_int uid ++ "`") (whitelisted_users s)) in
          ("Whitelisted User IDs", id_list, EMBED_COLOR_INFO, s)
      end
    else (title, description, color, s)
  in
  (Embed title description color [] None, s).

(** The [/whitelist] command behind its [is_bot_owner()] check. *)
Definition whitelist_command `{Config} (caller : Z) (action_value : string)
    (user_id : option string) (s : whitelist_state) : embed * whitelist_state :=
  match is_bot_owner caller with
  | (false, Some denial) => (denial, s)
  | _ => manage_whitelist action_value user_id s
  end.

(** ** The remote services and the Python runtime *)

Inductive http_method : Type := GET | POST | DELETE.

(** The addresses the bot builds.  [DATASTORE_API_URL] is
    [https://apis.roblox.com/datastores/v1/universes/{ROBLOX_UNIVERSE_ID}/standard-datastores];
    an address keeps the parts the bot formats into it. *)
Inductive url : Type :=
| DatastoreEntries (datastoreName cursor_param : string)
    (* {DATASTORE_API_URL}/datastore/entries?datastoreName={..}{cursor_param} *)
| DatastoreEntry (datastoreName entryKey : string)
    (* {DATASTORE_API_URL}/datastore/entries/entry?datastoreName={..}&entryKey={..} *)
| UsersById.
    (* https://users.roblox.com/v1/users *)

Definition DATASTORE_API_URL `{Config} : string :=
  "https://apis.roblox.com/datastores/v1/universes/" ++ ROBLOX_UNIVERSE_ID
  ++ "/standard-datastores".

Definition url_text `{Config} (u : url) : string :=
  match u with
  | DatastoreEntries name cursor_param =>
      DATASTORE_API_URL ++ "/datastore/entries?datastoreName=" ++ name ++ cursor_param
  | DatastoreEntry name key =>
      DATASTORE_API_URL ++ "/datastore/entries/entry?datastoreName=" ++ name
      ++ "&entryKey=" ++ key
  | UsersById => "https://users.roblox.com/v1/users"
  end.

(** A call of [requests.get], [requests.post] or [requests.delete]; [sent]
    is the JSON document passed as [data=json.dumps(..)] or [json=..]. *)
Record request : Type := Request {
  method : http_method;
  target : url;
  headers : list (string * string);
  sent : option json
}.

(** What the call gives: a response, or a [RequestException] raised by the
    transport (with its [response] attribute). *)
Inductive http_result : Type :=
| Answer (r : response)
| Fails (r : option response).

Class Runtime : Type := {
  (** the network and the clock *)
  world : Type;
  http : world -> request -> world * http_result;
  time_time : world -> Z;             (* int(time.time()) *)
  (** library behaviour the bot relies on *)
  modern_requests : bool;             (* requests >= 2.27: json() raises a RequestException *)
  utc_strftime : Z -> option string;  (* fromtimestamp(t, tz=utc).strftime("%Y-%m-%d %H:%M"); None when it raises *)
  py_repr : json -> string;           (* str() of a list or a dict *)
  str_exception : exception -> string (* str(e) *)
}.

(** [str(v)], as an f-string formats a value. *)
Definition py_str `{Runtime} (v : json) : string :=
  match v with
  | JNull => "None"
  | JBool true => "True"
  | JBool false => "False"
  | JInt n => str_int n
  | JStr s => s
  | JArr _ | JObj _ => py_repr v
  end.

(** ** Commands as state transformers *)

Record state `{Runtime} : Type := State {
  env : world;
  log : list request   (* requests made so far, oldest first *)
}.

Definition M `{Runtime} (A : Type) : Type := state -> outcome A * state.

Definition ret `{Runtime} {A} (a : A) : M A := fun s => (Ret a, s).
Definition raise `{Runtime} {A} (e : exception) : M A := fun s => (Raise e, s).
Definition diverge `{Runtime} {A} : M A := fun s => (Diverge, s).

Definition bind `{Runtime} {A B} (c : M A) (k : A -> M B) : M B :=
  fun s =>
    match c s with
    | (Ret a, s') => k a s'
    | (Raise e, s') => (Raise e, s')
    | (Diverge, s') => (Diverge, s')
    end.

(** [try: c  except Exception as e: h e] where [h] re-raises what its
    clauses do not name. *)
Definition try_except `{Runtime} {A} (c : M A) (h : exception -> M A) : M A :=
  fun s =>
    match c s with
    | (Raise e, s') => h e s'
    | r => r
    end.

Definition lift `{Runtime} {A} (o : outcome A) : M A := fun s => (o, s).

Declare Scope bot_scope.
Delimit Scope bot_scope with bot.
Notation "x <- c ;; k" := (bind c (fun x => k))
  (at level 100, c at next level, right associativity) : bot_scope.
Notation "c ;;; k" := (bind c (fun _ => k))
  (at level 100, right associativity) : bot_scope.
Local Open Scope bot_scope.

Definition requests_call `{Runtime} (req : request) : M response :=
  fun s =>
    let '(w, r) := http (env s) req in
    let s' := {| env := w; log := log s ++ [req] |} in
    match r with
    | Answer resp => (Ret resp, s')
    | Fails resp => (Raise (RequestException resp), s')
    end.

(** The state once [req] has been made and the world has become [w]. *)
Definition after `{Runtime} (s : state) (w : world) (req : request) : state :=
  {| env := w; log := log s ++ [req] |}.

Definition raise_for_status `{Runtime} (r : response) : M unit :=
  if (400 <=? status_code r) && (status_code r <? 600) then raise (HTTPError r)
  else ret tt.

Definition json_error `{Runtime} : exception :=
  if modern_requests then RequestsJSONDecodeError else JSONDecodeError.

(** [response.json()] *)
Definition response_json `{Runtime} (r : response) : M json :=
  match body_json r with
  | Some v => ret v
  | None => raise json_error
  end.

(** [d.get(k, default)]: only a dict has the method. *)
Definition py_get `{Runtime} (d : json) (k : string) (default : json) : M json :=
  match d with
  | JObj members =>
      ret (match dict_lookup members k with Some v => v | None => default end)
  | _ => raise AttributeError
  end.

(** The elements a [for] visits. *)
Definition py_iter `{Runtime} (v : json) : M (list json) :=
  match v with
  | JArr items => ret items
  | JStr s => ret (map (fun c => JStr (String c "")) (list_ascii_of_string s))
  | JObj members => ret (map (fun kv => JStr (fst kv)) members)
  | _ => raise TypeError
  end.

(** [v[k]] for a string [k]. *)
Definition py_item `{Runtime} (v : json) (k : string) : M json :=
  match v with
  | JObj members =>
      match dict_lookup members k with
      | Some x => ret x
      | None => raise KeyError
      end
  | _ => raise TypeError
  end.

(** [v[0]] *)
Definition py_first `{Runtime} (v : json) : M json :=
  match v with
  | JArr (x :: _) => ret x
  | JStr (String c _) => ret (JStr (String c ""))
  | JArr [] | JStr EmptyString => raise IndexError
  | JObj _ => raise KeyError
  | JNull | JBool _ | JInt _ => raise TypeError
  end.

Definition clock `{Runtime} : M Z := fun s => (Ret (time_time (env s)), s).

(** ** Username lookup and error embeds *)

Definition id_fallback (user_id : Z) : string := "ID: " ++ str_int user_id.

Definition get_username_from_id `{Runtime} (user_id : Z) : M json :=
  let payload :=
    JObj [("userIds", JArr [JInt user_id]); ("excludeBannedUsers", JBool false)] in
  found <-
    try_except
      (response <- requests_call (Request POST UsersById [] (Some payload)) ;;
       raise_for_status response ;;;
       d <- response_json response ;;
       data <- py_get d "data" (JArr []) ;;
       if truthy data then
         first <- py_first data ;;
         name <- py_get first "name" (JStr (id_fallback user_id)) ;;
         ret (Some name)
       else ret None)
      (fun e => if is_RequestException e then ret None else raise e) ;;
  match found with
  | Some name => ret name
  | None => ret (JStr (id_fallback user_id))
  end.

Definition fenced (s : string) : string := "```" ++ newline ++ s ++ newline ++ "```".

Definition create_api_error_embed `{Runtime} (error : exception) (requested_perm : string)
    : outcome embed :=
  let generic :=
    Embed "API Request Failed" "An error occurred while contacting the Roblox API."
          EMBED_COLOR_ERROR [("Details", fenced (str_exception error))] None in
  match exn_response error with
  | Some r =>
      if status_code r =? 403 then
        let head :=
          Embed "API Key Error (403 Forbidden)"
                ("The bot's API Key does not have the **`" ++ requested_perm
                 ++ "`** permission for the DataStore API.")
                EMBED_COLOR_ERROR
                [("How to Fix",
                  "Go to your API Key settings on the Roblox Creator Dashboard and add the **`"
                  ++ requested_perm ++ "`** operation to the **'DataStore'** API.")]
                None in
        let with_raw raw :=
          Embed (title head) (description head) (color head)
                (fields head ++ [("Raw Error", fenced raw)]) None in
        match body_json r with
        | Some (JObj members) =>
            let error_details :=
              match dict_lookup members "message" with
              | Some v => v
              | None => JStr (text r)
              end in
            Ret (with_raw (py_str error_details))
        | Some _ => Raise AttributeError
        | None => (* except json.JSONDecodeError *) Ret (with_raw (text r))
        end
      else Ret generic
  | None => Ret generic
  end.

(** ** Ban and unban *)

Definition invalid_input : embed :=
  Embed "Invalid Input" "UserId must be a number." EMBED_COLOR_ERROR [] None.

Definition int_or_raise `{Runtime} (s : string) : M Z :=
  match py_int s with
  | Some n => ret n
  | None => raise ValueError
  end.

(** The dict [ban_data] of [banid_cmd]. *)
Definition ban_record (reason display_name : string) (username : json) (timestamp : Z) : json :=
  JObj [("Reason", JStr reason);
        ("BannedBy", JStr (display_name ++ " (Discord)"));
        ("Username", username);
        ("Timestamp", JInt timestamp)].

Definition default_reason : string := "Banned via Discord.".

Definition banid_cmd `{Config} `{Runtime} (display_name user_id : string)
    (reason : option string) : M embed :=
  let reason := match reason with Some r => r | None => default_reason end in
  if negb (isdigit user_id) then ret invalid_input
  else
    user_id_int <- int_or_raise user_id ;;
    username <- get_username_from_id user_id_int ;;
    now <- clock ;;
    let ban_data := ban_record reason display_name username now in
    let headers := [("x-api-key", ROBLOX_API_KEY); ("Content-Type", "application/json")] in
    let url := DatastoreEntry ROBLOX_DATASTORE_NAME user_id in
    try_except
      (response <- requests_call (Request POST url headers (Some ban_data)) ;;
       raise_for_status response ;;;
       ret (Embed "User Banned (DataStore)"
                  ("Successfully banned **" ++ py_str username ++ "** (`" ++ user_id ++ "`).")
                  EMBED_COLOR_SUCCESS [("Reason", reason)]
                  (Some ("Banned by " ++ display_name))))
      (fun e => if is_RequestException e then lift (create_api_error_embed e "Write")
                else raise e).

Definition unban_cmd `{Config} `{Runtime} (display_name user_id : string) : M embed :=
  if negb (isdigit user_id) then ret invalid_input
  else
    let headers := [("x-api-key", ROBLOX_API_KEY)] in
    let url := DatastoreEntry ROBLOX_DATASTORE_NAME user_id in
    try_except
      (response <- requests_call (Request DELETE url headers None) ;;
       (* 404 means the user wasn't banned anyway, which is a success *)
       if status_code response =? 404 then
         ret (Embed "User Unbanned"
                    ("User `" ++ user_id ++ "` was not found in the ban list.")
                    EMBED_COLOR_INFO [] None)
       else
         raise_for_status response ;;;
         user_id_int <- int_or_raise user_id ;;
         username <- get_username_from_id user_id_int ;;
         ret (Embed "User Unbanned (DataStore)"
                    ("Successfully unbanned **" ++ py_str username ++ "** (`" ++ user_id ++ "`).")
                    EMBED_COLOR_SUCCESS []
                    (Some ("Unbanned by " ++ display_name))))
      (fun e => if is_RequestException e then lift (create_api_error_embed e "Delete")
                else raise e).

(** ** The ban list *)

(** [list.sort()] on strings: ascending by code point. *)
Module StringOrder <: TotalLeBool.
Definition t := string.
Definition leb := String.leb.
Lemma leb_total : forall a1 a2, leb a1 a2 = true \/ leb a2 a1 = true.
Proof. exact String.leb_total. Qed.
End StringOrder.

Module StringSort := Sort StringOrder.

(** What [get_datastore_ban_list] returns: [(True, strings)] or [(False, e)]. *)
Inductive ban_list_result : Type :=
| Success (ban_list_strings : list string)
| Failure (e : exception).

(** How the [for] loop over the keys ends: at the end of the list, or at a
    [return] inside it. *)
Inductive for_result : Type :=
| Fallthrough (ban_list_strings : list string)
| Returned (e : exception).

Definition list_request `{Config} (cursor_param : string) : request :=
  Request GET (DatastoreEntries ROBLOX_DATASTORE_NAME cursor_param)
          [("x-api-key", ROBLOX_API_KEY)] None.

Definition entry_request `{Config} `{Runtime} (user_id_str : json) : request :=
  Request GET (DatastoreEntry ROBLOX_DATASTORE_NAME (py_str user_id_str))
          [("x-api-key", ROBLOX_API_KEY)] None.

(** [f"&cursor={next_cursor}" if next_cursor else ""] *)
Definition cursor_param_of `{Runtime} (next_cursor : json) : string :=
  if truthy next_cursor then "&cursor=" ++ py_str next_cursor else "".

(** [[key['key'] for key in keys]] *)
Fixpoint key_names `{Runtime} (keys : list json) : M (list json) :=
  match keys with
  | [] => ret []
  | key :: rest =>
      k <- py_item key "key" ;;
      ks <- key_names rest ;;
      ret (k :: ks)
  end.

(** The [while True] loop of the first phase, given [fuel] iterations. *)
Fixpoint list_keys `{Config} `{Runtime} (fuel : nat) (next_cursor : json)
    (ban_keys : list json) : M (list json) :=
  match fuel with
  | O => diverge
  | S fuel =>
      response <- requests_call (list_request (cursor_param_of next_cursor)) ;;
      raise_for_status response ;;;
      data <- response_json response ;;
      listed <- py_get data "keys" (JArr []) ;;
      keys <- py_iter listed ;;
      names <- key_names keys ;;
      let ban_keys := (ban_keys ++ names)%list in
      next_cursor <- py_get data "nextPageCursor" JNull ;;
      if negb (truthy next_cursor) then ret ban_keys
      else list_keys fuel next_cursor ban_keys
  end.

Definition not_found_marker `{Runtime} (user_id_str : json) : string :=
  "[ERROR] Data for key `" ++ py_str user_id_str ++ "` was not found (404).".

Definition fetch_failed_marker `{Runtime} (user_id_str : json) : string :=
  "[ERROR] Could not fetch data for key: `" ++ py_str user_id_str ++ "`".

Definition corrupted_marker `{Runtime} (user_id_str : json) : string :=
  "[ERROR] Corrupted data for key: `" ++ py_str user_id_str ++ "`".

(** [date_str]: "???" unless the timestamp is truthy and formats. *)
Definition date_str_of `{Runtime} (timestamp : json) : string :=
  if truthy timestamp then
    match timestamp with
    | JInt n => match utc_strftime n with Some d => d | None => "???" end
    | JBool true => match utc_strftime 1 with Some d => d | None => "???" end
    | _ => "???"
    end
  else "???".

Definition ban_summary `{Runtime} (date_str : string) (username banned_by reason : json)
    : string :=
  "[" ++ date_str ++ "] **" ++ py_str username ++ "** (By: " ++ py_str banned_by
  ++ ") - *" ++ py_str reason ++ "*".

(** The [try] block of one iteration of the second phase. *)
Definition fetch_entry `{Config} `{Runtime} (user_id_str : json)
    (ban_list_strings : list string) : M (list string) :=
  response <- requests_call (entry_request user_id_str) ;;
  if status_code response =? 404 then
    (* Key listed but data gone? *)
    ret (ban_list_strings ++ [not_found_marker user_id_str])%list
  else
    raise_for_status response ;;;
    ban_data <- response_json response ;;
    username <- py_get ban_data "Username" (JStr ("ID: " ++ py_str user_id_str)) ;;
    banned_by <- py_get ban_data "BannedBy" (JStr "Unknown") ;;
    reason <- py_get ban_data "Reason" (JStr "No reason") ;;
    timestamp <- py_get ban_data "Timestamp" JNull ;;
    let date_str := date_str_of timestamp in
    ret (ban_list_strings ++ [ban_summary date_str username banned_by reason])%list.

Definition is_forbidden (e : exception) : bool :=
  match exn_response e with
  | Some r => status_code r =? 403
  | None => false
  end.

(** The [except] clauses of one iteration: [inr e] is [return False, e]. *)
Definition fetch_handler `{Runtime} (user_id_str : json) (ban_list_strings : list string)
    (e : exception) : M (list string + exception) :=
  if is_RequestException e then
    if is_forbidden e then ret (inr e) (* Fail fast on 403 *)
    else ret (inl (ban_list_strings ++ [fetch_failed_marker user_id_str])%list)
  else if is_JSONDecodeError e then
    ret (inl (ban_list_strings ++ [corrupted_marker user_id_str])%list)
  else raise e.

(** One iteration of the loop: the [try] block under its [except] clauses. *)
Definition fetch_step `{Config} `{Runtime} (user_id_str : json)
    (ban_list_strings : list string) : M (list string + exception) :=
  try_except
    (l <- fetch_entry user_id_str ban_list_strings ;; ret (inl l))
    (fetch_handler user_id_str ban_list_strings).

Fixpoint fetch_entries `{Config} `{Runtime} (ban_keys : list json)
    (ban_list_strings : list string) : M for_result :=
  match ban_keys with
  | [] => ret (Fallthrough ban_list_strings)
  | user_id_str :: rest =>
      step <- fetch_step user_id_str ban_list_strings ;;
      match step with
      | inl ban_list_strings => fetch_entries rest ban_list_strings
      | inr e => ret (Returned e)
      end
  end.

Definition get_datastore_ban_list `{Config} `{Runtime} (fuel : nat) : M ban_list_result :=
  (* 1. List all keys *)
  listed <- try_except
              (ban_keys <- list_keys fuel (JStr "") [] ;; ret (inl ban_keys))
              (fun e => if is_RequestException e then ret (inr e) else raise e) ;;
  match listed with
  | inr e => ret (Failure e)
  | inl [] => ret (Success [])
  | inl ban_keys =>
      (* 2. Get data for each key *)
      looped <- fetch_entries ban_keys [] ;;
      match looped with
      | Returned e => ret (Failure e)
      | Fallthrough ban_list_strings => ret (Success (StringSort.sort ban_list_strings))
      end
  end.

(** ** Reference runtimes, to run the commands *)

(** [strftime("%Y-%m-%d %H:%M")] of a UTC timestamp, by the usual
    days-to-civil-date computation; [datetime] covers the years 1..9999. *)
Definition civil_from_days (z : Z) : Z * Z * Z :=
  let z := z + 719468 in
  let era := z / 146097 in
  let doe := z - era * 146097 in
  let yoe := (doe - doe / 1460 + doe / 36524 - doe / 146096) / 365 in
  let doy := doe - (365 * yoe + yoe / 4 - yoe / 100) in
  let mp := (5 * doy + 2) / 153 in
  let d := doy - (153 * mp + 2) / 5 + 1 in
  let m := if mp <? 10 then mp + 3 else mp - 9 in
  let y := yoe + era * 400 in
  (if m <=? 2 then y + 1 else y, m, d).

Definition pad2 (n : Z) : string := if n <? 10 then "0" ++ str_int n else str_int n.

Definition pad4 (n : Z) : string :=
  if n <? 10 then "000" ++ str_int n
  else if n <? 100 then "00" ++ str_int n
  else if n <? 1000 then "0" ++ str_int n
  else str_int n.

Definition strftime_minutes (t : Z) : option string :=
  let '(y, m, d) := civil_from_days (t / 86400) in
  let secs := t mod 86400 in
  if (1 <=? y) && (y <=? 9999) then
    Some (pad4 y ++ "-" ++ pad2 m ++ "-" ++ pad2 d ++ " "
          ++ pad2 (secs / 3600) ++ ":" ++ pad2 ((secs mod 3600) / 60))
  else None.

Definition exception_name (e : exception) : string :=
  match e with
  | HTTPError r => str_int (status_code r) ++ " Error"
  | RequestException _ => "RequestException"
  | RequestsJSONDecodeError | JSONDecodeError => "Expecting value"
  | FileNotFoundError => "FileNotFoundError"
  | PermissionError => "PermissionError"
  | UnicodeDecodeError => "UnicodeDecodeError"
  | AttributeError => "AttributeError"
  | TypeError => "TypeError"
  | KeyError => "KeyError"
  | IndexError => "IndexError"
  | ValueError => "ValueError"
  | RecursionError => "RecursionError"
  end.

(** A decoder that accepts the empty array and nothing else. *)
Definition only_empty_array (content : string) : outcome json :=
  if (content =? "[]")%string then Ret (JArr []) else Raise JSONDecodeError.

(** A decoder with a nesting limit of three arrays: beyond it the decoder
    raises [RecursionError], as [json.loads] does at the interpreter's
    recursion limit. *)
Definition shallow_decoder (content : string) : outcome json :=
  if (content =? "[]")%string then Ret (JArr [])
  else if (content =? "[[[[]]]]")%string then Raise RecursionError
  else Raise JSONDecodeError.

(** A mocked network: each request is answered by a fixed table.  The
    scenarios format no list or dict, so [py_repr] is a placeholder. *)
Record mock : Type := Mock {
  respond : request -> http_result;
  mock_time : Z
}.

Definition mock_runtime : Runtime := {|
  world := mock;
  http := fun w req => (w, respond w req);
  time_time := mock_time;
  modern_requests := true;
  utc_strftime := strftime_minutes;
  py_repr := fun _ => "[...]";
  str_exception := exception_name
|}.

(** A key-value store that keeps what it is sent, with a user directory:
    entry write, read and delete, a one-page key listing, and the lookup
    of names by id. *)
Record store : Type := Store {
  entries : list (string * json);
  directory : list (Z * string);
  store_time : Z
}.

Fixpoint remove_key (k : string) (l : list (string * json)) : list (string * json) :=
  match l with
  | [] => []
  | (k', v) :: rest =>
      if (k' =? k)%string then remove_key k rest else (k', v) :: remove_key k rest
  end.

Fixpoint directory_name (d : list (Z * string)) (id : Z) : option string :=
  match d with
  | [] => None
  | (i, name) :: rest => if i =? id then Some name else directory_name rest id
  end.

Definition ok (v : json) : http_result := Answer (Response 200 "" (Some v)).
Definition not_found : http_result := Answer (Response 404 "Entry not found" None).
Definition bad_request : http_result := Answer (Response 400 "Bad request" None).

Definition store_http (w : store) (req : request) : store * http_result :=
  match method req, target req with
  | POST, DatastoreEntry _ key =>
      match sent req with
      | Some v =>
          (Store ((key, v) :: remove_key key (entries w)) (directory w) (store_time w),
           ok (JObj [("version", JStr "1")]))
      | None => (w, bad_request)
      end
  | GET, DatastoreEntry _ key =>
      match dict_lookup (entries w) key with
      | Some v => (w, ok v)
      | None => (w, not_found)
      end
  | DELETE, DatastoreEntry _ key =>
      match dict_lookup (entries w) key with
      | Some _ =>
          (Store (remove_key key (entries w)) (directory w) (store_time w),
           Answer (Response 204 "" None))
      | None => (w, not_found)
      end
  | GET, DatastoreEntries _ _ =>
      (w, ok (JObj [("keys", JArr (map (fun kv => JObj [("key", JStr (fst kv))]) (entries w)));
                    ("nextPageCursor", JStr "")]))
  | POST, UsersById =>
      match sent req with
      | Some (JObj [("userIds", JArr [JInt id]); _]) =>
          match directory_name (directory w) id with
          | Some name =>
              (w, ok (JObj [("data", JArr [JObj [("id", JInt id); ("name", JStr name)]])]))
          | None => (w, ok (JObj [("data", JArr [])]))
          end
      | _ => (w, bad_request)
      end
  | _, _ => (w, bad_request)
  end.

Definition store_runtime : Runtime := {|
  world := store;
  http := store_http;
  time_time := store_time;
  modern_requests := true;
  utc_strftime := strftime_minutes;
  py_repr := fun _ => "[...]";
  str_exception := exception_name
|}.

Definition demo_config : Config := {|
  BOT_OWNER_ID := 7;
  ROBLOX_API_KEY := "key";
  ROBLOX_UNIVERSE_ID := "1";
  ROBLOX_DATASTORE_NAME := "TaurusGlobalBans"
|}.


(** ** Paged key listings *)

(** [r] is a page of the key listing: it passes [raise_for_status], its
    body is a dict whose ["keys"] (the empty list when absent) holds dicts
    carrying the names [names] under ["key"], and [cursor] is what
    [data.get('nextPageCursor')] gives. *)
Definition is_page (r : response) (names : list json) (cursor : json) : Prop :=
  (400 <=? status_code r) && (status_code r <? 600) = false
  /\ exists members items,
       body_json r = Some (JObj members)
       /\ match dict_lookup members "keys" with Some v => v | None => JArr [] end
          = JArr items
       /\ Forall2 (fun item name =>
                     exists m, item = JObj m /\ dict_lookup m "key" = Some name)
                  items names
       /\ match dict_lookup members "nextPageCursor" with Some c => c | None => JNull end
          = cursor.

(** [paged s c pages reqs s']: from state [s] and cursor [c], the listing
    endpoint answers the requests [reqs] with the pages [pages], every page
    but the last carrying a cursor, and the state is then [s']. *)
Inductive paged `{Config} `{Runtime}
  : state -> json -> list (list json) -> list request -> state -> Prop :=
| paged_last : forall s c w r names cursor,
    http (env s) (list_request (cursor_param_of c)) = (w, Answer r) ->
    is_page r names cursor ->
    truthy cursor = false ->
    paged s c [names] [list_request (cursor_param_of c)]
          (after s w (list_request (cursor_param_of c)))
| paged_more : forall s c w r names cursor pages reqs s',
    http (env s) (list_request (cursor_param_of c)) = (w, Answer r) ->
    is_page r names cursor ->
    truthy cursor = true ->
    paged (after s w (list_request (cursor_param_of c))) cursor pages reqs s' ->
    paged s c (names :: pages) (list_request (cursor_param_of c) :: reqs) s'.

(** The request [get_username_from_id] makes. *)
Definition lookup_request (user_id : Z) : request :=
  Request POST UsersById []
          (Some (JObj [("userIds", JArr [JInt user_id]); ("excludeBannedUsers", JBool false)])).

(** The request [banid_cmd] makes to write [ban_data]. *)
Definition write_request `{Config} (user_id : string) (ban_data : json) : request :=
  Request POST (DatastoreEntry ROBLOX_DATASTORE_NAME user_id)
          [("x-api-key", ROBLOX_API_KEY); ("Content-Type", "application/json")]
          (Some ban_data).

Definition delete_request `{Config} (user_id : string) : request :=
  Request DELETE (DatastoreEntry ROBLOX_DATASTORE_NAME user_id)
          [("x-api-key", ROBLOX_API_KEY)] None.

(** The lookup has failed: the transport raised, or the answer has a
    status [raise_for_status] raises on, or its ["data"] is empty. *)
Definition lookup_failed (res : http_result) : Prop :=
  match res with
  | Fails _ => True
  | Answer r =>
      (400 <=? status_code r) && (status_code r <? 600) = true
      \/ ((400 <=? status_code r) && (status_code r <? 600) = false
          /\ exists members,
               body_json r = Some (JObj members)
               /\ truthy (match dict_lookup members "data" with
                          | Some v => v
                          | None => JArr []
                          end) = false)
  end.

(** Mocked networks for the scenarios below. *)
Definition key_page (names : list string) (cursor : option string) : json :=
  JObj (("keys", JArr (map (fun n => JObj [("key", JStr n)]) names))
        :: match cursor with
           | Some c => [("nextPageCursor", JStr c)]
           | None => []
           end).

Definition record_of (username : string) (timestamp : Z) : json :=
  JObj [("Reason", JStr "cheating"); ("BannedBy", JStr "Alice (Discord)");
        ("Username", JStr username); ("Timestamp", JInt timestamp)].

Definition forbidden : response := Response 403 "Forbidden" None.

(** Two keys listed; the record of the second may not be read. *)
Definition forbidden_mock : mock :=
  Mock (fun req =>
          match target req with
          | DatastoreEntries _ _ => ok (key_page ["1"; "2"] None)
          | DatastoreEntry _ key =>
              if (key =? "1")%string then ok (record_of "Bob" 1700000000)
              else Answer forbidden
          | UsersById => bad_request
          end) 1700000000.

(** Two keys listed; the record of the first is gone. *)
Definition missing_mock : mock :=
  Mock (fun req =>
          match target req with
          | DatastoreEntries _ _ => ok (key_page ["1"; "2"] None)
          | DatastoreEntry _ key =>
              if (key =? "1")%string then not_found
              else ok (record_of "Bob" 1700000000)
          | UsersById => bad_request
          end) 1700000000.

(** The keys come in two pages: a cursor, then none. *)
Definition paged_mock : mock :=
  Mock (fun req =>
          match target req with
          | DatastoreEntries _ cursor_param =>
              if (cursor_param =? "")%string then ok (key_page ["1"] (Some "c2"))
              else ok (key_page ["2"] None)
          | DatastoreEntry _ key => ok (record_of key 1700000000)
          | UsersById => bad_request
          end) 1700000000.

(** Key 1 has no usable timestamp, key 2 has one. *)
Definition undated_mock : mock :=
  Mock (fun req =>
          match target req with
          | DatastoreEntries _ _ => ok (key_page ["1"; "2"] None)
          | DatastoreEntry _ key =>
              if (key =? "1")%string then ok (record_of "Zed" 0)
              else ok (record_of "Amy" 1700000000)
          | UsersById => bad_request
          end) 1700000000.

(** The directory answers with status 300 and a body that names the user. *)
Definition redirect_mock : mock :=
  Mock (fun req =>
          match target req with
          | UsersById =>
              Answer (Response 300 "Multiple Choices"
                               (Some (JObj [("data", JArr [JObj [("name", JStr "Bob")]])])))
          | _ => ok (JObj [])
          end) 1700000000.

(** The directory cannot be reached. *)
Definition unreachable_directory_mock : mock :=
  Mock (fun req =>
          match target req with
          | UsersById => Fails None
          | _ => ok (JObj [])
          end) 1700000000.

(** Nothing is stored under any key. *)
Definition empty_mock : mock :=
  Mock (fun req =>
          match target req with
          | DatastoreEntry _ _ => not_found
          | _ => ok (JObj [])
          end) 1700000000.

(** * The rest of the command surface *)

(** ** The whitelist over time *)

(** One use of [/whitelist]: who calls, with which action and user id. *)
Record whitelist_call : Type := {
  caller : Z;
  call_action : string;
  call_user_id : option string
}.

(** The state after a sequence of uses of [/whitelist], in order. *)
Fixpoint whitelist_commands `{Config} (calls : list whitelist_call) (s : whitelist_state)
    : whitelist_state :=
  match calls with
  | [] => s
  | c :: rest =>
      whitelist_commands rest
        (snd (whitelist_command (caller c) (call_action c) (call_user_id c) s))
  end.

(** ** The reply of [/banlist] *)

Fixpoint starts_with (needle s : string) : bool :=
  match needle, s with
  | EmptyString, _ => true
  | String a needle', String b s' => Ascii.eqb a b && starts_with needle' s'
  | String _ _, EmptyString => false
  end.

(** [needle in s] for two strings. *)
Fixpoint is_infix (needle s : string) : bool :=
  starts_with needle s
  || match s with
     | EmptyString => false
     | String _ rest => is_infix needle rest
     end.

(** [needle in v] for a string [needle]: a substring of a string, an
    element of a list, a key of a dict; nothing else can be searched. *)
Definition py_contains `{Runtime} (needle : string) (v : json) : M bool :=
  match v with
  | JStr s => ret (is_infix needle s)
  | JArr items =>
      ret (existsb (fun x => match x with
                             | JStr t => (t =? needle)%string
                             | _ => false
                             end) items)
  | JObj members => ret (existsb (fun kv => (fst kv =? needle)%string) members)
  | JNull | JBool _ | JInt _ => raise TypeError
  end.

(** The embed [banlist_cmd] builds when the listing has failed with [data]. *)
Definition ban_list_failure_embed `{Runtime} (data : exception) : M embed :=
  match (if is_RequestException data then exn_response data else None) with
  | Some r =>
      if status_code r =? 403 then
        try_except
          (error_json <- response_json r ;;
           message <- py_get error_json "message" (JStr "") ;;
           scoped <- py_contains "INSUFFICIENT_SCOPE" message ;;
           if scoped then
             message <- py_get error_json "message" (JStr "") ;;
             listing <- py_contains "ListEntries" message ;;
             if listing then lift (create_api_error_embed data "List Keys")
             else lift (create_api_error_embed data "Read")
           else lift (create_api_error_embed data "Read / List Keys"))
          (fun e => if is_JSONDecodeError e
                    then lift (create_api_error_embed data "Read / List Keys")
                    else raise e)
      else
        ret (Embed "Error"
                   ("Failed to retrieve ban list: " ++ newline ++ "```"
                    ++ str_exception data ++ "```")
                   EMBED_COLOR_ERROR [] None)
  | None =>
      ret (Embed "Error"
                 ("Failed to retrieve ban list: " ++ newline ++ "```"
                  ++ str_exception data ++ "```")
                 EMBED_COLOR_ERROR [] None)
  end.

Definition field_name (part : Z) : string := "Ban List (Part " ++ str_int part ++ ")".

(** The loop that cuts the entries into embed fields: the fields added so
    far, [current_field_value] and [part]. *)
Fixpoint fill_fields (data : list string) (added : list (string * string))
    (current_field_value : string) (part : Z) : list (string * string) * string * Z :=
  match data with
  | [] => (added, current_field_value, part)
  | entry :: rest =>
      if (1024 <? py_len current_field_value + py_len entry + 2)%nat then
        fill_fields rest (added ++ [(field_name part, current_field_value)])
                    (entry ++ newline) (part + 1)
      else
        fill_fields rest added (current_field_value ++ entry ++ newline) part
  end.

(** The fields before the test on their number. *)
Definition cut_fields (data : list string) : list (string * string) :=
  let '(added, current_field_value, part) := fill_fields data [] "" 1 in
  if negb (current_field_value =? "")%string
  then (added ++ [(field_name part, current_field_value)])%list
  else added.

Definition too_large_field : string * string :=
  ("Error", "Ban list is too large to display in a single embed.").

(** The fields of the embed [banlist_cmd] sends for a non-empty list. *)
Definition ban_list_fields (data : list string) : list (string * string) :=
  let cut := cut_fields data in
  if (25 <? List.length cut)%nat then [too_large_field] else cut.

(** [banlist_cmd]: the embed sent, and its [timestamp] when it has one
    (the clock, in whole seconds). *)
Definition banlist_cmd `{Config} `{Runtime} (fuel : nat) : M (embed * option Z) :=
  result <- get_datastore_ban_list fuel ;;
  match result with
  | Failure data =>
      e <- ban_list_failure_embed data ;;
      ret (e, None)
  | Success data =>
      now <- clock ;;
      match data with
      | [] =>
          ret (Embed "Taurus Global Ban List" "The DataStore ban list is empty."
                     EMBED_COLOR_INFO [] None, Some now)
      | _ =>
          ret (Embed "Taurus Global Ban List"
                     ("Found " ++ str_int (Z.of_nat (List.length data)) ++ " total entries.")
                     EMBED_COLOR_INFO (ban_list_fields data) None, Some now)
      end
  end.

(** ** Banning by name, and the messaging commands *)

(** The two other addresses the bot posts to, each an operation of its
    own on the world: the lookup of ids by username
    ([https://users.roblox.com/v1/usernames/users], with [json=payload]) and
    the messaging topic (with [data=json.dumps({"message": json.dumps(payload)})];
    the operation is given [payload]).  The log keeps the requests to the
    addresses of [url] only. *)
Class Services `{Runtime} : Type := {
  INTERNAL_SECRET_KEY : string;
  usernames_post : world -> json -> world * http_result;
  messaging_post : world -> json -> world * http_result
}.

Definition ROBLOX_MESSAGE_TOPIC : string := "TaurusAdminCommands".

Definition service_call `{Runtime} (post : world -> json -> world * http_result)
    (payload : json) : M response :=
  fun s =>
    let '(w, r) := post (env s) payload in
    let s' := {| env := w; log := log s |} in
    match r with
    | Answer resp => (Ret resp, s')
    | Fails resp => (Raise (RequestException resp), s')
    end.

(** The first step of [ban_cmd]: the id and the name the directory gives
    for [player], or the embed that ends the command. *)
Definition lookup_player `{Runtime} `{!Services} (player : string)
    : M (json * json + embed) :=
  let lookup_payload :=
    JObj [("usernames", JArr [JStr player]); ("excludeBannedUsers", JBool false)] in
  try_except
    (response <- service_call usernames_post lookup_payload ;;
     raise_for_status response ;;;
     d <- response_json response ;;
     data <- py_get d "data" (JArr []) ;;
     if truthy data then
       first <- py_first data ;;
       user_id <- py_get first "id" JNull ;;
       first <- py_first data ;;
       username <- py_get first "name" JNull ;;
       ret (inl (user_id, username))
     else
       ret (inr (Embed "User Not Found"
                       ("Could not find a Roblox user named `" ++ player ++ "`.")
                       EMBED_COLOR_ERROR [] None)))
    (fun e =>
       (* except Exception as e *)
       ret (inr (Embed "Username Lookup Failed"
                       ("An error occurred trying to find `" ++ player ++ "`." ++ newline
                        ++ "```" ++ str_exception e ++ "```")
                       EMBED_COLOR_ERROR [] None))).

(** [ban_cmd]: look the player up by name, then write the ban under the id
    found. *)
Definition ban_cmd `{Config} `{Runtime} `{!Services} (display_name player : string)
    (reason : option string) : M embed :=
  let reason := match reason with Some r => r | None => default_reason end in
  (* 1. Get UserId from Username *)
  found <- lookup_player player ;;
  match found with
  | inr e => ret e
  | inl (user_id, username) =>
      (* 2. Ban the UserId *)
      now <- clock ;;
      let ban_data := ban_record reason display_name username now in
      let headers := [("x-api-key", ROBLOX_API_KEY); ("Content-Type", "application/json")] in
      let url := DatastoreEntry ROBLOX_DATASTORE_NAME (py_str user_id) in
      try_except
        (response <- requests_call (Request POST url headers (Some ban_data)) ;;
         raise_for_status response ;;;
         ret (Embed "User Banned (DataStore)"
                    ("Successfully banned **" ++ py_str username ++ "** (`"
                     ++ py_str user_id ++ "`).")
                    EMBED_COLOR_SUCCESS [("Reason", reason)]
                    (Some ("Banned by " ++ display_name))))
        (fun e => if is_RequestException e then lift (create_api_error_embed e "Write")
                  else raise e)
  end.

(** [d[k] = v] on the items of a dict. *)
Fixpoint dict_set (members : list (string * json)) (k : string) (v : json)
    : list (string * json) :=
  match members with
  | [] => [(k, v)]
  | (k', v') :: rest =>
      if (k' =? k)%string then (k, v) :: rest else (k', v') :: dict_set rest k v
  end.

(** [send_roblox_message]: [(True, text)] or [(False, text)]. *)
Definition send_roblox_message `{Runtime} `{!Services} (payload : list (string * json))
    : M (bool * string) :=
  let payload := dict_set payload "internal_secret" (JStr INTERNAL_SECRET_KEY) in
  try_except
    (response <- service_call messaging_post (JObj payload) ;;
     raise_for_status response ;;;
     ret (true, "Request sent to Roblox game servers."))
    (fun e =>
       if is_RequestException e then
         let error_message := "Failed to send command to Roblox: " ++ str_exception e in
         match exn_response e with
         | Some r =>
             try_except
               (error_details <- response_json r ;;
                detail <- py_get error_details "message" (JStr (text r)) ;;
                ret (false, error_message ++ newline ++ "Details: " ++ py_str detail))
               (fun e' =>
                  if is_JSONDecodeError e'
                  then ret (false, error_message ++ newline ++ "Response: " ++ text r)
                  else raise e')
         | None => ret (false, error_message)
         end
       else ret (false, "An unexpected error occurred: " ++ str_exception e)).

(** A Python [str] or [None]. *)
Definition str_or_none (v : option string) : json :=
  match v with
  | Some s => JStr s
  | None => JNull
  end.

Definition create_run_command_payload (user : Z) (display_name command : string)
    (target arguments : option string) : list (string * json) :=
  [("command_type", JStr "RUN_COMMAND");
   ("discord_user_id", JStr (str_int user));
   ("discord_user_name", JStr display_name);
   ("command", JStr command);
   ("target", str_or_none target);
   ("arguments", str_or_none arguments)].

Definition send_game_command_embed `{Runtime} `{!Services} (user : Z)
    (display_name command : string) (target arguments : option string) : M embed :=
  let payload := create_run_command_payload user display_name command target arguments in
  sent_message <- send_roblox_message payload ;;
  let '(success, message) := sent_message in
  if success then
    ret (Embed ("Command Sent: `:" ++ command ++ "`") message EMBED_COLOR_SUCCESS [] None)
  else
    ret (Embed ("Command Failed: `:" ++ command ++ "`") message EMBED_COLOR_ERROR [] None).

Definition kick_cmd `{Runtime} `{!Services} (user : Z) (display_name player : string)
    (reason : option string) : M embed :=
  send_game_command_embed user display_name "kick" (Some player) reason.

Definition announce_cmd `{Runtime} `{!Services} (user : Z) (display_name message : string)
    : M embed :=
  send_game_command_embed user display_name "announce" None (Some message).

Definition fly_cmd `{Runtime} `{!Services} (user : Z) (display_name player : string)
    : M embed :=
  send_game_command_embed user display_name "fly" (Some player) None.

Definition unfly_cmd `{Runtime} `{!Services} (user : Z) (display_name player : string)
    : M embed :=
  send_game_command_embed user display_name "unfly" (Some player) None.

Definition serverlock_cmd `{Runtime} `{!Services} (user : Z) (display_name : string)
    : M embed :=
  send_game_command_embed user display_name "serverlock" None None.

Definition unlock_cmd `{Runtime} `{!Services} (user : Z) (display_name : string)
    : M embed :=
  send_game_command_embed user display_name "unlock" None None.

(** [players_cmd] and [serveruptime_cmd] differ in the command type and
    the title only. *)
Definition info_request `{Runtime} `{!Services} (command_type sent_title : string)
    (user : Z) (display_name : string) : M embed :=
  let payload :=
    [("command_type", JStr command_type);
     ("discord_user_id", JStr (str_int user));
     ("discord_user_name", JStr display_name)] in
  sent_message <- send_roblox_message payload ;;
  let '(success, message) := sent_message in
  if success then
    ret (Embed sent_title
               "Request sent. Results will be logged to your 'BotLogs' webhook channel."
               EMBED_COLOR_SUCCESS [] None)
  else ret (Embed "Command Failed" message EMBED_COLOR_ERROR [] None).

Definition players_cmd `{Runtime} `{!Services} : Z -> string -> M embed :=
  info_request "GET_PLAYER_LIST" "Player List Requested".

Definition serveruptime_cmd `{Runtime} `{!Services} : Z -> string -> M embed :=
  info_request "GET_SERVER_UPTIME" "Server Uptime Requested".

(** Further mocked networks. *)

(** The directory answers with data that is no list. *)
Definition malformed_directory_mock : mock :=
  Mock (fun req =>
          match target req with
          | UsersById => ok (JObj [("data", JInt 5)])
          | _ => ok (JObj [])
          end) 1700000000.

(** The directory knows user 12345 as Bob; the store refuses every entry
    request with status 403. *)
Definition read_only_mock : mock :=
  Mock (fun req =>
          match target req with
          | UsersById => ok (JObj [("data", JArr [JObj [("name", JStr "Bob")]])])
          | DatastoreEntry _ _ => Answer forbidden
          | DatastoreEntries _ _ => ok (key_page [] None)
          end) 1700000000.

(** The directory knows every user as Bob; the store accepts everything. *)
Definition accepting_mock : mock :=
  Mock (fun req =>
          match target req with
          | UsersById => ok (JObj [("data", JArr [JObj [("name", JStr "Bob")]])])
          | _ => Answer (Response 204 "" None)
          end) 1700000000.

(** The key listing is refused with the given message. *)
Definition refused_listing_mock (message : string) : mock :=
  Mock (fun req =>
          match target req with
          | DatastoreEntries _ _ =>
              Answer (Response 403 message (Some (JObj [("message", JStr message)])))
          | _ => ok (JObj [])
          end) 1700000000.

(** Two keys listed: the first cannot be fetched (status 500), the second
    holds an empty record. *)
Definition failing_fetch_mock : mock :=
  Mock (fun req =>
          match target req with
          | DatastoreEntries _ _ => ok (key_page ["1"; "2"] None)
          | DatastoreEntry _ key =>
              if (key =? "1")%string then Answer (Response 500 "Internal error" None)
              else ok (JObj [])
          | UsersById => bad_request
          end) 1700000000.

(** The strings of a list, one after the other. *)
Definition joined (l : list string) : string := fold_right String.append "" l.

(** The permission [banlist_cmd] names for a refusal whose body carries
    the message [m]. *)
Definition permission_for (m : string) : string :=
  if is_infix "INSUFFICIENT_SCOPE" m then
    if is_infix "ListEntries" m then "List Keys" else "Read"
  else "Read / List Keys".

(** An entry of 1023 characters. *)
Definition long_entry : string := string_of_list_ascii (repeat "a"%char 1023).

(** Mocked services: the name lookup and the topic answer by fixed
    tables; the secret is "s3cret". *)
Definition mock_services (names : json -> http_result) (topic : json -> http_result)
    : @Services mock_runtime := {|
  INTERNAL_SECRET_KEY := "s3cret";
  usernames_post := fun w payload => (w, names payload);
  messaging_post := fun w message => (w, topic message)
|}.

(** A directory of names that knows every player as Bob, with id 12345. *)
Definition bob_directory (payload : json) : http_result :=
  ok (JObj [("data", JArr [JObj [("requestedUsername", JStr "bob");
                                  ("id", JInt 12345); ("name", JStr "Bob")]])]).

(** A directory of names that knows nobody. *)
Definition empty_directory (payload : json) : http_result :=
  ok (JObj [("data", JArr [])]).

(** An identifier of 4301 digits, one more than [int] converts. *)
Definition long_id : string :=
  string_of_list_ascii (repeat "1"%char (S int_max_str_digits)).

(** The identifier 42 typed with leading zeros, 4301 digits in all. *)
Definition padded_id : string :=
  string_of_list_ascii (repeat "0"%char 4299) ++ "42".

Definition accepting_topic (message : json) : http_result := ok (JObj []).


(** * Properties *)

(** ** Identifiers and list membership *)

Lemma int_digits_total : forall s acc,
  all_digits s = true -> exists n, int_digits acc s = Some n.
Proof.
  induction s as [| c rest IH]; intros acc Hd; simpl in *.
  - now exists acc.
  - apply andb_true_iff in Hd as [Hc Hrest].
    rewrite Hc. now apply IH.
Qed.

Lemma isdigit_py_int : forall s,
  isdigit s = true ->
  (String.length s <= int_max_str_digits)%nat ->
  exists n, py_int s = Some n.
Proof.
  intros [| c rest] Hd Hlen; [discriminate |].
  unfold isdigit in Hd. unfold py_int.
  apply Nat.leb_le in Hlen. rewrite Hlen. now apply int_digits_total.
Qed.

Lemma py_int_too_long : forall s,
  (int_max_str_digits < String.length s)%nat -> py_int s = None.
Proof.
  intros [| c rest] Hlen; [reflexivity |].
  unfold py_int. apply Nat.leb_gt in Hlen. now rewrite Hlen.
Qed.

Lemma isdigit_py_int_none : forall s,
  isdigit s = true -> py_int s = None -> (int_max_str_digits < String.length s)%nat.
Proof.
  intros s Hd Hnone.
  destruct (Nat.le_gt_cases (String.length s) int_max_str_digits) as [Hle | Hgt];
    [| exact Hgt].
  destruct (isdigit_py_int s Hd Hle) as [n Hn]. congruence.
Qed.

Lemma py_int_isdigit : forall s n, py_int s = Some n -> isdigit s = true.
Proof.
  intros [| c rest] n Hint; [discriminate |].
  unfold py_int in Hint.
  destruct (String.length (String c rest) <=? int_max_str_digits)%nat; [| discriminate].
  unfold isdigit. clear - Hint. revert Hint. generalize 0 as acc.
  generalize (String c rest) as s. clear.
  induction s as [| d s IH]; intros acc Hint; simpl in *; [reflexivity |].
  destruct (is_digit_char d); [| discriminate]. simpl. now apply IH with (acc := 10 * acc + (Z.of_nat (nat_of_ascii d) - 48)).
Qed.

Lemma isdigit_not_missing : forall u,
  isdigit u = true -> missing_or_not_digits (Some u) = false.
Proof.
  intros u Hd. unfold missing_or_not_digits. rewrite Hd.
  destruct u; [discriminate | reflexivity].
Qed.

Lemma py_in_In : forall x l, py_in x l = true <-> In x l.
Proof.
  intros x l. unfold py_in. rewrite existsb_exists. split.
  - intros [y [Hy Heq]]. apply Z.eqb_eq in Heq. now subst.
  - intros Hx. exists x. split; [assumption | apply Z.eqb_refl].
Qed.

Lemma py_in_not_In : forall x l, py_in x l = false <-> ~ In x l.
Proof.
  intros x l. rewrite <- py_in_In. now destruct (py_in x l).
Qed.

Lemma list_remove_incl : forall x y l, In x (list_remove y l) -> In x l.
Proof.
  induction l as [| z rest IH]; simpl; [tauto |].
  destruct (z =? y); simpl; intuition.
Qed.

Lemma list_remove_first : forall x l,
  In x l -> exists pre post, l = (pre ++ x :: post)%list /\ ~ In x pre
                             /\ list_remove x l = (pre ++ post)%list.
Proof.
  induction l as [| z rest IH]; simpl; [tauto |].
  intros Hin. destruct (Z.eqb_spec z x) as [-> | Hne].
  - exists [], rest. simpl. tauto.
  - destruct Hin as [Heq | Hin]; [congruence |].
    destruct (IH Hin) as (pre & post & -> & Hpre & Hrm).
    exists (z :: pre), post. simpl. rewrite Hrm. intuition.
Qed.

(** ** The whitelist *)

Section Whitelist.
Context `{Config}.

Lemma manage_whitelist_add_owner : forall s user_id,
  isdigit user_id = true -> py_int user_id = Some BOT_OWNER_ID ->
  manage_whitelist "add" (Some user_id) s
  = (Embed "Whitelist Management" "The bot owner is always authorized."
           EMBED_COLOR_INFO [] None, s).
Proof.
  intros s user_id Hd Hint. unfold manage_whitelist.
  rewrite (isdigit_not_missing _ Hd), Hint, Z.eqb_refl. reflexivity.
Qed.

Lemma manage_whitelist_add_present : forall s user_id n,
  isdigit user_id = true -> py_int user_id = Some n ->
  In n (whitelisted_users s) ->
  snd (manage_whitelist "add" (Some user_id) s) = s
  /\ color (fst (manage_whitelist "add" (Some user_id) s)) = EMBED_COLOR_INFO.
Proof.
  intros s user_id n Hd Hint Hin. unfold manage_whitelist.
  rewrite (isdigit_not_missing _ Hd), Hint.
  apply py_in_In in Hin. rewrite Hin.
  destruct (n =? BOT_OWNER_ID); simpl; split; reflexivity.
Qed.

Lemma manage_whitelist_remove_absent : forall s user_id n,
  isdigit user_id = true -> py_int user_id = Some n ->
  ~ In n (whitelisted_users s) ->
  manage_whitelist "remove" (Some user_id) s
  = (Embed "Whitelist Management"
           ("User ID `" ++ str_int n ++ "` was not found in the whitelist.")
           EMBED_COLOR_INFO [] None, s).
Proof.
  intros s user_id n Hd Hint Hin. unfold manage_whitelist.
  rewrite (isdigit_not_missing _ Hd), Hint.
  apply py_in_not_In in Hin. rewrite Hin. reflexivity.
Qed.

(** No action puts the owner into a whitelist that does not hold it. *)
Lemma manage_whitelist_keeps_owner_out : forall action_value user_id s,
  ~ In BOT_OWNER_ID (whitelisted_users s) ->
  ~ In BOT_OWNER_ID (whitelisted_users (snd (manage_whitelist action_value user_id s))).
Proof.
  intros action_value user_id s Hout. unfold manage_whitelist.
  destruct (action_value =? "add")%string.
  - destruct (missing_or_not_digits user_id); [exact Hout |].
    destruct (py_int _) as [n |]; [| exact Hout].
    destruct (Z.eqb_spec n BOT_OWNER_ID) as [| Hne]; [exact Hout |].
    destruct (py_in n (whitelisted_users s)); simpl; [exact Hout |].
    rewrite in_app_iff. simpl. intuition.
  - destruct (action_value =? "remove")%string.
    + destruct (missing_or_not_digits user_id); [exact Hout |].
      destruct (py_int _) as [n |]; [| exact Hout].
      destruct (py_in n (whitelisted_users s)); simpl; [| exact Hout].
      intros Hin. apply Hout. eapply list_remove_incl. exact Hin.
    + destruct (action_value =? "list")%string; [| exact Hout].
      destruct (whitelisted_users s) eqn:E; simpl; rewrite ?E; exact Hout.
Qed.

Lemma owner_is_whitelisted : forall users, is_whitelisted BOT_OWNER_ID users = (true, None).
Proof. intros users. unfold is_whitelisted. now rewrite Z.eqb_refl. Qed.
End Whitelist.

(** C1 (amended): whatever the whitelist holds, [add] aimed at the owner
    changes nothing and answers with the informational "always authorized"
    embed; [remove] aimed at the owner changes nothing and answers with an
    informational embed whenever the owner is not in the collection; no
    action puts the owner into a collection that does not hold it; and the
    owner passes the [is_whitelisted] check for every collection. *)
Theorem owner_never_stored_always_authorized `{Config} :
  forall (s : whitelist_state) (user_id : string) (users : list Z),
    isdigit user_id = true ->
    py_int user_id = Some BOT_OWNER_ID ->
    manage_whitelist "add" (Some user_id) s
    = (Embed "Whitelist Management" "The bot owner is always authorized."
             EMBED_COLOR_INFO [] None, s)
    /\ (~ In BOT_OWNER_ID (whitelisted_users s) ->
        manage_whitelist "remove" (Some user_id) s
        = (Embed "Whitelist Management"
                 ("User ID `" ++ str_int BOT_OWNER_ID ++ "` was not found in the whitelist.")
                 EMBED_COLOR_INFO [] None, s))
    /\ (forall action_value uid,
          ~ In BOT_OWNER_ID (whitelisted_users s) ->
          ~ In BOT_OWNER_ID
               (whitelisted_users (snd (manage_whitelist action_value uid s))))
    /\ is_whitelisted BOT_OWNER_ID users = (true, None).
Proof.
  intros s user_id users Hd Hint. repeat split.
  - now apply manage_whitelist_add_owner.
  - intros Hout. now apply manage_whitelist_remove_absent.
  - intros action_value uid. apply manage_whitelist_keeps_owner_out.
  - apply owner_is_whitelisted.
Qed.

Lemma owner_never_stored_always_authorized_witness :
  let s := {| whitelisted_users := [12]; saved := [] |} in
  @manage_whitelist demo_config "add" (Some "7") s
  = (Embed "Whitelist Management" "The bot owner is always authorized."
           EMBED_COLOR_INFO [] None, s)
  /\ @manage_whitelist demo_config "remove" (Some "7") s
     = (Embed "Whitelist Management" "User ID `7` was not found in the whitelist."
              EMBED_COLOR_INFO [] None, s)
  /\ @is_whitelisted demo_config 7 [] = (true, None).
Proof.
  intros s.
  destruct (@owner_never_stored_always_authorized demo_config s "7" []
              eq_refl eq_refl) as (Hadd & Hremove & _ & Hauth).
  split; [exact Hadd | split; [| exact Hauth]].
  apply Hremove. simpl. intros [Heq | []]. discriminate Heq.
Defined.

(** C1, as stated, fails: when the collection holds the owner's id (a
    [whitelist.json] that lists it), [remove] aimed at the owner deletes
    it, saves, and reports success. *)
Lemma remove_owner_counterexample :
  let s := {| whitelisted_users := [7]; saved := [] |} in
  let r := @manage_whitelist demo_config "remove" (Some "7") s in
  py_int "7" = Some (@BOT_OWNER_ID demo_config)
  /\ In (@BOT_OWNER_ID demo_config) (whitelisted_users s)
  /\ r = (Embed "Whitelist Management" "User ID `7` removed from the whitelist."
                EMBED_COLOR_SUCCESS [] None,
          {| whitelisted_users := []; saved := [[]] |})
  /\ snd r <> s
  /\ color (fst r) <> EMBED_COLOR_INFO.
Proof.
  simpl. repeat split; try reflexivity; try (now left); discriminate.
Qed.

(** C7, as the code has it: for an id typed as a digit string that [int]
    converts, adding an id that is already in the collection, or removing
    one that is not, leaves the collection and the saves as they were and
    answers with an informational embed. *)
Theorem whitelist_add_remove_idempotent `{Config} :
  forall (s : whitelist_state) (user_id : string) (n : Z),
    isdigit user_id = true ->
    py_int user_id = Some n ->
    (In n (whitelisted_users s) ->
       snd (manage_whitelist "add" (Some user_id) s) = s
       /\ color (fst (manage_whitelist "add" (Some user_id) s)) = EMBED_COLOR_INFO)
    /\ (~ In n (whitelisted_users s) ->
       snd (manage_whitelist "remove" (Some user_id) s) = s
       /\ color (fst (manage_whitelist "remove" (Some user_id) s)) = EMBED_COLOR_INFO).
Proof.
  intros s user_id n Hd Hint. split.
  - intros Hin. now apply manage_whitelist_add_present with n.
  - intros Hout. rewrite (manage_whitelist_remove_absent s user_id n Hd Hint Hout).
    split; reflexivity.
Qed.

Lemma whitelist_add_remove_idempotent_witness :
  let s := {| whitelisted_users := [42]; saved := [[42]] |} in
  (snd (@manage_whitelist demo_config "add" (Some "42") s) = s
   /\ color (fst (@manage_whitelist demo_config "add" (Some "42") s)) = EMBED_COLOR_INFO)
  /\ (snd (@manage_whitelist demo_config "remove" (Some "43") s) = s
   /\ color (fst (@manage_whitelist demo_config "remove" (Some "43") s)) = EMBED_COLOR_INFO).
Proof.
  intros s. split.
  - apply (proj1 (@whitelist_add_remove_idempotent demo_config s "42" 42 eq_refl eq_refl)).
    simpl. now left.
  - apply (proj2 (@whitelist_add_remove_idempotent demo_config s "43" 43 eq_refl eq_refl)).
    simpl. intros [Heq | []]. discriminate Heq.
Defined.

(** An identifier of more digits than [int] converts (leading zeros
    count) takes the [except ValueError] path of [add] and [remove]: the
    reply is "Invalid User ID format." in the error colour, and nothing
    changes. *)
Remark manage_whitelist_too_long `{Config} :
  forall (s : whitelist_state) (action_value user_id : string),
    isdigit user_id = true ->
    (int_max_str_digits < String.length user_id)%nat ->
    action_value = "add" \/ action_value = "remove" ->
    manage_whitelist action_value (Some user_id) s
    = (Embed "Whitelist Management" "Invalid User ID format." EMBED_COLOR_ERROR [] None, s).
Proof.
  intros s action_value user_id Hd Hlen Haction.
  unfold manage_whitelist.
  rewrite (isdigit_not_missing _ Hd), (py_int_too_long _ Hlen).
  destruct Haction as [-> | ->]; reflexivity.
Qed.

(** C7, as stated, fails for an id typed with more digits than [int]
    converts.  The id 42 is in the collection; typed with leading zeros,
    4301 digits in all, [add] does not answer that it is already there but
    "Invalid User ID format.", in the error colour.  Likewise [remove] of
    an id of 4301 digits, which is not in the collection, answers with that
    error and not with an informational embed. *)
Lemma idempotent_long_identifier_counterexample :
  let s := {| whitelisted_users := [42]; saved := [] |} in
  let added := @manage_whitelist demo_config "add" (Some padded_id) s in
  let removed := @manage_whitelist demo_config "remove" (Some long_id) s in
  isdigit padded_id = true
  /\ int_digits 0 padded_id = Some 42
  /\ In 42 (whitelisted_users s)
  /\ added
     = (Embed "Whitelist Management" "Invalid User ID format." EMBED_COLOR_ERROR [] None, s)
  /\ color (fst added) <> EMBED_COLOR_INFO
  /\ isdigit long_id = true
  /\ (exists n, int_digits 0 long_id = Some n /\ ~ In n (whitelisted_users s))
  /\ removed
     = (Embed "Whitelist Management" "Invalid User ID format." EMBED_COLOR_ERROR [] None, s)
  /\ color (fst removed) <> EMBED_COLOR_INFO.
Proof.
  intros s added removed.
  assert (Hpadded : isdigit padded_id = true) by (vm_compute; reflexivity).
  assert (Hlong : isdigit long_id = true) by (vm_compute; reflexivity).
  assert (Hadded : added = (Embed "Whitelist Management" "Invalid User ID format."
                                  EMBED_COLOR_ERROR [] None, s)).
  { apply manage_whitelist_too_long; [exact Hpadded | | now left].
    apply Nat.ltb_lt. vm_compute. reflexivity. }
  assert (Hremoved : removed = (Embed "Whitelist Management" "Invalid User ID format."
                                      EMBED_COLOR_ERROR [] None, s)).
  { apply manage_whitelist_too_long; [exact Hlong | | now right].
    apply Nat.ltb_lt. vm_compute. reflexivity. }
  split; [exact Hpadded |].
  split; [vm_compute; reflexivity |].
  split; [now left |].
  split; [exact Hadded |].
  split; [rewrite Hadded; discriminate |].
  split; [exact Hlong |].
  split.
  - destruct (int_digits_total long_id 0) as [n Hn].
    { vm_compute. reflexivity. }
    exists n. split; [exact Hn |].
    intros [Heq | []]. subst n.
    assert (Hother : int_digits 0 long_id <> Some 42) by (vm_compute; discriminate).
    contradiction.
  - split; [exact Hremoved |]. rewrite Hremoved. discriminate.
Qed.

(** C8, as the code has it: when [whitelist.json] is missing (also when it
    vanishes before it is opened), empty, or holds text that [json.loads]
    rejects with [JSONDecodeError], [load_whitelist] returns the empty list
    and raises nothing. *)
Theorem load_whitelist_never_fails :
  forall (json_loads : string -> outcome json) (disk : whitelist_disk),
    (path_exists disk = false
     \/ open_read disk = Raise FileNotFoundError
     \/ open_read disk = Ret ""
     \/ (exists content e, open_read disk = Ret content
                           /\ json_loads content = Raise e
                           /\ is_JSONDecodeError e = true)) ->
    load_whitelist json_loads disk = Ret (JArr []).
Proof.
  intros json_loads disk Hcase. unfold load_whitelist.
  destruct (path_exists disk); simpl; [| reflexivity].
  destruct Hcase as [Hmiss | [Hgone | [Hempty | (content & e & Hread & Hbad & He)]]].
  - discriminate Hmiss.
  - now rewrite Hgone.
  - now rewrite Hempty.
  - rewrite Hread, Hbad. unfold load_handler. rewrite He.
    now destruct (content =? "")%string.
Qed.

Lemma load_whitelist_never_fails_witness :
  load_whitelist only_empty_array {| path_exists := true; open_read := Ret "{oops" |}
  = Ret (JArr []).
Proof.
  apply load_whitelist_never_fails.
  right. right. right. exists "{oops", JSONDecodeError. repeat split; reflexivity.
Defined.

(** C8, where the claim fails: an existing file whose bytes do not decode
    as text, and a file whose text [json.loads] gives up on with
    [RecursionError], each make [load_whitelist] raise. *)
Lemma load_whitelist_counterexample :
  load_whitelist only_empty_array
    {| path_exists := true; open_read := Raise UnicodeDecodeError |}
  = Raise UnicodeDecodeError
  /\ load_whitelist shallow_decoder
       {| path_exists := true; open_read := Ret "[[[[]]]]" |}
     = Raise RecursionError.
Proof. split; reflexivity. Qed.

(** Outside the cases of C8 an error of the read itself (no permission,
    bytes that do not decode) or of the decoder is none of the two the
    function catches, and comes out of it. *)
Remark load_whitelist_propagates :
  forall (json_loads : string -> outcome json) (disk : whitelist_disk) (e : exception),
    path_exists disk = true ->
    (open_read disk = Raise e
     \/ exists content, open_read disk = Ret content /\ content <> ""
                        /\ json_loads content = Raise e) ->
    is_JSONDecodeError e || is_FileNotFoundError e = false ->
    load_whitelist json_loads disk = Raise e.
Proof.
  intros json_loads disk e Hexists Hread Hother.
  unfold load_whitelist. rewrite Hexists. simpl.
  destruct Hread as [Hread | (content & Hread & Hne & Hbad)].
  - rewrite Hread. unfold load_handler. now rewrite Hother.
  - rewrite Hread. apply String.eqb_neq in Hne. rewrite Hne, Hbad.
    unfold load_handler. now rewrite Hother.
Qed.

(** Case analysis on the innermost scrutinee, until none is left. *)
Ltac crunch :=
  repeat (cbn beta iota;
          match goal with
          | |- context [match ?x with _ => _ end] =>
              lazymatch x with
              | context [match _ with _ => _ end] => fail
              | _ => destruct x
              end
          end).

(** ** Requests and the log *)

Section Requests.
Context `{Config} `{Runtime}.

Lemma requests_call_answer : forall req s w r,
  http (env s) req = (w, Answer r) ->
  requests_call req s = (Ret r, after s w req).
Proof. intros req s w r Hhttp. unfold requests_call. now rewrite Hhttp. Qed.

Lemma requests_call_fails : forall req s w r,
  http (env s) req = (w, Fails r) ->
  requests_call req s = (Raise (RequestException r), after s w req).
Proof. intros req s w r Hhttp. unfold requests_call. now rewrite Hhttp. Qed.

Lemma requests_call_log : forall req s x s',
  requests_call req s = (x, s') -> log s' = (log s ++ [req])%list.
Proof.
  intros req s x s'. unfold requests_call.
  destruct (http (env s) req) as [w [r | r]]; intros [= <- <-]; reflexivity.
Qed.

(** Steps that only compute leave the state alone. *)
Lemma raise_for_status_state : forall r s x s',
  raise_for_status r s = (x, s') -> s' = s.
Proof.
  intros r s x s'. unfold raise_for_status, raise, ret.
  destruct (_ && _); now intros [= _ <-].
Qed.

Lemma response_json_state : forall r s x s',
  response_json r s = (x, s') -> s' = s.
Proof.
  intros r s x s'. unfold response_json, raise, ret.
  destruct (body_json r); now intros [= _ <-].
Qed.

Lemma py_get_state : forall d k default s x s',
  py_get d k default s = (x, s') -> s' = s.
Proof.
  intros d k default s x s'. unfold py_get, raise, ret.
  destruct d; now intros [= _ <-].
Qed.
End Requests.

(** ** One iteration of the fetch loop *)

Section FetchLoop.
Context `{Config} `{Runtime}.

Lemma fetch_step_log : forall k acc s x s',
  fetch_step k acc s = (x, s') ->
  log s' = (log s ++ [entry_request k])%list
  /\ forall l, x = Ret (inl l) -> exists e, l = (acc ++ [e])%list.
Proof.
  intros k acc s x s'.
  unfold fetch_step, try_except, fetch_entry, bind.
  destruct (requests_call (entry_request k) s) as [o s1] eqn:Hreq.
  apply requests_call_log in Hreq. rewrite <- Hreq.
  unfold fetch_handler, raise_for_status, response_json, py_get, ret, raise.
  destruct o as [response | e |]; crunch;
    intros [= <- <-]; (split; [reflexivity |]); intros l [= <-]; eauto.
Qed.

Lemma fetch_step_not_found : forall k acc s w r,
  http (env s) (entry_request k) = (w, Answer r) ->
  status_code r = 404 ->
  fetch_step k acc s
  = (Ret (inl (acc ++ [not_found_marker k])%list), after s w (entry_request k)).
Proof.
  intros k acc s w r Hhttp Hstatus.
  unfold fetch_step, try_except, fetch_entry, bind.
  rewrite (requests_call_answer _ _ _ _ Hhttp), Hstatus. reflexivity.
Qed.

Lemma fetch_step_forbidden : forall k acc s w r,
  http (env s) (entry_request k) = (w, Answer r) ->
  status_code r = 403 ->
  fetch_step k acc s = (Ret (inr (HTTPError r)), after s w (entry_request k)).
Proof.
  intros k acc s w r Hhttp Hstatus.
  unfold fetch_step, try_except, fetch_entry, bind.
  rewrite (requests_call_answer _ _ _ _ Hhttp).
  unfold raise_for_status. rewrite Hstatus. cbn.
  unfold is_forbidden. cbn. rewrite Hstatus. reflexivity.
Qed.

(** The loop over a concatenation runs the first part, then the second
    from where the first left the strings and the state. *)
Lemma fetch_entries_app : forall pre post acc s,
  fetch_entries (pre ++ post) acc s
  = match fetch_entries pre acc s with
    | (Ret (Fallthrough acc'), s') => fetch_entries post acc' s'
    | other => other
    end.
Proof.
  induction pre as [| k pre IH]; intros post acc s; simpl.
  - reflexivity.
  - unfold bind. destruct (fetch_step k acc s) as [[[l | e] | e |] s1]; try reflexivity.
    apply IH.
Qed.

(** Every key the loop passes is fetched once, in order; each passed key
    adds one string. *)
Lemma fetch_entries_log : forall keys acc s x s',
  fetch_entries keys acc s = (x, s') ->
  exists n, (n <= List.length keys)%nat
    /\ log s' = (log s ++ map entry_request (firstn n keys))%list
    /\ forall l, x = Ret (Fallthrough l) ->
         n = List.length keys
         /\ exists tail, l = (acc ++ tail)%list /\ List.length tail = List.length keys.
Proof.
  induction keys as [| k keys IH]; intros acc s x s'; simpl.
  - unfold ret. intros [= <- <-]. exists 0%nat. split; [| split].
    + lia.
    + simpl. now rewrite app_nil_r.
    + intros l [= <-]. split; [reflexivity |]. exists []. now rewrite app_nil_r.
  - unfold bind. destruct (fetch_step k acc s) as [o s1] eqn:Hstep.
    apply fetch_step_log in Hstep as [Hlog Hacc].
    destruct o as [[l | e] | e |].
    + intros Hrest. apply IH in Hrest as (n & Hn & Hlog' & Hfall).
      exists (S n). split; [simpl; lia |]. split.
      * rewrite Hlog', Hlog. simpl. now rewrite <- app_assoc.
      * intros l' Hx. destruct (Hfall l' Hx) as (-> & tail & -> & Hlen).
        split; [reflexivity |].
        destruct (Hacc l eq_refl) as [e ->].
        exists (e :: tail). rewrite <- app_assoc. simpl. now rewrite Hlen.
    + unfold ret. intros [= <- <-]. exists 1%nat. split; [simpl; lia |].
      split; [simpl; now rewrite Hlog | discriminate].
    + intros [= <- <-]. exists 1%nat. split; [simpl; lia |].
      split; [simpl; now rewrite Hlog | discriminate].
    + intros [= <- <-]. exists 1%nat. split; [simpl; lia |].
      split; [simpl; now rewrite Hlog | discriminate].
Qed.
End FetchLoop.

(** ** The ban list as a whole *)

Section BanList.
Context `{Config} `{Runtime}.

(** Once the keys are listed, the result is that of the loop over them. *)
Lemma get_datastore_ban_list_listed : forall fuel s0 keys s1,
  list_keys fuel (JStr "") [] s0 = (Ret keys, s1) ->
  get_datastore_ban_list fuel s0
  = match keys with
    | [] => (Ret (Success []), s1)
    | _ =>
        match fetch_entries keys [] s1 with
        | (Ret (Fallthrough l), s2) => (Ret (Success (StringSort.sort l)), s2)
        | (Ret (Returned e), s2) => (Ret (Failure e), s2)
        | (Raise e, s2) => (Raise e, s2)
        | (Diverge, s2) => (Diverge, s2)
        end
    end.
Proof.
  intros fuel s0 keys s1 Hkeys.
  unfold get_datastore_ban_list, try_except, bind. rewrite Hkeys.
  destruct keys as [| k keys]; [reflexivity |].
  unfold ret. destruct (fetch_entries (k :: keys) [] s1) as [[[l | e] | e |] s2];
    reflexivity.
Qed.

(** A successful run went through both phases. *)
Lemma get_datastore_ban_list_success : forall fuel s0 out s2,
  get_datastore_ban_list fuel s0 = (Ret (Success out), s2) ->
  exists keys s1,
    list_keys fuel (JStr "") [] s0 = (Ret keys, s1)
    /\ ((keys = [] /\ out = [] /\ s2 = s1)
        \/ (keys <> []
            /\ exists l, fetch_entries keys [] s1 = (Ret (Fallthrough l), s2)
                         /\ out = StringSort.sort l)).
Proof.
  intros fuel s0 out s2 Hrun.
  destruct (list_keys fuel (JStr "") [] s0) as [o s1] eqn:Hkeys.
  destruct o as [keys | e |].
  - exists keys, s1. split; [reflexivity |].
    rewrite (get_datastore_ban_list_listed _ _ _ _ Hkeys) in Hrun.
    destruct keys as [| k keys].
    + left. now injection Hrun as <- <-.
    + right. split; [discriminate |].
      destruct (fetch_entries (k :: keys) [] s1) as [[[l | e] | e |] s3];
        try discriminate Hrun.
      injection Hrun as <- <-. now exists l.
  - unfold get_datastore_ban_list, try_except, bind in Hrun. rewrite Hkeys in Hrun.
    unfold ret, raise in Hrun. destruct (is_RequestException e); discriminate Hrun.
  - unfold get_datastore_ban_list, try_except, bind in Hrun. rewrite Hkeys in Hrun.
    discriminate Hrun.
Qed.
End BanList.

(** ** The order of strings *)

Lemma ascii_compare_trans : forall a b c o,
  Ascii.compare a b = o -> Ascii.compare b c = o -> Ascii.compare a c = o.
Proof.
  intros a b c o. unfold Ascii.compare.
  destruct o; rewrite ?N.compare_eq_iff, ?N.compare_lt_iff, ?N.compare_gt_iff;
    intros; [congruence | lia | lia].
Qed.

Lemma string_leb_trans : forall s1 s2 s3,
  String.leb s1 s2 = true -> String.leb s2 s3 = true -> String.leb s1 s3 = true.
Proof.
  unfold String.leb.
  induction s1 as [| a s1 IH]; intros [| b s2] [| c s3]; simpl; try easy.
  destruct (Ascii.compare a b) eqn:Hab; destruct (Ascii.compare b c) eqn:Hbc;
    try easy.
  - apply Ascii.compare_eq_iff in Hab, Hbc. subst.
    assert (Hcc : Ascii.compare c c = Eq).
    { unfold Ascii.compare. apply N.compare_refl. }
    rewrite Hcc. apply IH.
  - apply Ascii.compare_eq_iff in Hab. subst. now rewrite Hbc.
  - apply Ascii.compare_eq_iff in Hbc. subst. now rewrite Hab.
  - now rewrite (ascii_compare_trans _ _ _ _ Hab Hbc).
Qed.

(** C2: when the keys have been listed and the fetch of one of them, the
    keys before it having been passed, is answered with status 403, the
    run returns the failure carrying that response and nothing of the
    strings built so far, and makes no request after the refused one. *)
Theorem list_bans_aborts_on_forbidden `{Config} `{Runtime} :
  forall (fuel : nat) (s0 s1 s2 : state) (pre post : list json) (k : json)
         (acc : list string) (w : world) (r : response),
    list_keys fuel (JStr "") [] s0 = (Ret (pre ++ k :: post)%list, s1) ->
    fetch_entries pre [] s1 = (Ret (Fallthrough acc), s2) ->
    http (env s2) (entry_request k) = (w, Answer r) ->
    status_code r = 403 ->
    get_datastore_ban_list fuel s0
    = (Ret (Failure (HTTPError r)),
       {| env := w; log := log s2 ++ [entry_request k] |}).
Proof.
  intros fuel s0 s1 s2 pre post k acc w r Hkeys Hpre Hhttp Hstatus.
  rewrite (get_datastore_ban_list_listed _ _ _ _ Hkeys).
  rewrite fetch_entries_app, Hpre. simpl. unfold bind.
  rewrite (fetch_step_forbidden k acc s2 w r Hhttp Hstatus).
  destruct pre; reflexivity.
Qed.

(** C3: when the fetch of a listed key is answered with status 404, the
    loop adds the marker naming that key and goes on with the keys after
    it; and in every run that returns a list, the marker is in the list
    and every listed key has been fetched, once and in order.  The marker
    is not one of the two other error markers. *)
Theorem list_bans_marks_missing_record `{Config} `{Runtime} :
  forall (fuel : nat) (s0 s1 s2 : state) (pre post : list json) (k : json)
         (acc : list string) (w : world) (r : response),
    list_keys fuel (JStr "") [] s0 = (Ret (pre ++ k :: post)%list, s1) ->
    fetch_entries pre [] s1 = (Ret (Fallthrough acc), s2) ->
    http (env s2) (entry_request k) = (w, Answer r) ->
    status_code r = 404 ->
    fetch_entries (pre ++ k :: post) [] s1
    = fetch_entries post (acc ++ [not_found_marker k])
                    {| env := w; log := log s2 ++ [entry_request k] |}
    /\ (forall out s3,
          get_datastore_ban_list fuel s0 = (Ret (Success out), s3) ->
          In (not_found_marker k) out
          /\ log s3 = (log s1 ++ map entry_request (pre ++ k :: post))%list)
    /\ (forall k', not_found_marker k <> fetch_failed_marker k'
                   /\ not_found_marker k <> corrupted_marker k').
Proof.
  intros fuel s0 s1 s2 pre post k acc w r Hkeys Hpre Hhttp Hstatus.
  assert (Hgo : fetch_entries (pre ++ k :: post) [] s1
                = fetch_entries post (acc ++ [not_found_marker k])
                    {| env := w; log := log s2 ++ [entry_request k] |}).
  { rewrite fetch_entries_app, Hpre. simpl. unfold bind.
    now rewrite (fetch_step_not_found k acc s2 w r Hhttp Hstatus). }
  split; [exact Hgo |]. split.
  - intros out s3 Hrun.
    apply get_datastore_ban_list_success in Hrun
      as (keys & s1' & Hkeys' & [(Hnil & _) | (_ & l & Hloop & ->)]).
    + rewrite Hkeys in Hkeys'. injection Hkeys' as <- _. now destruct pre.
    + rewrite Hkeys in Hkeys'. injection Hkeys' as <- <-.
      split.
      * rewrite Hgo in Hloop.
        apply fetch_entries_log in Hloop as (n & _ & _ & Hfall).
        destruct (Hfall l eq_refl) as (_ & tail & Hl & _).
        apply (Permutation_in _ (StringSort.Permuted_sort _)). rewrite Hl.
        rewrite !in_app_iff. left. right. now left.
      * apply fetch_entries_log in Hloop as (n & _ & Hlog & Hfall).
        destruct (Hfall l eq_refl) as (Hn & _).
        rewrite Hn, firstn_all in Hlog. exact Hlog.
  - intros k'. split; unfold not_found_marker, fetch_failed_marker, corrupted_marker;
      simpl; intros Heq; discriminate Heq.
Qed.

(** C9: the list a successful run returns is in ascending order of its
    strings, compared character by character: every string is below or
    equal to every string after it. *)
Theorem list_bans_sorted `{Config} `{Runtime} :
  forall (fuel : nat) (s s' : state) (out : list string),
    get_datastore_ban_list fuel s = (Ret (Success out), s') ->
    StronglySorted (fun a b => String.leb a b = true) out.
Proof.
  intros fuel s s' out Hrun.
  apply get_datastore_ban_list_success in Hrun
    as (keys & s1 & _ & [(_ & -> & _) | (_ & l & _ & ->)]).
  - constructor.
  - apply Sorted_StronglySorted.
    + intros a b c. apply string_leb_trans.
    + exact (StringSort.Sorted_sort l).
Qed.


(** ** Paging through the keys *)

Section Paging.
Context `{Config} `{Runtime}.

Lemma key_names_Forall2 : forall items names,
  Forall2 (fun item name => exists m, item = JObj m /\ dict_lookup m "key" = Some name)
          items names ->
  forall s, key_names items s = (Ret names, s).
Proof.
  induction 1 as [| item name items names (m & -> & Hkey) _ IH]; intros s.
  - reflexivity.
  - simpl. unfold bind. rewrite Hkey. unfold ret at 1. now rewrite IH.
Qed.

(** One turn of the listing loop on a page. *)
Lemma list_keys_page : forall fuel c acc s w r names cursor,
  http (env s) (list_request (cursor_param_of c)) = (w, Answer r) ->
  is_page r names cursor ->
  list_keys (S fuel) c acc s
  = if truthy cursor
    then list_keys fuel cursor (acc ++ names)
                   (after s w (list_request (cursor_param_of c)))
    else (Ret (acc ++ names)%list, after s w (list_request (cursor_param_of c))).
Proof.
  intros fuel c acc s w r names cursor Hhttp
         (Hstatus & members & items & Hbody & Hkeys & Hnames & Hcursor).
  cbn [list_keys]. unfold bind at 1.
  rewrite (requests_call_answer _ _ _ _ Hhttp).
  unfold bind at 1. unfold raise_for_status. rewrite Hstatus. unfold ret at 1.
  unfold bind at 1. unfold response_json. rewrite Hbody. unfold ret at 1.
  unfold bind at 1. unfold py_get at 1. rewrite Hkeys. unfold ret at 1.
  unfold bind at 1. unfold py_iter. unfold ret at 1.
  unfold bind at 1. rewrite (key_names_Forall2 _ _ Hnames).
  unfold bind at 1. unfold py_get. rewrite Hcursor. unfold ret at 1.
  destruct (truthy cursor); reflexivity.
Qed.

Lemma list_keys_paged : forall s c pages reqs s',
  paged s c pages reqs s' ->
  forall fuel acc,
    (List.length pages <= fuel)%nat ->
    list_keys fuel c acc s = (Ret (acc ++ List.concat pages)%list, s').
Proof.
  induction 1 as [s c w r names cursor Hhttp Hpage Hlast
                 | s c w r names cursor pages reqs s' Hhttp Hpage Hmore _ IH];
    intros fuel acc Hfuel; (destruct fuel as [| fuel]; [simpl in Hfuel; lia |]).
  - rewrite (list_keys_page _ _ _ _ _ _ _ _ Hhttp Hpage), Hlast.
    simpl. now rewrite app_nil_r.
  - rewrite (list_keys_page _ _ _ _ _ _ _ _ Hhttp Hpage), Hmore.
    rewrite IH by (simpl in Hfuel; lia).
    simpl. now rewrite <- app_assoc.
Qed.

Lemma paged_log : forall s c pages reqs s',
  paged s c pages reqs s' ->
  log s' = (log s ++ reqs)%list
  /\ List.length reqs = List.length pages
  /\ Forall (fun q => exists cursor_param, q = list_request cursor_param) reqs.
Proof.
  induction 1 as [s c w r names cursor Hhttp Hpage Hlast
                 | s c w r names cursor pages reqs s' Hhttp Hpage Hmore _ IH].
  - repeat split. constructor; [eauto | constructor].
  - destruct IH as (Hlog & Hlen & Hall). split; [| split].
    + rewrite Hlog. simpl. now rewrite <- app_assoc.
    + simpl. now rewrite Hlen.
    + constructor; eauto.
Qed.
End Paging.

(** ** Fuel *)

Section Fuel.
Context `{Config} `{Runtime}.

(** More fuel does not change a listing that has finished. *)
Lemma list_keys_more_fuel : forall fuel c acc s x s',
  list_keys fuel c acc s = (x, s') ->
  x <> Diverge ->
  forall fuel', (fuel <= fuel')%nat -> list_keys fuel' c acc s = (x, s').
Proof.
  induction fuel as [| fuel IH]; intros c acc s x s' Hrun Hx fuel' Hle.
  - simpl in Hrun. injection Hrun as <- _. now contradiction Hx.
  - destruct fuel' as [| fuel']; [lia |].
    revert Hrun. cbn [list_keys].
    unfold bind, requests_call, raise_for_status, response_json, py_get, py_iter,
      ret, raise.
    crunch; try (intros Hrun; exact Hrun).
    all: intros Hrun; apply (IH _ _ _ _ _ Hrun Hx); lia.
Qed.
End Fuel.

Lemma get_datastore_ban_list_more_fuel `{Config} `{Runtime} : forall fuel s x s',
  get_datastore_ban_list fuel s = (x, s') ->
  x <> Diverge ->
  forall fuel', (fuel <= fuel')%nat -> get_datastore_ban_list fuel' s = (x, s').
Proof.
  intros fuel s x s' Hrun Hx fuel' Hle. revert Hrun.
  unfold get_datastore_ban_list, try_except, bind.
  destruct (list_keys fuel (JStr "") [] s) as [o s1] eqn:Hkeys.
  assert (Hmore : o <> Diverge -> list_keys fuel' (JStr "") [] s = (o, s1)).
  { intros Ho. now apply list_keys_more_fuel with fuel. }
  destruct o as [keys | e |].
  - rewrite Hmore by discriminate. trivial.
  - rewrite Hmore by discriminate. trivial.
  - intros [= <- _]. now contradiction Hx.
Qed.

(** C4: when the listing endpoint answers with a sequence of pages, all
    but the last carrying a cursor, the listing loop asks for each page in
    turn and stops at the page without a cursor, with the keys of all
    pages in page order; in the whole run the listing requests come first
    and only then the per-key fetches, which follow the listed keys in
    order and, in a run that returns a list, cover all of them. *)
Theorem list_bans_drains_pages_first `{Config} `{Runtime} :
  forall (pages : list (list json)) (reqs : list request) (s0 s1 : state) (fuel : nat),
    paged s0 (JStr "") pages reqs s1 ->
    (List.length pages <= fuel)%nat ->
    list_keys fuel (JStr "") [] s0 = (Ret (List.concat pages), s1)
    /\ List.length reqs = List.length pages
    /\ Forall (fun q => exists cursor_param, q = list_request cursor_param) reqs
    /\ log s1 = (log s0 ++ reqs)%list
    /\ forall res s2,
         get_datastore_ban_list fuel s0 = (res, s2) ->
         exists n,
           log s2 = (log s0 ++ reqs ++ map entry_request (firstn n (List.concat pages)))%list
           /\ forall out, res = Ret (Success out) -> n = List.length (List.concat pages).
Proof.
  intros pages reqs s0 s1 fuel Hpaged Hfuel.
  pose proof (list_keys_paged _ _ _ _ _ Hpaged fuel [] Hfuel) as Hkeys.
  simpl in Hkeys.
  destruct (paged_log _ _ _ _ _ Hpaged) as (Hlog & Hlen & Hall).
  repeat (split; [assumption |]).
  intros res s2 Hrun.
  rewrite (get_datastore_ban_list_listed _ _ _ _ Hkeys) in Hrun.
  destruct (List.concat pages) as [| k keys] eqn:Hconcat.
  - injection Hrun as <- <-. exists 0%nat. split.
    + simpl. now rewrite app_nil_r.
    + reflexivity.
  - destruct (fetch_entries (k :: keys) [] s1) as [x s3] eqn:Hloop.
    apply fetch_entries_log in Hloop as (n & _ & Hlog' & Hfall).
    exists n. split.
    + rewrite app_assoc, <- Hlog, <- Hlog'.
      destruct x as [[l | e] | e |]; now injection Hrun as _ <-.
    + intros out ->.
      destruct x as [[l | e] | e |]; try discriminate Hrun.
      now destruct (Hfall l eq_refl).
Qed.

(** ** Ban and unban *)

Section BanCommands.
Context `{Config} `{Runtime}.

Lemma get_username_from_id_failed : forall n s w res,
  http (env s) (lookup_request n) = (w, res) ->
  lookup_failed res ->
  get_username_from_id n s
  = (Ret (JStr (id_fallback n)), after s w (lookup_request n)).
Proof.
  intros n s w res Hhttp Hfailed.
  unfold get_username_from_id, try_except. fold (lookup_request n).
  unfold bind at 1. unfold bind at 1.
  destruct res as [r | r]; simpl in Hfailed.
  - rewrite (requests_call_answer _ _ _ _ Hhttp).
    unfold bind at 1. unfold raise_for_status.
    destruct Hfailed as [Hstatus | (Hstatus & members & Hbody & Hempty)];
      rewrite Hstatus.
    + reflexivity.
    + unfold ret at 1. unfold bind at 1. unfold response_json. rewrite Hbody.
      unfold ret at 1. unfold bind at 1. unfold py_get at 1. unfold ret at 1.
      rewrite Hempty. reflexivity.
  - rewrite (requests_call_fails _ _ _ _ Hhttp). reflexivity.
Qed.

(** Up to the write: the identifier is parsed, the name looked up, the
    clock read. *)
Lemma banid_cmd_write : forall display_name user_id reason n username s s1,
  isdigit user_id = true ->
  py_int user_id = Some n ->
  get_username_from_id n s = (Ret username, s1) ->
  let reason' := match reason with Some r => r | None => default_reason end in
  let ban_data := ban_record reason' display_name username (time_time (env s1)) in
  banid_cmd display_name user_id reason s
  = try_except
      (response <- requests_call (write_request user_id ban_data) ;;
       raise_for_status response ;;;
       ret (Embed "User Banned (DataStore)"
                  ("Successfully banned **" ++ py_str username ++ "** (`" ++ user_id ++ "`).")
                  EMBED_COLOR_SUCCESS [("Reason", reason')]
                  (Some ("Banned by " ++ display_name))))
      (fun e => if is_RequestException e then lift (create_api_error_embed e "Write")
                else raise e) s1.
Proof.
  intros display_name user_id reason n username s s1 Hd Hint Huser reason' ban_data.
  unfold banid_cmd. rewrite Hd. cbn [negb].
  unfold int_or_raise. rewrite Hint.
  unfold bind at 1. unfold ret at 1.
  unfold bind at 1. rewrite Huser.
  unfold bind at 1. unfold clock. reflexivity.
Qed.

Lemma banid_cmd_log : forall display_name user_id reason n username s s1 x s',
  isdigit user_id = true ->
  py_int user_id = Some n ->
  get_username_from_id n s = (Ret username, s1) ->
  banid_cmd display_name user_id reason s = (x, s') ->
  log s'
  = (log s1
     ++ [write_request user_id
           (ban_record (match reason with Some r => r | None => default_reason end)
                       display_name username (time_time (env s1)))])%list.
Proof.
  intros display_name user_id reason n username s s1 x s' Hd Hint Huser.
  rewrite (banid_cmd_write _ _ reason _ _ _ _ Hd Hint Huser).
  unfold try_except, bind.
  destruct (requests_call _ s1) as [o s2] eqn:Hreq.
  apply requests_call_log in Hreq. rewrite <- Hreq.
  unfold raise_for_status, ret, raise, lift.
  destruct o as [response | e |].
  - destruct (_ && _); cbn; now intros [= _ <-].
  - destruct (is_RequestException e); now intros [= _ <-].
  - now intros [= _ <-].
Qed.
End BanCommands.

(** C5: for a numeric identifier, when the store answers the delete with
    status 404, [unban_cmd] replies with the informational "User Unbanned"
    embed, not an error, after that one request. *)
Theorem unban_not_found_is_success `{Config} `{Runtime} :
  forall (display_name user_id : string) (s : state) (w : world) (r : response),
    isdigit user_id = true ->
    http (env s) (delete_request user_id) = (w, Answer r) ->
    status_code r = 404 ->
    unban_cmd display_name user_id s
    = (Ret (Embed "User Unbanned"
                  ("User `" ++ user_id ++ "` was not found in the ban list.")
                  EMBED_COLOR_INFO [] None),
       {| env := w; log := log s ++ [delete_request user_id] |}).
Proof.
  intros display_name user_id s w r Hd Hhttp Hstatus.
  unfold unban_cmd. rewrite Hd. cbn [negb]. fold (delete_request user_id).
  unfold try_except, bind.
  rewrite (requests_call_answer _ _ _ _ Hhttp), Hstatus. reflexivity.
Qed.

Lemma unban_not_found_is_success_witness :
  @unban_cmd demo_config mock_runtime "Alice" "12345" (@State mock_runtime empty_mock [])
  = (Ret (Embed "User Unbanned" "User `12345` was not found in the ban list."
                EMBED_COLOR_INFO [] None),
     @State mock_runtime empty_mock [@delete_request demo_config "12345"]).
Proof.
  exact (@unban_not_found_is_success demo_config mock_runtime "Alice" "12345"
           (@State mock_runtime empty_mock []) empty_mock
           (Response 404 "Entry not found" None) eq_refl eq_refl eq_refl).
Defined.

(** C10 (amended): for a numeric identifier, when the username lookup fails
    by a transport error, by an answer with a 4xx or 5xx status, or by an
    answer whose data is empty, [get_username_from_id] gives "ID: <id>",
    and [banid_cmd] goes on to send the write request for the key, whose
    record carries that string as its Username. *)
Theorem banid_survives_failed_lookup `{Config} `{Runtime} :
  forall (display_name user_id : string) (reason : option string) (n : Z)
         (s : state) (w : world) (res : http_result),
    isdigit user_id = true ->
    py_int user_id = Some n ->
    http (env s) (lookup_request n) = (w, res) ->
    lookup_failed res ->
    get_username_from_id n s
    = (Ret (JStr ("ID: " ++ str_int n)), after s w (lookup_request n))
    /\ forall x s',
         banid_cmd display_name user_id reason s = (x, s') ->
         log s'
         = (log s
            ++ [lookup_request n;
                write_request user_id
                  (JObj [("Reason", JStr (match reason with
                                           | Some r => r
                                           | None => default_reason
                                           end));
                         ("BannedBy", JStr (display_name ++ " (Discord)"));
                         ("Username", JStr ("ID: " ++ str_int n));
                         ("Timestamp", JInt (time_time w))])])%list.
Proof.
  intros display_name user_id reason n s w res Hd Hint Hhttp Hfailed.
  pose proof (get_username_from_id_failed n s w res Hhttp Hfailed) as Huser.
  split; [exact Huser |].
  intros x s' Hrun.
  rewrite (banid_cmd_log _ _ _ _ _ _ _ _ _ Hd Hint Huser Hrun).
  simpl. now rewrite <- app_assoc.
Qed.

Lemma banid_survives_failed_lookup_witness :
  let s := @State mock_runtime unreachable_directory_mock [] in
  @get_username_from_id mock_runtime 12 s
  = (Ret (JStr "ID: 12"), @State mock_runtime unreachable_directory_mock [lookup_request 12])
  /\ log (snd (@banid_cmd demo_config mock_runtime "Alice" "0012" None s))
     = [lookup_request 12;
        @write_request demo_config "0012"
          (JObj [("Reason", JStr "Banned via Discord.");
                 ("BannedBy", JStr "Alice (Discord)");
                 ("Username", JStr "ID: 12");
                 ("Timestamp", JInt 1700000000)])].
Proof.
  intros s.
  destruct (@banid_survives_failed_lookup demo_config mock_runtime "Alice" "0012" None 12
              s unreachable_directory_mock (Fails None) eq_refl eq_refl eq_refl I)
    as [Huser Hlog].
  split; [exact Huser |].
  exact (Hlog _ _ (surjective_pairing _)).
Defined.

(** C10, as stated, fails for a non-2xx answer outside 400..599: the
    directory answers with status 300 and a body naming the user, and the
    record is written with that name, not with "ID: 12345". *)
Lemma redirect_lookup_counterexample :
  let s := @State mock_runtime redirect_mock [] in
  (exists r, respond redirect_mock (lookup_request 12345) = Answer r
             /\ status_code r = 300)
  /\ fst (@get_username_from_id mock_runtime 12345 s) = Ret (JStr "Bob")
  /\ log (snd (@banid_cmd demo_config mock_runtime "Alice" "12345" None s))
     = [lookup_request 12345;
        @write_request demo_config "12345"
          (JObj [("Reason", JStr "Banned via Discord.");
                 ("BannedBy", JStr "Alice (Discord)");
                 ("Username", JStr "Bob");
                 ("Timestamp", JInt 1700000000)])]
  /\ JStr "Bob" <> JStr ("ID: " ++ str_int 12345).
Proof.
  simpl. repeat split; try reflexivity.
  - eexists. split; reflexivity.
  - discriminate.
Qed.

(** ** What a ban writes *)

Section StoreRoundTrip.
Context `{Config}.

Lemma dict_lookup_head : forall k v rest, dict_lookup ((k, v) :: rest) k = Some v.
Proof. intros k v rest. simpl. now rewrite String.eqb_refl. Qed.

(** On the reference store the name a ban records is the directory's, or
    the fallback. *)
Lemma store_username : forall (w : store) (l : list request) (n : Z),
  @get_username_from_id store_runtime n (@State store_runtime w l)
  = (Ret (JStr (match directory_name (directory w) n with
                | Some name => name
                | None => id_fallback n
                end)),
     @State store_runtime w (l ++ [lookup_request n])).
Proof.
  intros w l n.
  unfold get_username_from_id, try_except, bind, requests_call. cbn.
  destruct (directory_name (directory w) n); reflexivity.
Qed.

Lemma store_banid_then_fetch : forall (w : store) (l : list request)
    (display_name user_id : string) (reason : option string) (n : Z),
  isdigit user_id = true ->
  py_int user_id = Some n ->
  let s' := snd (@banid_cmd _ store_runtime display_name user_id reason
                            (@State store_runtime w l)) in
  store_http (env s') (@entry_request _ store_runtime (JStr user_id))
  = (env s',
     ok (JObj [("Reason", JStr (match reason with
                                | Some r => r
                                | None => default_reason
                                end));
               ("BannedBy", JStr (display_name ++ " (Discord)"));
               ("Username", JStr (match directory_name (directory w) n with
                                  | Some name => name
                                  | None => id_fallback n
                                  end));
               ("Timestamp", JInt (store_time w))])).
Proof.
  intros w l display_name user_id reason n Hd Hint s'. subst s'.
  rewrite (@banid_cmd_write _ store_runtime display_name user_id reason n _ _ _
             Hd Hint (store_username w l n)).
  unfold try_except, bind, requests_call. cbn.
  unfold store_http. cbn. now rewrite String.eqb_refl.
Qed.
End StoreRoundTrip.

(** C6 (amended): for a numeric identifier, a [banid] call whose write is
    accepted has sent, under the key given by the identifier as typed, the
    record whose Reason is the reason given (or the default), whose
    BannedBy is the caller's display name followed by " (Discord)", whose
    Username is the name the lookup resolved, and whose Timestamp is the
    clock at the call; on a store that keeps what it is sent, an immediate
    fetch of that key returns exactly this record. *)
Theorem banid_writes_record `{Config} :
  (forall (R : Runtime) (display_name user_id : string) (reason : option string)
          (n : Z) (username : json) (s s1 : state) (w : world) (r : response),
     isdigit user_id = true ->
     py_int user_id = Some n ->
     get_username_from_id n s = (Ret username, s1) ->
     let reason' := match reason with Some x => x | None => default_reason end in
     let ban_data :=
       JObj [("Reason", JStr reason');
             ("BannedBy", JStr (display_name ++ " (Discord)"));
             ("Username", username);
             ("Timestamp", JInt (time_time (env s1)))] in
     http (env s1) (write_request user_id ban_data) = (w, Answer r) ->
     (400 <=? status_code r) && (status_code r <? 600) = false ->
     banid_cmd display_name user_id reason s
     = (Ret (Embed "User Banned (DataStore)"
                   ("Successfully banned **" ++ py_str username ++ "** (`" ++ user_id ++ "`).")
                   EMBED_COLOR_SUCCESS [("Reason", reason')]
                   (Some ("Banned by " ++ display_name))),
        {| env := w; log := log s1 ++ [write_request user_id ban_data] |}))
  /\ (forall (w : store) (l : list request) (display_name user_id : string)
             (reason : option string) (n : Z),
        isdigit user_id = true ->
        py_int user_id = Some n ->
        let s' := snd (@banid_cmd _ store_runtime display_name user_id reason
                                  (@State store_runtime w l)) in
        store_http (env s') (@entry_request _ store_runtime (JStr user_id))
        = (env s',
           ok (JObj [("Reason", JStr (match reason with
                                      | Some r => r
                                      | None => default_reason
                                      end));
                     ("BannedBy", JStr (display_name ++ " (Discord)"));
                     ("Username", JStr (match directory_name (directory w) n with
                                        | Some name => name
                                        | None => "ID: " ++ str_int n
                                        end));
                     ("Timestamp", JInt (store_time w))]))).
Proof.
  split.
  - intros R display_name user_id reason n username s s1 w r Hd Hint Huser
           reason' ban_data Hhttp Hstatus.
    rewrite (banid_cmd_write _ _ reason _ _ _ _ Hd Hint Huser).
    unfold try_except, bind. fold reason'.
    change (ban_record reason' display_name username (time_time (env s1))) with ban_data.
    rewrite (requests_call_answer _ _ _ _ Hhttp).
    unfold raise_for_status. rewrite Hstatus. reflexivity.
  - intros w l display_name user_id reason n Hd Hint.
    now apply store_banid_then_fetch.
Qed.

Lemma banid_writes_record_witness :
  let s := @State store_runtime (Store [] [(12345, "Bob")] 1700000000) [] in
  let record := JObj [("Reason", JStr "cheating");
                      ("BannedBy", JStr "Alice (Discord)");
                      ("Username", JStr "Bob");
                      ("Timestamp", JInt 1700000000)] in
  @banid_cmd demo_config store_runtime "Alice" "12345" (Some "cheating") s
  = (Ret (Embed "User Banned (DataStore)" "Successfully banned **Bob** (`12345`)."
                EMBED_COLOR_SUCCESS [("Reason", "cheating")] (Some "Banned by Alice")),
     @State store_runtime (Store [("12345", record)] [(12345, "Bob")] 1700000000)
            [lookup_request 12345; @write_request demo_config "12345" record]).
Proof.
  intros s record.
  exact (proj1 (@banid_writes_record demo_config) store_runtime "Alice" "12345"
           (Some "cheating") 12345 (JStr "Bob") s
           (@State store_runtime (Store [] [(12345, "Bob")] 1700000000)
                   [lookup_request 12345])
           (Store [("12345", record)] [(12345, "Bob")] 1700000000)
           (Response 200 "" (Some (JObj [("version", JStr "1")])))
           eq_refl eq_refl eq_refl eq_refl eq_refl).
Defined.

(** C6, as stated, fails: the record a ban writes does not carry the
    caller's name as given but that name followed by " (Discord)", and its
    Username is the name the directory gave, which is no input of the
    call. *)
Lemma banid_record_counterexample :
  let s := @State store_runtime (Store [] [(12345, "Bob")] 1700000000) [] in
  let s' := snd (@banid_cmd demo_config store_runtime "Alice" "12345" (Some "cheating") s) in
  exists record,
    store_http (env s') (@entry_request demo_config store_runtime (JStr "12345"))
    = (env s', ok (JObj record))
    /\ dict_lookup record "BannedBy" = Some (JStr "Alice (Discord)")
    /\ dict_lookup record "BannedBy" <> Some (JStr "Alice")
    /\ dict_lookup record "Username" = Some (JStr "Bob").
Proof.
  simpl. eexists. split; [reflexivity |].
  repeat split; try reflexivity. discriminate.
Qed.

(** ** The scenarios *)

Lemma list_bans_aborts_on_forbidden_witness :
  @get_datastore_ban_list demo_config mock_runtime 3 (@State mock_runtime forbidden_mock [])
  = (Ret (Failure (HTTPError forbidden)),
     @State mock_runtime forbidden_mock
            [@list_request demo_config "";
             @entry_request demo_config mock_runtime (JStr "1");
             @entry_request demo_config mock_runtime (JStr "2")]).
Proof.
  exact (@list_bans_aborts_on_forbidden demo_config mock_runtime 3
           (@State mock_runtime forbidden_mock [])
           (@State mock_runtime forbidden_mock [@list_request demo_config ""])
           (@State mock_runtime forbidden_mock
                   [@list_request demo_config "";
                    @entry_request demo_config mock_runtime (JStr "1")])
           [JStr "1"] [] (JStr "2")
           ["[2023-11-14 22:13] **Bob** (By: Alice (Discord)) - *cheating*"]
           forbidden_mock forbidden
           eq_refl eq_refl eq_refl eq_refl).
Defined.

Lemma list_bans_marks_missing_record_witness :
  let run := @get_datastore_ban_list demo_config mock_runtime 3
               (@State mock_runtime missing_mock []) in
  fst run
  = Ret (Success ["[2023-11-14 22:13] **Bob** (By: Alice (Discord)) - *cheating*";
                  "[ERROR] Data for key `1` was not found (404)."])
  /\ In "[ERROR] Data for key `1` was not found (404)."
        ["[2023-11-14 22:13] **Bob** (By: Alice (Discord)) - *cheating*";
         "[ERROR] Data for key `1` was not found (404)."]
  /\ log (snd run)
     = [@list_request demo_config "";
        @entry_request demo_config mock_runtime (JStr "1");
        @entry_request demo_config mock_runtime (JStr "2")].
Proof.
  intros run. split; [reflexivity |].
  destruct (@list_bans_marks_missing_record demo_config mock_runtime 3
              (@State mock_runtime missing_mock [])
              (@State mock_runtime missing_mock [@list_request demo_config ""])
              (@State mock_runtime missing_mock [@list_request demo_config ""])
              [] [JStr "2"] (JStr "1") [] missing_mock
              (Response 404 "Entry not found" None)
              eq_refl eq_refl eq_refl eq_refl) as (_ & Hrun & _).
  exact (Hrun _ (snd run) eq_refl).
Defined.

Lemma paged_mock_pages :
  @paged demo_config mock_runtime
         (@State mock_runtime paged_mock []) (JStr "")
         [[JStr "1"]; [JStr "2"]]
         [@list_request demo_config ""; @list_request demo_config "&cursor=c2"]
         (@State mock_runtime paged_mock
                 [@list_request demo_config ""; @list_request demo_config "&cursor=c2"]).
Proof.
  apply (@paged_more demo_config mock_runtime (@State mock_runtime paged_mock []) (JStr "")
           paged_mock (Response 200 "" (Some (key_page ["1"] (Some "c2"))))
           [JStr "1"] (JStr "c2")).
  - reflexivity.
  - split; [reflexivity |].
    exists [("keys", JArr [JObj [("key", JStr "1")]]); ("nextPageCursor", JStr "c2")],
           [JObj [("key", JStr "1")]].
    repeat split. constructor; [| constructor].
    exists [("key", JStr "1")]. split; reflexivity.
  - reflexivity.
  - apply (@paged_last demo_config mock_runtime
             (@State mock_runtime paged_mock [@list_request demo_config ""]) (JStr "c2")
             paged_mock (Response 200 "" (Some (key_page ["2"] None)))
             [JStr "2"] JNull).
    + reflexivity.
    + split; [reflexivity |].
      exists [("keys", JArr [JObj [("key", JStr "2")]])], [JObj [("key", JStr "2")]].
      repeat split. constructor; [| constructor].
      exists [("key", JStr "2")]. split; reflexivity.
    + reflexivity.
Defined.

Lemma list_bans_drains_pages_first_witness :
  let s0 := @State mock_runtime paged_mock [] in
  @list_keys demo_config mock_runtime 2 (JStr "") [] s0
  = (Ret [JStr "1"; JStr "2"],
     @State mock_runtime paged_mock
            [@list_request demo_config ""; @list_request demo_config "&cursor=c2"])
  /\ log (snd (@get_datastore_ban_list demo_config mock_runtime 2 s0))
     = [@list_request demo_config ""; @list_request demo_config "&cursor=c2";
        @entry_request demo_config mock_runtime (JStr "1");
        @entry_request demo_config mock_runtime (JStr "2")].
Proof.
  intros s0.
  destruct (@list_bans_drains_pages_first demo_config mock_runtime _ _ _ _ 2%nat
              paged_mock_pages (le_n 2)) as (Hkeys & _ & _ & _ & Hrun).
  split; [exact Hkeys |].
  destruct (Hrun _ _ (surjective_pairing _)) as (n & Hlog & Hn).
  rewrite (Hn _ eq_refl) in Hlog. exact Hlog.
Defined.

Lemma list_bans_sorted_witness :
  StronglySorted (fun a b => String.leb a b = true)
         ["[2023-11-14 22:13] **Amy** (By: Alice (Discord)) - *cheating*";
          "[???] **Zed** (By: Alice (Discord)) - *cheating*"].
Proof.
  exact (@list_bans_sorted demo_config mock_runtime 3
           (@State mock_runtime undated_mock [])
           (snd (@get_datastore_ban_list demo_config mock_runtime 3
                   (@State mock_runtime undated_mock [])))
           _ eq_refl).
Defined.

(** The order of the list is that of the strings: here the record of key 2
    (timestamp 1700000000) comes before the record of key 1 (timestamp 0,
    shown as "???"). *)
Example list_bans_order_is_textual :
  fst (@get_datastore_ban_list demo_config mock_runtime 3
         (@State mock_runtime undated_mock []))
  = Ret (Success ["[2023-11-14 22:13] **Amy** (By: Alice (Discord)) - *cheating*";
                  "[???] **Zed** (By: Alice (Discord)) - *cheating*"]).
Proof. reflexivity. Qed.

(** * Further properties *)

(** ** The whitelist: adding, removing, and sequences of commands *)

Section WhitelistMore.
Context `{Config}.

Lemma list_remove_fresh_end : forall n l,
  ~ In n l -> list_remove n (l ++ [n]) = l.
Proof.
  induction l as [| y l IH]; simpl; intros Hout.
  - now rewrite Z.eqb_refl.
  - destruct (Z.eqb_spec y n) as [-> | _]; [tauto |].
    rewrite IH; tauto.
Qed.

Lemma list_remove_In_other : forall n m l,
  m <> n -> (In m (list_remove n l) <-> In m l).
Proof.
  intros n m l Hne. induction l as [| y l IH]; simpl; [tauto |].
  destruct (Z.eqb_spec y n) as [-> | _]; simpl; intuition congruence.
Qed.

Lemma list_remove_NoDup : forall n l, NoDup l -> NoDup (list_remove n l).
Proof.
  induction l as [| y l IH]; simpl; intros Hnd; [constructor |].
  inversion Hnd as [| ? ? Hy Hl]; subst.
  destruct (y =? n); [assumption |].
  constructor; [| now apply IH].
  intros Hin. apply Hy. eapply list_remove_incl. exact Hin.
Qed.

Lemma list_remove_NoDup_out : forall n l, NoDup l -> ~ In n (list_remove n l).
Proof.
  induction l as [| y l IH]; simpl; intros Hnd; [tauto |].
  inversion Hnd as [| ? ? Hy Hl]; subst.
  destruct (Z.eqb_spec y n) as [-> | Hne]; [assumption |].
  simpl. intros [Heq | Hin]; [congruence | now apply IH].
Qed.

(** What one run of the handler can do to the state: nothing, append one
    id, or remove one occurrence of an id; a change is saved. *)
Lemma manage_whitelist_cases : forall action_value user_id s,
  let s' := snd (manage_whitelist action_value user_id s) in
  s' = s
  \/ (exists n, n <> BOT_OWNER_ID /\ ~ In n (whitelisted_users s)
                /\ s' = {| whitelisted_users := (whitelisted_users s ++ [n])%list;
                           saved := (saved s ++ [(whitelisted_users s ++ [n])%list])%list |})
  \/ (exists n, In n (whitelisted_users s)
                /\ s' = {| whitelisted_users := list_remove n (whitelisted_users s);
                           saved := (saved s ++ [list_remove n (whitelisted_users s)])%list |}).
Proof.
  intros action_value user_id s. unfold manage_whitelist.
  destruct (action_value =? "add")%string.
  - destruct (missing_or_not_digits user_id); [now left |].
    destruct (py_int _) as [n |]; [| now left].
    destruct (Z.eqb_spec n BOT_OWNER_ID) as [| Hne]; [now left |].
    destruct (py_in n (whitelisted_users s)) eqn:Hin; simpl; [now left |].
    right. left. exists n. apply py_in_not_In in Hin. repeat split; assumption.
  - destruct (action_value =? "remove")%string.
    + destruct (missing_or_not_digits user_id); [now left |].
      destruct (py_int _) as [n |]; [| now left].
      destruct (py_in n (whitelisted_users s)) eqn:Hin; simpl; [| now left].
      right. right. exists n. apply py_in_In in Hin. split; [assumption | reflexivity].
    + destruct (action_value =? "list")%string; [| now left].
      destruct (whitelisted_users s); now left.
Qed.

Lemma whitelist_command_cases : forall who action_value user_id s,
  let s' := snd (whitelist_command who action_value user_id s) in
  s' = s
  \/ (who = BOT_OWNER_ID
      /\ ((exists n, n <> BOT_OWNER_ID /\ ~ In n (whitelisted_users s)
                     /\ s' = {| whitelisted_users := (whitelisted_users s ++ [n])%list;
                                saved := (saved s ++ [(whitelisted_users s ++ [n])%list])%list |})
          \/ (exists n, In n (whitelisted_users s)
                        /\ s' = {| whitelisted_users := list_remove n (whitelisted_users s);
                                   saved := (saved s ++ [list_remove n (whitelisted_users s)])%list |}))).
Proof.
  intros who action_value user_id s. unfold whitelist_command, is_bot_owner.
  destruct (Z.eqb_spec who BOT_OWNER_ID) as [-> | Hne]; [| now left].
  destruct (manage_whitelist_cases action_value user_id s) as [Hsame | Hchange];
    [now left | right; split; [reflexivity | exact Hchange]].
Qed.
End WhitelistMore.

Lemma manage_whitelist_add_fresh `{Config} :
  forall (s : whitelist_state) (user_id : string) (n : Z),
    isdigit user_id = true ->
    py_int user_id = Some n ->
    n <> BOT_OWNER_ID ->
    ~ In n (whitelisted_users s) ->
    manage_whitelist "add" (Some user_id) s
    = (Embed "Whitelist Management"
             ("User ID `" ++ str_int n ++ "` added to the whitelist.")
             EMBED_COLOR_SUCCESS [] None,
       {| whitelisted_users := (whitelisted_users s ++ [n])%list;
          saved := (saved s ++ [(whitelisted_users s ++ [n])%list])%list |})
    /\ is_whitelisted n ((whitelisted_users s ++ [n])%list) = (true, None).
Proof.
  intros s user_id n Hd Hint Hne Hout. split.
  - unfold manage_whitelist. rewrite (isdigit_not_missing _ Hd), Hint.
    apply Z.eqb_neq in Hne. apply py_in_not_In in Hout.
    rewrite Hne, Hout. reflexivity.
  - unfold is_whitelisted.
    assert (Hin : py_in n ((whitelisted_users s ++ [n])%list) = true).
    { apply py_in_In. rewrite in_app_iff. right. now left. }
    rewrite Hin, orb_true_r. reflexivity.
Qed.

(** X1: adding the id of a user who is neither the owner nor in the list
    appends it at the end, saves exactly the new list, answers with the
    success embed, and the user then passes the check. *)
Theorem whitelist_add_new_id `{Config} :
  forall (s : whitelist_state) (user_id : string) (n : Z),
    isdigit user_id = true ->
    py_int user_id = Some n ->
    n <> BOT_OWNER_ID ->
    ~ In n (whitelisted_users s) ->
    manage_whitelist "add" (Some user_id) s
    = (Embed "Whitelist Management"
             ("User ID `" ++ str_int n ++ "` added to the whitelist.")
             EMBED_COLOR_SUCCESS [] None,
       {| whitelisted_users := (whitelisted_users s ++ [n])%list;
          saved := (saved s ++ [(whitelisted_users s ++ [n])%list])%list |})
    /\ is_whitelisted n ((whitelisted_users s ++ [n])%list) = (true, None).
Proof. exact manage_whitelist_add_fresh. Qed.

Lemma whitelist_add_new_id_witness :
  @manage_whitelist demo_config "add" (Some "42")
     {| whitelisted_users := [12]; saved := [] |}
  = (Embed "Whitelist Management" "User ID `42` added to the whitelist."
           EMBED_COLOR_SUCCESS [] None,
     {| whitelisted_users := [12; 42]; saved := [[12; 42]] |}).
Proof.
  refine (proj1 (@whitelist_add_new_id demo_config
                   {| whitelisted_users := [12]; saved := [] |}
                   "42" 42 eq_refl eq_refl _ _)).
  - discriminate.
  - simpl. intros [Heq | []]. discriminate Heq.
Defined.

(** X2: removing an id from a list without repetitions takes it out of the
    list and leaves every other id in it, saves exactly the new list, and
    answers with the success embed; unless the id is the owner's, that user
    then fails the check. *)
Theorem whitelist_remove_present `{Config} :
  forall (s : whitelist_state) (user_id : string) (n : Z),
    isdigit user_id = true ->
    py_int user_id = Some n ->
    NoDup (whitelisted_users s) ->
    In n (whitelisted_users s) ->
    let users' := list_remove n (whitelisted_users s) in
    manage_whitelist "remove" (Some user_id) s
    = (Embed "Whitelist Management"
             ("User ID `" ++ str_int n ++ "` removed from the whitelist.")
             EMBED_COLOR_SUCCESS [] None,
       {| whitelisted_users := users'; saved := (saved s ++ [users'])%list |})
    /\ ~ In n users'
    /\ (forall m, m <> n -> (In m users' <-> In m (whitelisted_users s)))
    /\ (n <> BOT_OWNER_ID -> fst (is_whitelisted n users') = false).
Proof.
  intros s user_id n Hd Hint Hnd Hin users'. repeat split.
  - unfold manage_whitelist. rewrite (isdigit_not_missing _ Hd), Hint.
    apply py_in_In in Hin. rewrite Hin. reflexivity.
  - now apply list_remove_NoDup_out.
  - now apply list_remove_In_other.
  - now apply list_remove_In_other.
  - intros Hne. unfold is_whitelisted.
    apply Z.eqb_neq in Hne. rewrite Hne.
    assert (Hout : py_in n users' = false).
    { apply py_in_not_In. now apply list_remove_NoDup_out. }
    rewrite Hout. reflexivity.
Qed.

Lemma whitelist_remove_present_witness :
  @manage_whitelist demo_config "remove" (Some "12")
     {| whitelisted_users := [12; 42]; saved := [] |}
  = (Embed "Whitelist Management" "User ID `12` removed from the whitelist."
           EMBED_COLOR_SUCCESS [] None,
     {| whitelisted_users := [42]; saved := [[42]] |})
  /\ fst (@is_whitelisted demo_config 12 [42]) = false.
Proof.
  assert (Hnd : NoDup [12; 42]).
  { constructor; [simpl; intros [Heq | []]; discriminate Heq |].
    constructor; [simpl; tauto | constructor]. }
  destruct (@whitelist_remove_present demo_config
              {| whitelisted_users := [12; 42]; saved := [] |}
              "12" 12 eq_refl eq_refl Hnd (or_introl eq_refl))
    as (Hrun & _ & _ & Hdenied).
  split; [exact Hrun |].
  apply Hdenied. discriminate.
Defined.

(** X3: [remove] takes out one occurrence only: an id that stands twice in
    the list (a [whitelist.json] edited by hand) is still in it, and still
    passes the check, after it has been removed once. *)
Theorem whitelist_remove_one_occurrence `{Config} :
  forall (s : whitelist_state) (user_id : string) (n : Z) (a b c : list Z),
    isdigit user_id = true ->
    py_int user_id = Some n ->
    whitelisted_users s = (a ++ n :: b ++ n :: c)%list ->
    let s' := snd (manage_whitelist "remove" (Some user_id) s) in
    In n (whitelisted_users s')
    /\ List.length (whitelisted_users s') = (List.length (whitelisted_users s) - 1)%nat
    /\ is_whitelisted n (whitelisted_users s') = (true, None).
Proof.
  intros s user_id n a b c Hd Hint Hlist s'.
  assert (Hin : In n (whitelisted_users s)).
  { rewrite Hlist, in_app_iff. right. now left. }
  assert (Hs' : whitelisted_users s' = list_remove n (whitelisted_users s)).
  { subst s'. unfold manage_whitelist. rewrite (isdigit_not_missing _ Hd), Hint.
    apply py_in_In in Hin. rewrite Hin. reflexivity. }
  destruct (list_remove_first n _ Hin) as (pre & post & Hsplit & Hpre & Hrm).
  assert (Hstill : In n (whitelisted_users s')).
  { rewrite Hs', Hrm. rewrite in_app_iff.
    assert (Hcount : (2 <= count_occ Z.eq_dec (whitelisted_users s) n)%nat).
    { rewrite Hlist. rewrite !count_occ_app. simpl.
      destruct (Z.eq_dec n n) as [_ | Hne]; [| congruence].
      rewrite count_occ_app. simpl.
      destruct (Z.eq_dec n n) as [_ | Hne]; [lia | congruence]. }
    rewrite Hsplit, count_occ_app in Hcount. simpl in Hcount.
    destruct (Z.eq_dec n n) as [_ | Hne]; [| congruence].
    rewrite (proj1 (count_occ_not_In Z.eq_dec pre n) Hpre) in Hcount.
    right. apply (count_occ_In Z.eq_dec). lia. }
  split; [exact Hstill |]. split.
  - rewrite Hs', Hrm, Hsplit. rewrite !length_app. simpl. lia.
  - unfold is_whitelisted. apply py_in_In in Hstill. rewrite Hstill, orb_true_r.
    reflexivity.
Qed.

Lemma whitelist_remove_one_occurrence_witness :
  let s' := snd (@manage_whitelist demo_config "remove" (Some "12")
                   {| whitelisted_users := [12; 42; 12]; saved := [] |}) in
  In 12 (whitelisted_users s')
  /\ List.length (whitelisted_users s') = 2%nat
  /\ @is_whitelisted demo_config 12 (whitelisted_users s') = (true, None).
Proof.
  exact (@whitelist_remove_one_occurrence demo_config
           {| whitelisted_users := [12; 42; 12]; saved := [] |}
           "12" 12 [] [42] [] eq_refl eq_refl eq_refl).
Defined.

(** X4: adding an id that is neither the owner's nor in the list, and then
    removing it, gives back the list as it was; each of the two steps is
    saved. *)
Theorem whitelist_add_then_remove `{Config} :
  forall (s : whitelist_state) (user_id : string) (n : Z),
    isdigit user_id = true ->
    py_int user_id = Some n ->
    n <> BOT_OWNER_ID ->
    ~ In n (whitelisted_users s) ->
    snd (manage_whitelist "remove" (Some user_id)
           (snd (manage_whitelist "add" (Some user_id) s)))
    = {| whitelisted_users := whitelisted_users s;
         saved := (saved s ++ [(whitelisted_users s ++ [n])%list; whitelisted_users s])%list |}.
Proof.
  intros s user_id n Hd Hint Hne Hout.
  rewrite (proj1 (manage_whitelist_add_fresh s user_id n Hd Hint Hne Hout)).
  cbn [snd]. unfold manage_whitelist. rewrite (isdigit_not_missing _ Hd), Hint.
  cbn [whitelisted_users saved].
  assert (Hin : py_in n ((whitelisted_users s ++ [n])%list) = true).
  { apply py_in_In. rewrite in_app_iff. right. now left. }
  rewrite Hin. cbn. unfold save_whitelist. cbn.
  rewrite (list_remove_fresh_end _ _ Hout), <- app_assoc. reflexivity.
Qed.

Lemma whitelist_add_then_remove_witness :
  snd (@manage_whitelist demo_config "remove" (Some "42")
         (snd (@manage_whitelist demo_config "add" (Some "42")
                 {| whitelisted_users := [12]; saved := [] |})))
  = {| whitelisted_users := [12]; saved := [[12; 42]; [12]] |}.
Proof.
  refine (@whitelist_add_then_remove demo_config
            {| whitelisted_users := [12]; saved := [] |} "42" 42 eq_refl eq_refl _ _).
  - discriminate.
  - simpl. intros [Heq | []]. discriminate Heq.
Defined.

(** X5: whatever commands are issued, by whomever, a list that has no
    repetition and does not hold the owner's id keeps both properties. *)
Theorem whitelist_commands_invariant `{Config} :
  forall (calls : list whitelist_call) (s : whitelist_state),
    NoDup (whitelisted_users s) ->
    ~ In BOT_OWNER_ID (whitelisted_users s) ->
    NoDup (whitelisted_users (whitelist_commands calls s))
    /\ ~ In BOT_OWNER_ID (whitelisted_users (whitelist_commands calls s)).
Proof.
  induction calls as [| c calls IH]; intros s Hnd Hout; simpl; [now split |].
  apply IH.
  - destruct (whitelist_command_cases (caller c) (call_action c) (call_user_id c) s)
      as [-> | (_ & [(n & _ & Hfresh & ->) | (n & _ & ->)])]; simpl.
    + assumption.
    + apply NoDup_app; [assumption | repeat constructor; simpl; tauto |].
      intros x Hx [<- | []]. contradiction.
    + now apply list_remove_NoDup.
  - destruct (whitelist_command_cases (caller c) (call_action c) (call_user_id c) s)
      as [-> | (_ & [(n & Hne & _ & ->) | (n & _ & ->)])]; simpl.
    + assumption.
    + rewrite in_app_iff. simpl. intuition congruence.
    + intros Hin. apply Hout. eapply list_remove_incl. exact Hin.
Qed.

Lemma whitelist_commands_invariant_witness :
  let s' := @whitelist_commands demo_config
              [ {| caller := 7; call_action := "add"; call_user_id := Some "42" |};
                {| caller := 7; call_action := "add"; call_user_id := Some "42" |};
                {| caller := 7; call_action := "add"; call_user_id := Some "7" |};
                {| caller := 5; call_action := "remove"; call_user_id := Some "12" |} ]
              {| whitelisted_users := [12]; saved := [] |} in
  NoDup (whitelisted_users s') /\ ~ In 7 (whitelisted_users s').
Proof.
  refine (@whitelist_commands_invariant demo_config _
            {| whitelisted_users := [12]; saved := [] |} _ _).
  - repeat constructor. simpl. tauto.
  - simpl. intros [Heq | []]. discriminate Heq.
Defined.

(** X6: commands issued by anyone but the owner leave the list and the
    file as they are. *)
Theorem whitelist_commands_owner_only `{Config} :
  forall (calls : list whitelist_call) (s : whitelist_state),
    Forall (fun c => caller c <> BOT_OWNER_ID) calls ->
    whitelist_commands calls s = s.
Proof.
  induction calls as [| c calls IH]; intros s Hcalls; simpl; [reflexivity |].
  inversion Hcalls as [| ? ? Hc Hrest]; subst.
  destruct (whitelist_command_cases (caller c) (call_action c) (call_user_id c) s)
    as [-> | (Howner & _)]; [now apply IH | contradiction].
Qed.

Lemma whitelist_commands_owner_only_witness :
  @whitelist_commands demo_config
     [ {| caller := 5; call_action := "add"; call_user_id := Some "5" |};
       {| caller := 12; call_action := "remove"; call_user_id := Some "12" |} ]
     {| whitelisted_users := [12]; saved := [] |}
  = {| whitelisted_users := [12]; saved := [] |}.
Proof.
  apply (@whitelist_commands_owner_only demo_config).
  repeat constructor; simpl; discriminate.
Defined.

(** X7: after any sequence of commands, either nothing was saved and the
    list is as it was, or the content saved last is the list in memory:
    the file never lags behind the list. *)
Theorem whitelist_commands_saved_last `{Config} :
  forall (calls : list whitelist_call) (s : whitelist_state),
    let s' := whitelist_commands calls s in
    (saved s' = saved s /\ whitelisted_users s' = whitelisted_users s)
    \/ exists earlier, saved s' = (saved s ++ earlier ++ [whitelisted_users s'])%list.
Proof.
  induction calls as [| c calls IH]; intros s; simpl; [now left |].
  set (s1 := snd (whitelist_command (caller c) (call_action c) (call_user_id c) s)).
  assert (Hstep : s1 = s
                  \/ saved s1 = (saved s ++ [whitelisted_users s1])%list).
  { subst s1.
    destruct (whitelist_command_cases (caller c) (call_action c) (call_user_id c) s)
      as [-> | (_ & [(n & _ & _ & ->) | (n & _ & ->)])]; [now left | now right ..]. }
  destruct (IH s1) as [(Hsaved & Hlist) | (earlier & Hsaved)].
  - destruct Hstep as [-> | Hstep]; [now left |].
    right. exists []. rewrite Hsaved, Hlist. exact Hstep.
  - right. destruct Hstep as [-> | Hstep].
    + now exists earlier.
    + exists (whitelisted_users s1 :: earlier).
      rewrite Hsaved, Hstep, <- app_assoc. reflexivity.
Qed.

(** ** The username lookup and the error embed *)

(** Case analysis as [crunch], computing between the steps. *)
Ltac crunch_eval :=
  repeat (cbn;
          match goal with
          | |- context [match ?x with _ => _ end] =>
              lazymatch x with
              | context [match _ with _ => _ end] => fail
              | _ => destruct x
              end
          end).

Section LookupMore.
Context `{Config} `{Runtime}.

Lemma get_username_from_id_shape : forall n s x s',
  get_username_from_id n s = (x, s') ->
  log s' = (log s ++ [lookup_request n])%list
  /\ x <> Diverge
  /\ forall e, x = Raise e -> is_RequestException e = false.
Proof.
  intros n s x s'.
  unfold get_username_from_id, try_except. fold (lookup_request n).
  unfold bind, requests_call, raise_for_status, response_json, json_error, py_get,
    py_first, ret, raise.
  destruct (http (env s) (lookup_request n)) as [w [r | r]].
  - crunch_eval; intros [= <- <-];
      (split; [reflexivity | split; [discriminate |]]);
      intros e' He'; try discriminate He'; injection He' as <-; reflexivity.
  - cbn. intros [= <- <-].
    split; [reflexivity | split; [discriminate | intros e' He'; discriminate He']].
Qed.

Lemma get_username_from_id_named : forall n s w r members first rest,
  http (env s) (lookup_request n) = (w, Answer r) ->
  (400 <=? status_code r) && (status_code r <? 600) = false ->
  body_json r = Some (JObj members) ->
  dict_lookup members "data" = Some (JArr (JObj first :: rest)) ->
  get_username_from_id n s
  = (Ret (match dict_lookup first "name" with
          | Some name => name
          | None => JStr (id_fallback n)
          end),
     after s w (lookup_request n)).
Proof.
  intros n s w r members first rest Hhttp Hstatus Hbody Hdata.
  unfold get_username_from_id, try_except. fold (lookup_request n).
  unfold bind at 1. unfold bind at 1.
  rewrite (requests_call_answer _ _ _ _ Hhttp).
  unfold bind at 1. unfold raise_for_status. rewrite Hstatus. unfold ret at 1.
  unfold bind at 1. unfold response_json. rewrite Hbody. unfold ret at 1.
  unfold bind at 1. unfold py_get at 1. rewrite Hdata. reflexivity.
Qed.

Lemma create_api_error_embed_forbidden : forall e r requested_perm,
  exn_response e = Some r ->
  status_code r = 403 ->
  (forall v, body_json r = Some v -> exists members, v = JObj members) ->
  exists raw,
    create_api_error_embed e requested_perm
    = Ret (Embed "API Key Error (403 Forbidden)"
                 ("The bot's API Key does not have the **`" ++ requested_perm
                  ++ "`** permission for the DataStore API.")
                 EMBED_COLOR_ERROR
                 [("How to Fix",
                   "Go to your API Key settings on the Roblox Creator Dashboard and add the **`"
                   ++ requested_perm ++ "`** operation to the **'DataStore'** API.");
                  ("Raw Error", fenced raw)]
                 None).
Proof.
  intros e r requested_perm Hresp Hstatus Hbody.
  unfold create_api_error_embed. rewrite Hresp, Hstatus. cbn [Z.eqb Pos.eqb].
  destruct (body_json r) as [v |] eqn:Hv.
  - destruct (Hbody v eq_refl) as [members ->]. eexists. reflexivity.
  - eexists. reflexivity.
Qed.
End LookupMore.

(** X8: whatever the directory answers, [get_username_from_id] makes
    exactly one request, the lookup of that id, and lets no request error
    out: it returns a name, or raises an error that is no
    [RequestException] (on an answer of an unexpected shape). *)
Theorem get_username_from_id_one_request `{Config} `{Runtime} :
  forall (n : Z) (s : state),
    log (snd (get_username_from_id n s)) = (log s ++ [lookup_request n])%list
    /\ fst (get_username_from_id n s) <> Diverge
    /\ forall e, fst (get_username_from_id n s) = Raise e -> is_RequestException e = false.
Proof.
  intros n s.
  destruct (get_username_from_id n s) as [x s'] eqn:Hrun.
  exact (get_username_from_id_shape n s x s' Hrun).
Qed.

(** X9: when the directory answers the lookup with a status that is no
    error and a body whose data starts with a record, the username is that
    record's name, or "ID: <id>" when the record has none. *)
Theorem get_username_from_id_resolves `{Config} `{Runtime} :
  forall (n : Z) (s : state) (w : world) (r : response)
         (members first : list (string * json)) (rest : list json),
    http (env s) (lookup_request n) = (w, Answer r) ->
    (400 <=? status_code r) && (status_code r <? 600) = false ->
    body_json r = Some (JObj members) ->
    dict_lookup members "data" = Some (JArr (JObj first :: rest)) ->
    get_username_from_id n s
    = (Ret (match dict_lookup first "name" with
            | Some name => name
            | None => JStr ("ID: " ++ str_int n)
            end),
       {| env := w; log := log s ++ [lookup_request n] |}).
Proof. exact get_username_from_id_named. Qed.

Lemma get_username_from_id_resolves_witness :
  fst (@get_username_from_id store_runtime 12345
         (@State store_runtime (Store [] [(12345, "Bob")] 1700000000) []))
  = Ret (JStr "Bob").
Proof.
  exact (f_equal fst
           (@get_username_from_id_resolves demo_config store_runtime 12345
              (@State store_runtime (Store [] [(12345, "Bob")] 1700000000) [])
              (Store [] [(12345, "Bob")] 1700000000)
              (Response 200 ""
                 (Some (JObj [("data", JArr [JObj [("id", JInt 12345);
                                                    ("name", JStr "Bob")]])])))
              _ _ [] eq_refl eq_refl eq_refl eq_refl)).
Defined.

(** X10: for an error that carries a 403 response, [create_api_error_embed]
    gives the "API Key Error" embed that names the permission asked for,
    in its description and in its "How to Fix" field, followed by the raw
    error, provided the body of the response is a JSON object or no JSON;
    when the body is JSON of another kind it raises [AttributeError].  For
    every other error it gives the generic "API Request Failed" embed. *)
Theorem create_api_error_embed_cases `{Runtime} :
  forall (e : exception) (requested_perm : string),
    (forall r,
       exn_response e = Some r -> status_code r = 403 ->
       (forall v, body_json r = Some v -> exists members, v = JObj members) ->
       exists raw,
         create_api_error_embed e requested_perm
         = Ret (Embed "API Key Error (403 Forbidden)"
                      ("The bot's API Key does not have the **`" ++ requested_perm
                       ++ "`** permission for the DataStore API.")
                      EMBED_COLOR_ERROR
                      [("How to Fix",
                        "Go to your API Key settings on the Roblox Creator Dashboard and add the **`"
                        ++ requested_perm ++ "`** operation to the **'DataStore'** API.");
                       ("Raw Error", fenced raw)]
                      None))
    /\ (forall r v,
          exn_response e = Some r -> status_code r = 403 ->
          body_json r = Some v -> (forall members, v <> JObj members) ->
          create_api_error_embed e requested_perm = Raise AttributeError)
    /\ ((forall r, exn_response e = Some r -> status_code r <> 403) ->
        create_api_error_embed e requested_perm
        = Ret (Embed "API Request Failed"
                     "An error occurred while contacting the Roblox API."
                     EMBED_COLOR_ERROR [("Details", fenced (str_exception e))] None)).
Proof.
  intros e requested_perm. split; [| split].
  - intros r Hresp Hstatus Hbody.
    now apply create_api_error_embed_forbidden with r.
  - intros r v Hresp Hstatus Hbody Hshape.
    unfold create_api_error_embed. rewrite Hresp, Hstatus, Hbody. cbn [Z.eqb Pos.eqb].
    destruct v; try reflexivity. now contradiction (Hshape members).
  - intros Hother. unfold create_api_error_embed.
    destruct (exn_response e) as [r |]; [| reflexivity].
    specialize (Hother r eq_refl). apply Z.eqb_neq in Hother. now rewrite Hother.
Qed.

Lemma create_api_error_embed_cases_witness :
  (exists raw,
     @create_api_error_embed mock_runtime (HTTPError forbidden) "Write"
     = Ret (Embed "API Key Error (403 Forbidden)"
                  "The bot's API Key does not have the **`Write`** permission for the DataStore API."
                  EMBED_COLOR_ERROR
                  [("How to Fix",
                    "Go to your API Key settings on the Roblox Creator Dashboard and add the **`Write`** operation to the **'DataStore'** API.");
                   ("Raw Error", fenced raw)]
                  None))
  /\ @create_api_error_embed mock_runtime
       (HTTPError (Response 403 "[]" (Some (JArr [])))) "Write"
     = Raise AttributeError
  /\ @create_api_error_embed mock_runtime (RequestException None) "Write"
     = Ret (Embed "API Request Failed"
                  "An error occurred while contacting the Roblox API."
                  EMBED_COLOR_ERROR [("Details", fenced "RequestException")] None).
Proof.
  split; [| split].
  - apply (proj1 (@create_api_error_embed_cases mock_runtime (HTTPError forbidden) "Write")
             forbidden eq_refl eq_refl).
    intros v Hv. discriminate Hv.
  - apply (proj1 (proj2 (@create_api_error_embed_cases mock_runtime
                           (HTTPError (Response 403 "[]" (Some (JArr [])))) "Write"))
             (Response 403 "[]" (Some (JArr []))) (JArr []) eq_refl eq_refl eq_refl).
    intros members Heq. discriminate Heq.
  - apply (proj2 (proj2 (@create_api_error_embed_cases mock_runtime
                           (RequestException None) "Write"))).
    intros r Hr. discriminate Hr.
Defined.

Lemma get_username_from_id_one_request_witness :
  let run := @get_username_from_id mock_runtime 12345
               (@State mock_runtime malformed_directory_mock []) in
  log (snd run) = [lookup_request 12345]
  /\ fst run = Raise TypeError
  /\ is_RequestException TypeError = false.
Proof.
  intros run.
  destruct (@get_username_from_id_one_request demo_config mock_runtime 12345
              (@State mock_runtime malformed_directory_mock [])) as (Hlog & _ & Hexn).
  split; [exact Hlog |]. split; [reflexivity |].
  exact (Hexn TypeError eq_refl).
Defined.

(** ** Ban and unban: refusals, success, and the requests made *)

Section BanMore.
Context `{Config} `{Runtime}.

Lemma unban_cmd_accepted : forall display_name user_id n username s w r s2,
  isdigit user_id = true ->
  py_int user_id = Some n ->
  http (env s) (delete_request user_id) = (w, Answer r) ->
  status_code r <> 404 ->
  (400 <=? status_code r) && (status_code r <? 600) = false ->
  get_username_from_id n (after s w (delete_request user_id)) = (Ret username, s2) ->
  unban_cmd display_name user_id s
  = (Ret (Embed "User Unbanned (DataStore)"
                ("Successfully unbanned **" ++ py_str username ++ "** (`" ++ user_id ++ "`).")
                EMBED_COLOR_SUCCESS [] (Some ("Unbanned by " ++ display_name))),
     s2).
Proof.
  intros display_name user_id n username s w r s2 Hd Hint Hhttp H404 Hstatus Huser.
  unfold unban_cmd. rewrite Hd. cbn [negb]. fold (delete_request user_id).
  unfold try_except. unfold bind at 1.
  rewrite (requests_call_answer _ _ _ _ Hhttp).
  apply Z.eqb_neq in H404. rewrite H404.
  unfold bind at 1. unfold raise_for_status. rewrite Hstatus. unfold ret at 1.
  unfold bind at 1. unfold int_or_raise. rewrite Hint. unfold ret at 1.
  unfold bind at 1. rewrite Huser. reflexivity.
Qed.

Lemma unban_cmd_refused : forall display_name user_id s w r,
  isdigit user_id = true ->
  http (env s) (delete_request user_id) = (w, Answer r) ->
  status_code r <> 404 ->
  (400 <=? status_code r) && (status_code r <? 600) = true ->
  unban_cmd display_name user_id s
  = (create_api_error_embed (HTTPError r) "Delete", after s w (delete_request user_id)).
Proof.
  intros display_name user_id s w r Hd Hhttp H404 Hstatus.
  unfold unban_cmd. rewrite Hd. cbn [negb]. fold (delete_request user_id).
  unfold try_except. unfold bind at 1.
  rewrite (requests_call_answer _ _ _ _ Hhttp).
  apply Z.eqb_neq in H404. rewrite H404.
  unfold bind at 1. unfold raise_for_status. rewrite Hstatus. reflexivity.
Qed.

Lemma banid_cmd_refused : forall display_name user_id reason n username s s1 w r,
  isdigit user_id = true ->
  py_int user_id = Some n ->
  get_username_from_id n s = (Ret username, s1) ->
  let ban_data :=
    ban_record (match reason with Some x => x | None => default_reason end)
               display_name username (time_time (env s1)) in
  http (env s1) (write_request user_id ban_data) = (w, Answer r) ->
  (400 <=? status_code r) && (status_code r <? 600) = true ->
  banid_cmd display_name user_id reason s
  = (create_api_error_embed (HTTPError r) "Write",
     after s1 w (write_request user_id ban_data)).
Proof.
  intros display_name user_id reason n username s s1 w r Hd Hint Huser ban_data
         Hhttp Hstatus.
  rewrite (banid_cmd_write _ _ reason _ _ _ _ Hd Hint Huser).
  unfold try_except. unfold bind at 1. fold ban_data.
  rewrite (requests_call_answer _ _ _ _ Hhttp).
  unfold bind at 1. unfold raise_for_status. rewrite Hstatus. reflexivity.
Qed.
End BanMore.

(** X11: when the store refuses the write of [banid_cmd] with status 403
    (the body of the refusal a JSON object or no JSON), the reply is the
    "API Key Error" embed saying that the key lacks the Write permission,
    and nothing is requested after the refused write. *)
Theorem banid_forbidden_names_write `{Config} `{Runtime} :
  forall (display_name user_id : string) (reason : option string) (n : Z)
         (username : json) (s s1 : state) (w : world) (r : response),
    isdigit user_id = true ->
    py_int user_id = Some n ->
    get_username_from_id n s = (Ret username, s1) ->
    let ban_data :=
      ban_record (match reason with Some x => x | None => default_reason end)
                 display_name username (time_time (env s1)) in
    http (env s1) (write_request user_id ban_data) = (w, Answer r) ->
    status_code r = 403 ->
    (forall v, body_json r = Some v -> exists members, v = JObj members) ->
    exists e,
      banid_cmd display_name user_id reason s
      = (Ret e, {| env := w; log := log s1 ++ [write_request user_id ban_data] |})
      /\ title e = "API Key Error (403 Forbidden)"
      /\ description e
         = "The bot's API Key does not have the **`Write`** permission for the DataStore API."
      /\ color e = EMBED_COLOR_ERROR.
Proof.
  intros display_name user_id reason n username s s1 w r Hd Hint Huser ban_data
         Hhttp Hstatus Hbody.
  destruct (create_api_error_embed_forbidden (HTTPError r) r "Write" eq_refl Hstatus Hbody)
    as [raw Hembed].
  eexists. split.
  - rewrite (banid_cmd_refused _ _ reason _ _ _ _ _ _ Hd Hint Huser Hhttp)
      by (rewrite Hstatus; reflexivity).
    rewrite Hembed. reflexivity.
  - repeat split.
Qed.

Lemma banid_forbidden_names_write_witness :
  exists e,
    fst (@banid_cmd demo_config mock_runtime "Alice" "12345" None
           (@State mock_runtime read_only_mock [])) = Ret e
    /\ description e
       = "The bot's API Key does not have the **`Write`** permission for the DataStore API.".
Proof.
  destruct (@banid_forbidden_names_write demo_config mock_runtime "Alice" "12345" None
              12345 (JStr "Bob") (@State mock_runtime read_only_mock [])
              (@State mock_runtime read_only_mock [lookup_request 12345])
              read_only_mock forbidden eq_refl eq_refl eq_refl eq_refl eq_refl)
    as (e & Hrun & _ & Hdescription & _).
  - intros v Hv. discriminate Hv.
  - exists e. split; [| exact Hdescription].
    exact (f_equal fst Hrun).
Defined.

(** X12: when the store refuses the delete of [unban_cmd] with status 403
    (the body of the refusal a JSON object or no JSON), the reply is the
    "API Key Error" embed saying that the key lacks the Delete permission;
    the username is not looked up. *)
Theorem unban_forbidden_names_delete `{Config} `{Runtime} :
  forall (display_name user_id : string) (s : state) (w : world) (r : response),
    isdigit user_id = true ->
    http (env s) (delete_request user_id) = (w, Answer r) ->
    status_code r = 403 ->
    (forall v, body_json r = Some v -> exists members, v = JObj members) ->
    exists e,
      unban_cmd display_name user_id s
      = (Ret e, {| env := w; log := log s ++ [delete_request user_id] |})
      /\ title e = "API Key Error (403 Forbidden)"
      /\ description e
         = "The bot's API Key does not have the **`Delete`** permission for the DataStore API."
      /\ color e = EMBED_COLOR_ERROR.
Proof.
  intros display_name user_id s w r Hd Hhttp Hstatus Hbody.
  destruct (create_api_error_embed_forbidden (HTTPError r) r "Delete" eq_refl Hstatus Hbody)
    as [raw Hembed].
  eexists. split.
  - rewrite (unban_cmd_refused _ _ _ _ _ Hd Hhttp)
      by (rewrite Hstatus; (discriminate || reflexivity)).
    rewrite Hembed. reflexivity.
  - repeat split.
Qed.

Lemma unban_forbidden_names_delete_witness :
  exists e,
    @unban_cmd demo_config mock_runtime "Alice" "12345"
       (@State mock_runtime read_only_mock [])
    = (Ret e, @State mock_runtime read_only_mock [@delete_request demo_config "12345"])
    /\ description e
       = "The bot's API Key does not have the **`Delete`** permission for the DataStore API.".
Proof.
  destruct (@unban_forbidden_names_delete demo_config mock_runtime "Alice" "12345"
              (@State mock_runtime read_only_mock []) read_only_mock forbidden
              eq_refl eq_refl eq_refl) as (e & Hrun & _ & Hdescription & _).
  - intros v Hv. discriminate Hv.
  - exists e. split; assumption.
Defined.

(** X13: when the store accepts the delete (a status that is neither 404
    nor an error), [unban_cmd] looks the username up and replies with the
    success embed naming the user and the caller; the requests made are
    the delete and then the lookup. *)
Theorem unban_accepted_names_user `{Config} `{Runtime} :
  forall (display_name user_id : string) (n : Z) (username : json)
         (s s2 : state) (w : world) (r : response),
    isdigit user_id = true ->
    py_int user_id = Some n ->
    http (env s) (delete_request user_id) = (w, Answer r) ->
    status_code r <> 404 ->
    (400 <=? status_code r) && (status_code r <? 600) = false ->
    get_username_from_id n {| env := w; log := log s ++ [delete_request user_id] |}
    = (Ret username, s2) ->
    unban_cmd display_name user_id s
    = (Ret (Embed "User Unbanned (DataStore)"
                  ("Successfully unbanned **" ++ py_str username ++ "** (`" ++ user_id ++ "`).")
                  EMBED_COLOR_SUCCESS [] (Some ("Unbanned by " ++ display_name))),
       s2)
    /\ log s2 = (log s ++ [delete_request user_id; lookup_request n])%list.
Proof.
  intros display_name user_id n username s s2 w r Hd Hint Hhttp H404 Hstatus Huser.
  split.
  - now apply unban_cmd_accepted with n w r.
  - destruct (get_username_from_id_shape _ _ _ _ Huser) as (Hlog & _).
    rewrite Hlog. cbn [log]. now rewrite <- app_assoc.
Qed.

Lemma unban_accepted_names_user_witness :
  @unban_cmd demo_config mock_runtime "Alice" "12345"
     (@State mock_runtime accepting_mock [])
  = (Ret (Embed "User Unbanned (DataStore)" "Successfully unbanned **Bob** (`12345`)."
                EMBED_COLOR_SUCCESS [] (Some "Unbanned by Alice")),
     @State mock_runtime accepting_mock
            [@delete_request demo_config "12345"; lookup_request 12345]).
Proof.
  refine (proj1 (@unban_accepted_names_user demo_config mock_runtime "Alice" "12345"
                   12345 (JStr "Bob") (@State mock_runtime accepting_mock []) _
                   accepting_mock (Response 204 "" None)
                   eq_refl eq_refl eq_refl _ eq_refl eq_refl)).
  discriminate.
Defined.

Section Discipline.
Context `{Config} `{Runtime}.

Lemma create_api_error_embed_raises : forall e requested_perm e',
  create_api_error_embed e requested_perm = Raise e' -> e' = AttributeError.
Proof.
  intros e requested_perm e'. unfold create_api_error_embed.
  destruct (exn_response e) as [r |]; [| discriminate].
  destruct (status_code r =? 403); [| discriminate].
  destruct (body_json r) as [[] |]; try discriminate; now intros [= <-].
Qed.

Lemma create_api_error_embed_returns : forall e requested_perm,
  create_api_error_embed e requested_perm <> Diverge.
Proof.
  intros e requested_perm. unfold create_api_error_embed.
  destruct (exn_response e) as [r |]; [| discriminate].
  destruct (status_code r =? 403); [| discriminate].
  destruct (body_json r) as [[] |]; discriminate.
Qed.

Lemma unban_cmd_shape : forall display_name user_id s x s',
  isdigit user_id = true ->
  unban_cmd display_name user_id s = (x, s') ->
  (log s' = (log s ++ [delete_request user_id])%list
   \/ exists n, py_int user_id = Some n
                /\ log s' = (log s ++ [delete_request user_id; lookup_request n])%list)
  /\ x <> Diverge
  /\ forall e, x = Raise e -> is_RequestException e = false.
Proof.
  intros display_name user_id s x s' Hd.
  unfold unban_cmd. rewrite Hd. cbn [negb]. fold (delete_request user_id).
  unfold try_except. unfold bind at 1. unfold requests_call.
  destruct (http (env s) (delete_request user_id)) as [w [r | r]]; cbn [log env].
  - destruct (status_code r =? 404).
    + unfold ret. intros [= <- <-]. split; [now left |].
      split; [discriminate | intros e He; discriminate He].
    + unfold bind at 1. unfold raise_for_status.
      destruct ((400 <=? status_code r) && (status_code r <? 600)).
      * unfold raise, lift. cbn [is_RequestException]. cbn beta iota.
        intros [= <- <-]. split; [now left |]. split.
        -- apply create_api_error_embed_returns.
        -- intros e He. now rewrite (create_api_error_embed_raises _ _ _ He).
      * unfold ret at 1. unfold bind at 1. unfold int_or_raise.
        destruct (py_int user_id) as [n |] eqn:Hint.
        -- unfold ret at 1. unfold bind at 1.
           destruct (get_username_from_id n _) as [o s2] eqn:Huser.
           destruct (get_username_from_id_shape _ _ _ _ Huser) as (Hlog & Hret & Hexn).
           cbn [log] in Hlog.
           assert (Hboth : log s2
                           = (log s ++ [delete_request user_id; lookup_request n])%list).
           { rewrite Hlog. now rewrite <- app_assoc. }
           destruct o as [username | e |]; [| | congruence].
           ++ unfold ret. intros [= <- <-]. split; [right; now exists n |].
              split; [discriminate | intros e He; discriminate He].
           ++ rewrite (Hexn e eq_refl). unfold raise. intros [= <- <-].
              split; [right; now exists n |].
              split; [discriminate | intros e' [= <-]; now apply Hexn].
        -- unfold raise. cbn [is_RequestException]. cbn beta iota.
           intros [= <- <-]. split; [now left |].
           split; [discriminate | intros e' [= <-]; reflexivity].
  - unfold lift. cbn [is_RequestException]. cbn beta iota.
    intros [= <- <-]. split; [now left |]. split.
    + apply create_api_error_embed_returns.
    + intros e He. now rewrite (create_api_error_embed_raises _ _ _ He).
Qed.

Lemma banid_cmd_shape : forall display_name user_id reason n s x s',
  isdigit user_id = true ->
  py_int user_id = Some n ->
  banid_cmd display_name user_id reason s = (x, s') ->
  ((log s' = (log s ++ [lookup_request n])%list /\ exists e, x = Raise e)
   \/ exists username now,
        log s'
        = (log s
           ++ [lookup_request n;
               write_request user_id
                 (ban_record (match reason with Some r => r | None => default_reason end)
                             display_name username now)])%list)
  /\ x <> Diverge
  /\ forall e, x = Raise e -> is_RequestException e = false.
Proof.
  intros display_name user_id reason n s x s' Hd Hint.
  destruct (get_username_from_id n s) as [o s1] eqn:Huser.
  destruct (get_username_from_id_shape _ _ _ _ Huser) as (Hlog & Hret & Hexn).
  destruct o as [username | e |]; [| | congruence].
  - intros Hrun.
    pose proof (banid_cmd_log _ _ _ _ _ _ _ _ _ Hd Hint Huser Hrun) as Hlog'.
    split; [right; exists username, (time_time (env s1)) |].
    { rewrite Hlog', Hlog. now rewrite <- app_assoc. }
    revert Hrun. rewrite (banid_cmd_write _ _ reason _ _ _ _ Hd Hint Huser).
    unfold try_except, bind, requests_call, raise_for_status, ret, raise, lift.
    destruct (http (env s1) _) as [w [r | r]]; cbn [is_RequestException]; cbn beta iota.
    + destruct ((400 <=? status_code r) && (status_code r <? 600));
        cbn [is_RequestException]; cbn beta iota;
        intros [= <- _]; (split; [try discriminate | ]).
      * apply create_api_error_embed_returns.
      * intros e He. now rewrite (create_api_error_embed_raises _ _ _ He).
      * intros e He. discriminate He.
    + intros [= <- _]. split.
      * apply create_api_error_embed_returns.
      * intros e He. now rewrite (create_api_error_embed_raises _ _ _ He).
  - unfold banid_cmd. rewrite Hd. cbn [negb]. unfold int_or_raise. rewrite Hint.
    unfold bind at 1. unfold ret at 1. unfold bind at 1. rewrite Huser.
    intros [= <- <-]. split; [left; split; [exact Hlog | now exists e] |].
    split; [discriminate | intros e' [= <-]; now apply Hexn].
Qed.

(** An identifier of more digits than [int] converts: [banid_cmd] raises
    [ValueError] before it asks anything. *)
Lemma banid_cmd_too_long : forall display_name user_id reason s,
  isdigit user_id = true ->
  py_int user_id = None ->
  banid_cmd display_name user_id reason s = (Raise ValueError, s).
Proof.
  intros display_name user_id reason s Hd Hint.
  unfold banid_cmd. rewrite Hd. cbn [negb]. unfold int_or_raise. rewrite Hint.
  reflexivity.
Qed.

(** The same identifier given to [unban_cmd]: the delete is sent; when it
    is accepted, [int] raises [ValueError], which the handler of request
    errors lets through, and the username is not looked up. *)
Lemma unban_cmd_too_long : forall display_name user_id s w r,
  isdigit user_id = true ->
  py_int user_id = None ->
  http (env s) (delete_request user_id) = (w, Answer r) ->
  status_code r <> 404 ->
  (400 <=? status_code r) && (status_code r <? 600) = false ->
  unban_cmd display_name user_id s
  = (Raise ValueError, after s w (delete_request user_id)).
Proof.
  intros display_name user_id s w r Hd Hint Hhttp H404 Hstatus.
  unfold unban_cmd. rewrite Hd. cbn [negb]. fold (delete_request user_id).
  unfold try_except. unfold bind at 1.
  rewrite (requests_call_answer _ _ _ _ Hhttp).
  apply Z.eqb_neq in H404. rewrite H404.
  unfold bind at 1. unfold raise_for_status. rewrite Hstatus. unfold ret at 1.
  unfold bind at 1. unfold int_or_raise. rewrite Hint. reflexivity.
Qed.
End Discipline.

(** X14: for an identifier of ASCII text, [unban_cmd] asks nothing of the
    network when the identifier is not numeric; for a numeric one its first
    request is the delete, and the only request that can follow is the
    lookup of the username.  When the identifier has more digits than [int]
    converts and the delete is accepted, the command raises [ValueError]
    after the delete and looks nothing up.  No request error comes out of
    it: it returns an embed, or raises an error that is no
    [RequestException]. *)
Theorem unban_cmd_requests `{Config} `{Runtime} :
  forall (display_name user_id : string) (s : state),
    is_ascii user_id = true ->
    let run := unban_cmd display_name user_id s in
    (isdigit user_id = false -> run = (Ret invalid_input, s))
    /\ (isdigit user_id = true ->
        log (snd run) = (log s ++ [delete_request user_id])%list
        \/ exists n, py_int user_id = Some n
                     /\ log (snd run)
                        = (log s ++ [delete_request user_id; lookup_request n])%list)
    /\ (isdigit user_id = true ->
        (int_max_str_digits < String.length user_id)%nat ->
        forall (w : world) (r : response),
          http (env s) (delete_request user_id) = (w, Answer r) ->
          status_code r <> 404 ->
          (400 <=? status_code r) && (status_code r <? 600) = false ->
          run = (Raise ValueError,
                 {| env := w; log := log s ++ [delete_request user_id] |}))
    /\ fst run <> Diverge
    /\ forall e, fst run = Raise e -> is_RequestException e = false.
Proof.
  intros display_name user_id s Hascii run. subst run.
  destruct (isdigit user_id) eqn:Hd.
  - destruct (unban_cmd display_name user_id s) as [x s'] eqn:Hrun.
    destruct (unban_cmd_shape _ _ _ _ _ Hd Hrun) as (Hlog & Hret & Hexn).
    split; [discriminate |]. split; [intros _; exact Hlog |].
    split; [| split; assumption].
    intros _ Hlen w r Hhttp H404 Hstatus.
    rewrite <- Hrun.
    exact (unban_cmd_too_long _ _ _ w r Hd (py_int_too_long _ Hlen) Hhttp H404 Hstatus).
  - assert (Hrun : unban_cmd display_name user_id s = (Ret invalid_input, s)).
    { unfold unban_cmd. now rewrite Hd. }
    rewrite Hrun. split; [reflexivity |]. split; [discriminate |].
    split; [discriminate |].
    split; [discriminate | intros e He; discriminate He].
Qed.

Lemma unban_cmd_requests_witness :
  @unban_cmd demo_config mock_runtime "Alice" "12a45"
     (@State mock_runtime accepting_mock [])
  = (Ret invalid_input, @State mock_runtime accepting_mock [])
  /\ (log (snd (@unban_cmd demo_config mock_runtime "Alice" "12345"
                  (@State mock_runtime accepting_mock [])))
      = [@delete_request demo_config "12345"]
      \/ exists n, py_int "12345" = Some n
                   /\ log (snd (@unban_cmd demo_config mock_runtime "Alice" "12345"
                                  (@State mock_runtime accepting_mock [])))
                      = [@delete_request demo_config "12345"; lookup_request n]).
Proof.
  split.
  - exact (proj1 (@unban_cmd_requests demo_config mock_runtime "Alice" "12a45"
                    (@State mock_runtime accepting_mock []) eq_refl) eq_refl).
  - exact (proj1 (proj2 (@unban_cmd_requests demo_config mock_runtime "Alice" "12345"
                           (@State mock_runtime accepting_mock []) eq_refl)) eq_refl).
Defined.

(** An identifier of 4301 digits, one more than [int] converts. *)
Example unban_cmd_long_identifier :
  @unban_cmd demo_config mock_runtime "Alice" long_id
     (@State mock_runtime accepting_mock [])
  = (Raise ValueError,
     @State mock_runtime accepting_mock [@delete_request demo_config long_id]).
Proof.
  assert (Hd : isdigit long_id = true) by (vm_compute; reflexivity).
  assert (Hint : py_int long_id = None) by (vm_compute; reflexivity).
  refine (@unban_cmd_too_long demo_config mock_runtime "Alice" long_id
            (@State mock_runtime accepting_mock []) accepting_mock
            (Response 204 "" None) Hd Hint eq_refl _ eq_refl).
  discriminate.
Qed.

(** X15: for an identifier of ASCII text, [banid_cmd] asks nothing of the
    network when the identifier is not numeric.  For a numeric one of more
    digits than [int] converts it raises [ValueError], again without a
    request.  For any other numeric one it looks the username up and then
    sends one write for the key as typed, whose record carries the caller
    and the reason given, unless the lookup raised, in which case nothing
    is written.  No request error comes out of it. *)
Theorem banid_cmd_requests `{Config} `{Runtime} :
  forall (display_name user_id : string) (reason : option string) (s : state),
    is_ascii user_id = true ->
    let run := banid_cmd display_name user_id reason s in
    (isdigit user_id = false -> run = (Ret invalid_input, s))
    /\ (isdigit user_id = true ->
        ((int_max_str_digits < String.length user_id)%nat
         /\ run = (Raise ValueError, s))
        \/ exists n,
             py_int user_id = Some n
             /\ ((log (snd run) = (log s ++ [lookup_request n])%list
                  /\ exists e, fst run = Raise e)
                 \/ exists username now,
                      log (snd run)
                      = (log s
                         ++ [lookup_request n;
                             write_request user_id
                               (JObj [("Reason", JStr (match reason with
                                                        | Some r => r
                                                        | None => default_reason
                                                        end));
                                      ("BannedBy", JStr (display_name ++ " (Discord)"));
                                      ("Username", username);
                                      ("Timestamp", JInt now)])])%list))
    /\ fst run <> Diverge
    /\ forall e, fst run = Raise e -> is_RequestException e = false.
Proof.
  intros display_name user_id reason s Hascii run. subst run.
  destruct (isdigit user_id) eqn:Hd.
  - split; [discriminate |].
    destruct (py_int user_id) as [n |] eqn:Hint.
    + destruct (banid_cmd display_name user_id reason s) as [x s'] eqn:Hrun.
      destruct (banid_cmd_shape _ _ _ _ _ _ _ Hd Hint Hrun) as (Hlog & Hret & Hexn).
      split; [| split; assumption].
      intros _. right. exists n. split; [reflexivity | exact Hlog].
    + rewrite (banid_cmd_too_long _ _ reason s Hd Hint).
      split; [| split].
      * intros _. left. split; [| reflexivity].
        now apply isdigit_py_int_none.
      * discriminate.
      * intros e [= <-]. reflexivity.
  - assert (Hrun : banid_cmd display_name user_id reason s = (Ret invalid_input, s)).
    { unfold banid_cmd. now rewrite Hd. }
    rewrite Hrun. split; [reflexivity |]. split; [discriminate |].
    split; [discriminate | intros e He; discriminate He].
Qed.

Lemma banid_cmd_requests_witness :
  @banid_cmd demo_config mock_runtime "Alice" "" None
     (@State mock_runtime accepting_mock [])
  = (Ret invalid_input, @State mock_runtime accepting_mock [])
  /\ (((int_max_str_digits < String.length "12345")%nat
       /\ @banid_cmd demo_config mock_runtime "Alice" "12345" None
            (@State mock_runtime malformed_directory_mock [])
          = (Raise ValueError, @State mock_runtime malformed_directory_mock []))
      \/ exists n,
           py_int "12345" = Some n
           /\ ((log (snd (@banid_cmd demo_config mock_runtime "Alice" "12345" None
                            (@State mock_runtime malformed_directory_mock [])))
                = [lookup_request n]
                /\ exists e, fst (@banid_cmd demo_config mock_runtime "Alice" "12345" None
                                    (@State mock_runtime malformed_directory_mock []))
                             = Raise e)
               \/ exists username now,
                    log (snd (@banid_cmd demo_config mock_runtime "Alice" "12345" None
                                (@State mock_runtime malformed_directory_mock [])))
                    = [lookup_request n;
                       @write_request demo_config "12345"
                         (JObj [("Reason", JStr default_reason);
                                ("BannedBy", JStr "Alice (Discord)");
                                ("Username", username);
                                ("Timestamp", JInt now)])])).
Proof.
  split.
  - exact (proj1 (@banid_cmd_requests demo_config mock_runtime "Alice" "" None
                    (@State mock_runtime accepting_mock []) eq_refl) eq_refl).
  - exact (proj1 (proj2 (@banid_cmd_requests demo_config mock_runtime "Alice" "12345" None
                           (@State mock_runtime malformed_directory_mock []) eq_refl))
                 eq_refl).
Defined.

Example banid_cmd_long_identifier :
  @banid_cmd demo_config mock_runtime "Alice" long_id None
     (@State mock_runtime accepting_mock [])
  = (Raise ValueError, @State mock_runtime accepting_mock []).
Proof.
  apply banid_cmd_too_long; vm_compute; reflexivity.
Qed.

(** ** The ban list: what every run asks for *)

Section ListingMore.
Context `{Config} `{Runtime}.

Lemma key_names_state : forall keys s x s',
  key_names keys s = (x, s') -> s' = s.
Proof.
  induction keys as [| key rest IH]; intros s x s'; simpl.
  - unfold ret. now intros [= _ <-].
  - unfold bind at 1. unfold py_item, ret, raise.
    destruct key as [| b | n | t | items | members]; try (now intros [= _ <-]).
    destruct (dict_lookup members "key") as [v |]; [| now intros [= _ <-]].
    unfold bind. destruct (key_names rest s) as [o s1] eqn:Hrest.
    apply IH in Hrest. subst s1.
    destruct o; now intros [= _ <-].
Qed.

Lemma py_iter_state : forall v s x s', py_iter v s = (x, s') -> s' = s.
Proof.
  intros v s x s'. unfold py_iter, ret, raise. destruct v; now intros [= _ <-].
Qed.

(** The listing loop asks for pages of keys and for nothing else. *)
Lemma list_keys_log : forall fuel c acc s x s',
  list_keys fuel c acc s = (x, s') ->
  exists cursor_params, log s' = (log s ++ map list_request cursor_params)%list.
Proof.
  induction fuel as [| fuel IH]; intros c acc s x s'.
  - simpl. unfold diverge. intros [= _ <-]. exists []. simpl. now rewrite app_nil_r.
  - cbn [list_keys].
    assert (Hone : forall s1,
               log s1 = (log s ++ [list_request (cursor_param_of c)])%list ->
               exists cursor_params,
                 log s1 = (log s ++ map list_request cursor_params)%list).
    { intros s1 Hs1. now exists [cursor_param_of c]. }
    unfold bind at 1.
    destruct (requests_call _ s) as [o s1] eqn:Hreq.
    apply requests_call_log in Hreq.
    destruct o as [response | e |]; try (intros [= _ <-]; now apply Hone).
    unfold bind at 1.
    destruct (raise_for_status response s1) as [o s2] eqn:Hstep.
    apply raise_for_status_state in Hstep. subst s2.
    destruct o as [u | e |]; try (intros [= _ <-]; now apply Hone).
    unfold bind at 1.
    destruct (response_json response s1) as [o s2] eqn:Hstep.
    apply response_json_state in Hstep. subst s2.
    destruct o as [data | e |]; try (intros [= _ <-]; now apply Hone).
    unfold bind at 1.
    destruct (py_get data "keys" (JArr []) s1) as [o s2] eqn:Hstep.
    apply py_get_state in Hstep. subst s2.
    destruct o as [listed | e |]; try (intros [= _ <-]; now apply Hone).
    unfold bind at 1.
    destruct (py_iter listed s1) as [o s2] eqn:Hstep.
    apply py_iter_state in Hstep. subst s2.
    destruct o as [keys | e |]; try (intros [= _ <-]; now apply Hone).
    unfold bind at 1.
    destruct (key_names keys s1) as [o s2] eqn:Hstep.
    apply key_names_state in Hstep. subst s2.
    destruct o as [names | e |]; try (intros [= _ <-]; now apply Hone).
    unfold bind at 1.
    destruct (py_get data "nextPageCursor" JNull s1) as [o s2] eqn:Hstep.
    apply py_get_state in Hstep. subst s2.
    destruct o as [next_cursor | e |]; try (intros [= _ <-]; now apply Hone).
    destruct (truthy next_cursor); cbn [negb].
    + intros Hrec. apply IH in Hrec as [cursor_params Hlog].
      exists (cursor_param_of c :: cursor_params).
      rewrite Hlog, Hreq. simpl. now rewrite <- app_assoc.
    + unfold ret. intros [= _ <-]. now apply Hone.
Qed.

(** A run asks for pages of keys, then for entries, and for nothing else. *)
Lemma get_datastore_ban_list_log : forall fuel s x s',
  get_datastore_ban_list fuel s = (x, s') ->
  exists cursor_params keys,
    log s' = (log s ++ map list_request cursor_params ++ map entry_request keys)%list
    /\ (forall e, x = Ret (Failure e) -> is_RequestException e = true)
    /\ (forall e, x = Raise e -> is_RequestException e = false).
Proof.
  intros fuel s x s'.
  destruct (list_keys fuel (JStr "") [] s) as [o s1] eqn:Hkeys.
  destruct (list_keys_log _ _ _ _ _ _ Hkeys) as [cursor_params Hlog].
  destruct o as [ban_keys | e |].
  - rewrite (get_datastore_ban_list_listed _ _ _ _ Hkeys).
    destruct ban_keys as [| k ban_keys].
    + intros [= <- <-]. exists cursor_params, []. simpl. rewrite app_nil_r.
      split; [exact Hlog |]. split; intros e He; discriminate He.
    + destruct (fetch_entries (k :: ban_keys) [] s1) as [o s2] eqn:Hloop.
      assert (Hforbidden : forall e, o = Ret (Returned e) -> is_RequestException e = true).
      { clear Hkeys Hlog. revert Hloop. generalize (@nil string) as acc.
        generalize s1 as s0. generalize (k :: ban_keys) as keys.
        induction keys as [| k' keys IH]; intros s0 acc; simpl.
        - unfold ret. intros [= <- _] e He. discriminate He.
        - unfold bind.
          destruct (fetch_step k' acc s0) as [[[l | e0] | e0 |] s3] eqn:Hstep.
          + apply IH.
          + unfold ret. intros [= <- _] e [= <-].
            revert Hstep. unfold fetch_step, try_except, bind, fetch_handler, ret, raise.
            destruct (fetch_entry k' acc s0) as [[l | e1 |] s4]; try discriminate.
            destruct (is_RequestException e1) eqn:He1.
            * destruct (is_forbidden e1); [now intros [= <- _] | discriminate].
            * destruct (is_JSONDecodeError e1); discriminate.
          + intros [= <- _] e He. discriminate He.
          + intros [= <- _] e He. discriminate He. }
      assert (Hsilent : forall e, o = Raise e -> is_RequestException e = false).
      { clear Hkeys Hlog Hforbidden. revert Hloop. generalize (@nil string) as acc.
        generalize s1 as s0. generalize (k :: ban_keys) as keys.
        induction keys as [| k' keys IH]; intros s0 acc; simpl.
        - unfold ret. intros [= <- _] e He. discriminate He.
        - unfold bind.
          destruct (fetch_step k' acc s0) as [[[l | e0] | e0 |] s3] eqn:Hstep.
          + apply IH.
          + unfold ret. intros [= <- _] e He. discriminate He.
          + intros [= <- _] e [= <-].
            revert Hstep. unfold fetch_step, try_except, bind, fetch_handler, ret, raise.
            destruct (fetch_entry k' acc s0) as [[l | e1 |] s4]; try discriminate.
            destruct (is_RequestException e1) eqn:He1.
            * destruct (is_forbidden e1); discriminate.
            * destruct (is_JSONDecodeError e1); [discriminate | now intros [= <- _]].
          + intros [= <- _] e He. discriminate He. }
      apply fetch_entries_log in Hloop as (n & _ & Hlog' & _).
      intros Hrun. exists cursor_params, (firstn n (k :: ban_keys)).
      split; [| split].
      * rewrite app_assoc, <- Hlog, <- Hlog'.
        destruct o as [[l | e] | e |]; now injection Hrun as _ <-.
      * intros e ->. destruct o as [[l | e0] | e0 |]; try discriminate Hrun.
        injection Hrun as <- _. now apply Hforbidden.
      * intros e ->. destruct o as [[l | e0] | e0 |]; try discriminate Hrun.
        injection Hrun as <- _. now apply Hsilent.
  - unfold get_datastore_ban_list, try_except, bind. rewrite Hkeys.
    destruct (is_RequestException e) eqn:He; unfold ret, raise; intros [= <- <-];
      exists cursor_params, []; simpl; rewrite app_nil_r; (split; [exact Hlog |]).
    + split; [now intros e' [= <-] | intros e' He'; discriminate He'].
    + split; [intros e' He'; discriminate He' | now intros e' [= <-]].
  - unfold get_datastore_ban_list, try_except, bind. rewrite Hkeys.
    intros [= <- <-]. exists cursor_params, []. simpl. rewrite app_nil_r.
    split; [exact Hlog |]. split; intros e He; discriminate He.
Qed.
End ListingMore.

(** X16: every run of [get_datastore_ban_list] only reads: the requests it
    makes are GET requests for pages of keys followed by GET requests for
    entries, all pages before the first entry.  A failure it returns is a
    [RequestException]; an error it raises is none. *)
Theorem list_bans_only_reads `{Config} `{Runtime} :
  forall (fuel : nat) (s : state),
    let run := get_datastore_ban_list fuel s in
    exists cursor_params keys,
      log (snd run)
      = (log s ++ map list_request cursor_params ++ map entry_request keys)%list
      /\ Forall (fun q => method q = GET) (map list_request cursor_params
                                            ++ map entry_request keys)
      /\ (forall e, fst run = Ret (Failure e) -> is_RequestException e = true)
      /\ (forall e, fst run = Raise e -> is_RequestException e = false).
Proof.
  intros fuel s run. subst run.
  destruct (get_datastore_ban_list fuel s) as [x s'] eqn:Hrun.
  destruct (get_datastore_ban_list_log _ _ _ _ Hrun)
    as (cursor_params & keys & Hlog & Hfailure & Hraise).
  exists cursor_params, keys. split; [exact Hlog |]. split; [| split; assumption].
  apply Forall_app. split; apply Forall_forall; intros q Hq;
    apply in_map_iff in Hq as (a & <- & _); reflexivity.
Qed.

(** X17: when the listing fails with a [RequestException] (the transport
    raises, or a page is answered with a 4xx or 5xx status, 403 or not),
    the run returns that failure and fetches no entry.  Here for the
    first page. *)
Theorem list_bans_listing_failure `{Config} `{Runtime} :
  forall (fuel : nat) (s : state) (w : world) (res : http_result),
    http (env s) (list_request "") = (w, res) ->
    match res with
    | Fails _ => True
    | Answer r => (400 <=? status_code r) && (status_code r <? 600) = true
    end ->
    get_datastore_ban_list (S fuel) s
    = (Ret (Failure (match res with
                     | Fails r => RequestException r
                     | Answer r => HTTPError r
                     end)),
       {| env := w; log := log s ++ [list_request ""] |}).
Proof.
  intros fuel s w res Hhttp Hres.
  unfold get_datastore_ban_list, try_except. unfold bind at 1. unfold bind at 1.
  cbn [list_keys]. unfold bind at 1.
  change (cursor_param_of (JStr "")) with "".
  destruct res as [r | r].
  - rewrite (requests_call_answer _ _ _ _ Hhttp).
    unfold bind at 1. unfold raise_for_status. rewrite Hres. reflexivity.
  - rewrite (requests_call_fails _ _ _ _ Hhttp). reflexivity.
Qed.

Lemma list_bans_listing_failure_witness :
  @get_datastore_ban_list demo_config mock_runtime 1
     (@State mock_runtime (refused_listing_mock "INSUFFICIENT_SCOPE") [])
  = (Ret (Failure (HTTPError (Response 403 "INSUFFICIENT_SCOPE"
                                (Some (JObj [("message", JStr "INSUFFICIENT_SCOPE")]))))),
     @State mock_runtime (refused_listing_mock "INSUFFICIENT_SCOPE")
            [@list_request demo_config ""]).
Proof.
  exact (@list_bans_listing_failure demo_config mock_runtime 0
           (@State mock_runtime (refused_listing_mock "INSUFFICIENT_SCOPE") [])
           (refused_listing_mock "INSUFFICIENT_SCOPE")
           (Answer (Response 403 "INSUFFICIENT_SCOPE"
                      (Some (JObj [("message", JStr "INSUFFICIENT_SCOPE")]))))
           eq_refl eq_refl).
Defined.

Lemma list_bans_one_entry_per_key_lemma `{Config} `{Runtime} :
  forall (fuel : nat) (s s1 s' : state) (keys : list json) (out : list string),
    list_keys fuel (JStr "") [] s = (Ret keys, s1) ->
    get_datastore_ban_list fuel s = (Ret (Success out), s') ->
    List.length out = List.length keys
    /\ log s' = (log s1 ++ map entry_request keys)%list.
Proof.
  intros fuel s s1 s' keys out Hkeys Hrun.
  apply get_datastore_ban_list_success in Hrun
    as (keys' & s1' & Hkeys' & [(Hnil & Hout & Hs') | (_ & l & Hloop & ->)]);
    rewrite Hkeys in Hkeys'; injection Hkeys' as Hk Hs; subst keys' s1'.
  - subst. simpl. now rewrite app_nil_r.
  - apply fetch_entries_log in Hloop as (n & _ & Hlog & Hfall).
    destruct (Hfall l eq_refl) as (Hn & tail & Hl & Hlen).
    split.
    + rewrite <- (Permutation_length (StringSort.Permuted_sort l)).
      rewrite Hl. simpl. exact Hlen.
    + rewrite Hn, firstn_all in Hlog. exact Hlog.
Qed.

(** X18: a run that returns a list returns one string for each listed key,
    no more and no fewer, having fetched each key once in the order
    listed. *)
Theorem list_bans_one_entry_per_key `{Config} `{Runtime} :
  forall (fuel : nat) (s s1 s' : state) (keys : list json) (out : list string),
    list_keys fuel (JStr "") [] s = (Ret keys, s1) ->
    get_datastore_ban_list fuel s = (Ret (Success out), s') ->
    List.length out = List.length keys
    /\ log s' = (log s1 ++ map entry_request keys)%list.
Proof. exact list_bans_one_entry_per_key_lemma. Qed.

Lemma list_bans_one_entry_per_key_witness :
  let run := @get_datastore_ban_list demo_config mock_runtime 3
               (@State mock_runtime missing_mock []) in
  (exists out, fst run = Ret (Success out) /\ List.length out = 2%nat)
  /\ log (snd run)
     = [@list_request demo_config "";
        @entry_request demo_config mock_runtime (JStr "1");
        @entry_request demo_config mock_runtime (JStr "2")].
Proof.
  intros run.
  destruct (@list_bans_one_entry_per_key demo_config mock_runtime 3
              (@State mock_runtime missing_mock [])
              (@State mock_runtime missing_mock [@list_request demo_config ""])
              (snd run) [JStr "1"; JStr "2"] _ eq_refl eq_refl) as [Hlen Hlog].
  split; [| exact Hlog].
  eexists. split; [reflexivity | exact Hlen].
Defined.

(** X19: a per-key fetch that fails in another way than by a 403 does not
    end the run: when the transport raises (with no response, or one whose
    status is not 403), or the answer has a 4xx or 5xx status other than
    403 and 404, the loop adds the "Could not fetch" marker for the key
    and goes on; when the answer is no error but its body is no JSON, it
    adds the "Could not fetch" marker under requests 2.27 or later, the
    "Corrupted data" marker before. *)
Theorem list_bans_skips_failed_fetch `{Config} `{Runtime} :
  forall (k : json) (rest : list json) (acc : list string) (s : state) (w : world)
         (res : http_result) (marker : string),
    http (env s) (entry_request k) = (w, res) ->
    match res with
    | Fails r =>
        (forall r', r = Some r' -> status_code r' <> 403)
        /\ marker = fetch_failed_marker k
    | Answer r =>
        status_code r <> 404 /\ status_code r <> 403
        /\ (((400 <=? status_code r) && (status_code r <? 600) = true
             /\ marker = fetch_failed_marker k)
            \/ ((400 <=? status_code r) && (status_code r <? 600) = false
                /\ body_json r = None
                /\ marker = if modern_requests then fetch_failed_marker k
                            else corrupted_marker k))
    end ->
    fetch_entries (k :: rest) acc s
    = fetch_entries rest (acc ++ [marker])
                    {| env := w; log := log s ++ [entry_request k] |}.
Proof.
  intros k rest acc s w res marker Hhttp Hres.
  assert (Hstep : fetch_step k acc s
                  = (Ret (inl (acc ++ [marker])%list), after s w (entry_request k))).
  { unfold fetch_step, try_except, fetch_entry. unfold bind at 1. unfold bind at 1.
    destruct res as [r | r].
    - destruct Hres as (H404 & H403 & Hcase).
      rewrite (requests_call_answer _ _ _ _ Hhttp).
      apply Z.eqb_neq in H404. rewrite H404.
      unfold bind at 1. unfold raise_for_status.
      destruct Hcase as [(Hstatus & ->) | (Hstatus & Hbody & ->)]; rewrite Hstatus.
      + unfold raise, fetch_handler, is_forbidden. cbn.
        apply Z.eqb_neq in H403. now rewrite H403.
      + unfold ret at 1. unfold bind at 1. unfold response_json. rewrite Hbody.
        unfold raise, fetch_handler, json_error.
        destruct modern_requests; reflexivity.
    - destruct Hres as (Hresp & ->).
      rewrite (requests_call_fails _ _ _ _ Hhttp).
      unfold fetch_handler, is_forbidden. cbn.
      destruct r as [r' |]; [| reflexivity].
      specialize (Hresp r' eq_refl). apply Z.eqb_neq in Hresp. now rewrite Hresp. }
  simpl. unfold bind. now rewrite Hstep.
Qed.

Lemma list_bans_skips_failed_fetch_witness :
  fst (@get_datastore_ban_list demo_config mock_runtime 3
         (@State mock_runtime failing_fetch_mock []))
  = Ret (Success ["[???] **ID: 2** (By: Unknown) - *No reason*";
                  "[ERROR] Could not fetch data for key: `1`"]).
Proof.
  pose proof (@list_bans_skips_failed_fetch demo_config mock_runtime
                (JStr "1") [JStr "2"] []
                (@State mock_runtime failing_fetch_mock [@list_request demo_config ""])
                failing_fetch_mock (Answer (Response 500 "Internal error" None))
                "[ERROR] Could not fetch data for key: `1`" eq_refl) as Hgo.
  cbv beta iota in Hgo.
  assert (Hloop : @fetch_entries demo_config mock_runtime [JStr "1"; JStr "2"] []
                    (@State mock_runtime failing_fetch_mock [@list_request demo_config ""])
                  = @fetch_entries demo_config mock_runtime [JStr "2"]
                      ["[ERROR] Could not fetch data for key: `1`"]
                      (@State mock_runtime failing_fetch_mock
                              [@list_request demo_config "";
                               @entry_request demo_config mock_runtime (JStr "1")])).
  { apply Hgo. split; [discriminate |]. split; [discriminate |].
    left. split; reflexivity. }
  rewrite (@get_datastore_ban_list_listed demo_config mock_runtime 3
             (@State mock_runtime failing_fetch_mock [])
             [JStr "1"; JStr "2"]
             (@State mock_runtime failing_fetch_mock [@list_request demo_config ""])
             eq_refl).
  rewrite Hloop. reflexivity.
Defined.

(** X20: a record that is a JSON object without the fields the bot looks
    for is still listed, with the defaults: no usable Timestamp (none, or
    one that is 0, null, false, empty, or no number) shows as "???", no
    Username as "ID: <key>", no BannedBy as "Unknown", no Reason as
    "No reason". *)
Theorem list_bans_record_defaults `{Config} `{Runtime} :
  forall (k : json) (rest : list json) (acc : list string) (s : state) (w : world)
         (r : response) (members : list (string * json)),
    http (env s) (entry_request k) = (w, Answer r) ->
    status_code r <> 404 ->
    (400 <=? status_code r) && (status_code r <? 600) = false ->
    body_json r = Some (JObj members) ->
    match dict_lookup members "Timestamp" with
    | None => True
    | Some t => truthy t = false \/ (forall n, t <> JInt n) /\ t <> JBool true
    end ->
    fetch_entries (k :: rest) acc s
    = fetch_entries rest
        (acc ++ ["[???] **"
                 ++ py_str (match dict_lookup members "Username" with
                            | Some v => v
                            | None => JStr ("ID: " ++ py_str k)
                            end)
                 ++ "** (By: "
                 ++ py_str (match dict_lookup members "BannedBy" with
                            | Some v => v
                            | None => JStr "Unknown"
                            end)
                 ++ ") - *"
                 ++ py_str (match dict_lookup members "Reason" with
                            | Some v => v
                            | None => JStr "No reason"
                            end)
                 ++ "*"])
        {| env := w; log := log s ++ [entry_request k] |}.
Proof.
  intros k rest acc s w r members Hhttp H404 Hstatus Hbody Htime.
  assert (Hdate : date_str_of (match dict_lookup members "Timestamp" with
                               | Some v => v
                               | None => JNull
                               end) = "???").
  { destruct (dict_lookup members "Timestamp") as [t |]; [| reflexivity].
    unfold date_str_of. destruct Htime as [-> | (Hint & Hbool)]; [reflexivity |].
    destruct (truthy t); [| reflexivity].
    destruct t as [| [] | n | | |]; try reflexivity.
    - now contradiction Hbool.
    - now contradiction (Hint n). }
  simpl. unfold bind at 1.
  unfold fetch_step, try_except, fetch_entry. unfold bind at 1. unfold bind at 1.
  rewrite (requests_call_answer _ _ _ _ Hhttp).
  apply Z.eqb_neq in H404. rewrite H404.
  unfold bind at 1. unfold raise_for_status. rewrite Hstatus. unfold ret at 1.
  unfold bind at 1. unfold response_json. rewrite Hbody. unfold ret at 1.
  unfold py_get, bind, ret. rewrite Hdate. reflexivity.
Qed.

Lemma list_bans_record_defaults_witness :
  @fetch_entries demo_config mock_runtime [JStr "2"] []
     (@State mock_runtime failing_fetch_mock [])
  = (Ret (Fallthrough ["[???] **ID: 2** (By: Unknown) - *No reason*"]),
     @State mock_runtime failing_fetch_mock
            [@entry_request demo_config mock_runtime (JStr "2")]).
Proof.
  refine (@list_bans_record_defaults demo_config mock_runtime (JStr "2") [] []
            (@State mock_runtime failing_fetch_mock []) failing_fetch_mock
            (Response 200 "" (Some (JObj []))) [] eq_refl _ eq_refl eq_refl I).
  discriminate.
Defined.

(** ** The reply of the ban list: cutting the entries into fields *)

Lemma append_assoc : forall a b c : string, ((a ++ b) ++ c)%string = (a ++ b ++ c)%string.
Proof. induction a as [| x a IH]; intros b c; simpl; [reflexivity | now rewrite IH]. Qed.

Lemma append_nil_r : forall a : string, (a ++ "")%string = a.
Proof. induction a as [| x a IH]; simpl; [reflexivity | now rewrite IH]. Qed.

Lemma py_len_append : forall a b : string,
  py_len (a ++ b) = (py_len a + py_len b)%nat.
Proof.
  induction a as [| x a IH]; intros b; simpl; [reflexivity |].
  rewrite IH. apply Nat.add_assoc.
Qed.

Lemma py_len_newline : py_len newline = 1%nat.
Proof. reflexivity. Qed.

(** On ASCII text the characters are the bytes. *)
Lemma py_len_ascii : forall s, is_ascii s = true -> py_len s = String.length s.
Proof.
  unfold is_ascii.
  induction s as [| c s IH]; simpl; [reflexivity |].
  intros Hs. apply andb_true_iff in Hs as [Hc Hs].
  rewrite (IH Hs). unfold is_continuation_byte.
  apply Nat.ltb_lt in Hc.
  destruct (Nat.leb_spec 128 (nat_of_ascii c)) as [Hge | Hlt]; [lia | reflexivity].
Qed.

Lemma joined_app : forall l1 l2, joined (l1 ++ l2) = (joined l1 ++ joined l2)%string.
Proof.
  induction l1 as [| x l1 IH]; intros l2; simpl; [reflexivity |].
  now rewrite IH, append_assoc.
Qed.

(** The loop loses nothing: the values of the fields, then the value
    being filled, are what they were followed by the entries passed. *)
Lemma fill_fields_joined : forall data added current part,
  let '(added', current', _) := fill_fields data added current part in
  (joined (map snd added') ++ current')%string
  = (joined (map snd added) ++ current
     ++ joined (map (fun entry => entry ++ newline) data))%string.
Proof.
  induction data as [| entry rest IH]; intros added current part; simpl.
  - now rewrite append_nil_r.
  - destruct (1024 <? _)%nat.
    + specialize (IH (added ++ [(field_name part, current)])%list
                     (entry ++ newline)%string (part + 1)).
      destruct (fill_fields rest _ _ _) as [[added' current'] part'].
      rewrite IH, map_app, joined_app. simpl.
      now rewrite append_nil_r, !append_assoc.
    + specialize (IH added (current ++ entry ++ newline)%string part).
      destruct (fill_fields rest _ _ _) as [[added' current'] part'].
      rewrite IH. now rewrite !append_assoc.
Qed.

(** The fields are numbered from the part the loop starts at. *)
Lemma fill_fields_names : forall data added current part first,
  map fst added = map (fun i => field_name (first + Z.of_nat i)) (seq 0 (List.length added)) ->
  part = first + Z.of_nat (List.length added) ->
  let '(added', _, part') := fill_fields data added current part in
  map fst added'
  = map (fun i => field_name (first + Z.of_nat i)) (seq 0 (List.length added'))
  /\ part' = first + Z.of_nat (List.length added').
Proof.
  induction data as [| entry rest IH]; intros added current part first Hnames Hpart; simpl.
  - now split.
  - destruct (1024 <? _)%nat.
    + apply IH.
      * rewrite map_app, length_app, seq_app, map_app. simpl.
        now rewrite Hnames, Hpart.
      * rewrite length_app. simpl. lia.
    + now apply IH.
Qed.

(** With entries of at most 1022 characters no field overflows and none
    is empty. *)
Lemma fill_fields_bound : forall data added current part,
  Forall (fun entry => (py_len entry <= 1022)%nat) data ->
  Forall (fun f => (1 <= py_len (snd f) <= 1023)%nat) added ->
  (py_len current <= 1023)%nat ->
  (current = "" \/ (1 <= py_len current)%nat) ->
  let '(added', current', _) := fill_fields data added current part in
  Forall (fun f => (1 <= py_len (snd f) <= 1023)%nat) added'
  /\ (py_len current' <= 1023)%nat
  /\ (current' = "" \/ (1 <= py_len current')%nat).
Proof.
  induction data as [| entry rest IH];
    intros added current part Hdata Hadded Hcurrent Hfilled; cbn [fill_fields].
  - repeat split; assumption.
  - inversion Hdata as [| ? ? Hentry Hrest]; subst.
    destruct (Nat.ltb_spec 1024 (py_len current + py_len entry + 2)).
    + apply IH; [assumption | | |].
      * apply Forall_app. split; [assumption |].
        constructor; [cbn [snd]; lia | constructor].
      * rewrite py_len_append, py_len_newline. lia.
      * right. rewrite py_len_append, py_len_newline. lia.
    + apply IH; [assumption | assumption | |].
      * rewrite !py_len_append, py_len_newline. lia.
      * right. rewrite !py_len_append, py_len_newline. lia.
Qed.

Lemma cut_fields_joined : forall data,
  joined (map snd (cut_fields data)) = joined (map (fun entry => entry ++ newline) data).
Proof.
  intros data. unfold cut_fields.
  pose proof (fill_fields_joined data [] "" 1) as Hjoin.
  destruct (fill_fields data [] "" 1) as [[added current] part].
  simpl in Hjoin. rewrite <- Hjoin.
  destruct (String.eqb_spec current "") as [-> | _]; simpl.
  - now rewrite append_nil_r.
  - rewrite map_app, joined_app. simpl. now rewrite append_nil_r.
Qed.

Lemma cut_fields_names : forall data,
  map fst (cut_fields data)
  = map (fun i => field_name (1 + Z.of_nat i)) (seq 0 (List.length (cut_fields data))).
Proof.
  intros data. unfold cut_fields.
  pose proof (fill_fields_names data [] "" 1 1 eq_refl eq_refl) as Hnames.
  destruct (fill_fields data [] "" 1) as [[added current] part].
  destruct Hnames as [Hnames Hpart].
  destruct (negb (current =? "")%string); [| exact Hnames].
  rewrite map_app, length_app, seq_app, map_app. simpl.
  now rewrite Hnames, Hpart.
Qed.

(** X21: unless there are more than 25 of them, the fields of the ban
    list hold every entry, each followed by a newline, in order, nothing
    lost and nothing twice, under the names "Ban List (Part 1)", "(Part
    2)", ...; with more than 25 the embed shows the one field "Error"
    instead.  There are never more than 25 fields. *)
Theorem ban_list_fields_complete :
  forall data : list string,
    (List.length (ban_list_fields data) <= 25)%nat
    /\ ((List.length (cut_fields data) <= 25)%nat ->
        joined (map snd (ban_list_fields data))
        = joined (map (fun entry => entry ++ newline) data)
        /\ map fst (ban_list_fields data)
           = map (fun i => "Ban List (Part " ++ str_int (1 + Z.of_nat i) ++ ")")
                 (seq 0 (List.length (ban_list_fields data))))
    /\ ((25 < List.length (cut_fields data))%nat ->
        ban_list_fields data
        = [("Error", "Ban list is too large to display in a single embed.")]).
Proof.
  intros data. unfold ban_list_fields.
  destruct (Nat.ltb_spec 25 (List.length (cut_fields data))) as [Hmany | Hfew].
  - split; [simpl; lia |]. split; [lia | reflexivity].
  - split; [exact Hfew |]. split; [| lia].
    intros _. split; [apply cut_fields_joined | apply cut_fields_names].
Qed.

Lemma ban_list_fields_complete_witness :
  joined (map snd (ban_list_fields ["a"; "b"])) = joined (map (fun entry => entry ++ newline) ["a"; "b"])
  /\ map fst (ban_list_fields ["a"; "b"]) = ["Ban List (Part 1)"].
Proof.
  apply (proj1 (proj2 (ban_list_fields_complete ["a"; "b"]))).
  apply Nat.leb_le. vm_compute. reflexivity.
Defined.

(** X22: when no entry is longer than 1022 characters ([len], which
    counts characters and not the bytes of their encoding), every field of
    the ban list has a value of at least 1 and at most 1023 characters. *)
Theorem ban_list_fields_bounded :
  forall data : list string,
    Forall (fun entry => (py_len entry <= 1022)%nat) data ->
    Forall (fun f => (1 <= py_len (snd f) <= 1023)%nat) (ban_list_fields data).
Proof.
  intros data Hdata. unfold ban_list_fields.
  destruct (25 <? List.length (cut_fields data))%nat.
  - constructor; [| constructor].
    split; apply Nat.leb_le; vm_compute; reflexivity.
  - unfold cut_fields.
    pose proof (fill_fields_bound data [] "" 1 Hdata (Forall_nil _)) as Hbound.
    destruct (fill_fields data [] "" 1) as [[added current] part].
    destruct Hbound as (Hadded & Hcurrent & Hfilled);
      [cbn [py_len]; lia | now left |].
    destruct (String.eqb_spec current "") as [-> | Hne]; cbn [negb]; [assumption |].
    apply Forall_app. split; [assumption |].
    constructor; [| constructor]. cbn [snd].
    destruct Hfilled as [Hempty | Hfilled]; [congruence | lia].
Qed.

Lemma ban_list_fields_bounded_witness :
  Forall (fun f => (1 <= py_len (snd f) <= 1023)%nat) (ban_list_fields ["a"; "b"]).
Proof.
  apply ban_list_fields_bounded.
  repeat constructor; apply Nat.leb_le; vm_compute; reflexivity.
Defined.

(** Two characters of three bytes each count as two, not as six: the
    entry is cut where [len] says, also beyond ASCII. *)
Example py_len_counts_characters :
  py_len (String (ascii_of_nat 226) (String (ascii_of_nat 130) (String (ascii_of_nat 172)
          (String (ascii_of_nat 226) (String (ascii_of_nat 130) (String (ascii_of_nat 172)
           ""))))))
  = 2%nat.
Proof. reflexivity. Qed.

(** A field once added stays where it is. *)
Lemma fill_fields_keeps : forall data added current part,
  exists more, fst (fst (fill_fields data added current part)) = (added ++ more)%list.
Proof.
  induction data as [| e data IH]; intros added current part; cbn [fill_fields].
  - exists []. cbn [fst]. now rewrite app_nil_r.
  - destruct (1024 <? _)%nat.
    + destruct (IH (added ++ [(field_name part, current)])%list
                   (e ++ newline)%string (part + 1)) as [more Hmore].
      exists ((field_name part, current) :: more).
      rewrite Hmore, <- app_assoc. reflexivity.
    + apply IH.
Qed.

(** X23: the bound on the entries is needed: when the first entry is
    longer than 1022 characters, the first field is cut before it and has
    an empty value. *)
Theorem cut_fields_long_first_entry :
  forall (entry : string) (rest : list string),
    (1022 < py_len entry)%nat ->
    exists more, cut_fields (entry :: rest) = ("Ban List (Part 1)", "") :: more.
Proof.
  intros entry rest Hlong.
  assert (Hcond : (1024 <? py_len "" + py_len entry + 2)%nat = true).
  { apply Nat.ltb_lt. cbn [py_len]. lia. }
  unfold cut_fields. cbn [fill_fields]. rewrite Hcond.
  change ([] ++ [(field_name 1, "")])%list with [(field_name 1, "")].
  destruct (fill_fields_keeps rest [(field_name 1, "")] (entry ++ newline)%string (1 + 1))
    as [more Hmore].
  destruct (fill_fields rest _ _ _) as [[added current] part].
  simpl in Hmore. subst added.
  destruct (negb (current =? "")%string); eexists; reflexivity.
Qed.

Lemma cut_fields_long_first_entry_witness :
  exists more, cut_fields [long_entry] = ("Ban List (Part 1)", "") :: more.
Proof.
  apply cut_fields_long_first_entry.
  apply Nat.ltb_lt. vm_compute. reflexivity.
Defined.

(** ** The reply of the ban list: the embed *)

Lemma starts_with_spec : forall needle s,
  starts_with needle s = true <-> exists b, s = (needle ++ b)%string.
Proof.
  induction needle as [| x needle IH]; intros s; simpl.
  - split; [intros _; now exists s | reflexivity].
  - destruct s as [| y s]; simpl.
    + split; [discriminate | intros [b Hb]; discriminate Hb].
    + rewrite andb_true_iff, IH, Ascii.eqb_eq. split.
      * intros [-> [b ->]]. now exists b.
      * intros [b [= -> ->]]. split; [reflexivity | now exists b].
Qed.

(** [is_infix] is the substring test. *)
Lemma is_infix_spec : forall needle s,
  is_infix needle s = true <-> exists a b, s = (a ++ needle ++ b)%string.
Proof.
  intros needle s. induction s as [| y s IH].
  - simpl. rewrite orb_false_r, starts_with_spec. split.
    + intros [b Hb]. now exists "", b.
    + intros [a [b Hab]]. destruct a; [now exists b | discriminate Hab].
  - cbn [is_infix]. rewrite orb_true_iff, starts_with_spec, IH. split.
    + intros [[b Hb] | [a [b Hab]]].
      * now exists "", b.
      * exists (String y a), b. simpl. now rewrite Hab.
    + intros [[| x a] [b Hab]].
      * left. now exists b.
      * right. injection Hab as _ ->. now exists a, b.
Qed.

Section BanListReply.
Context `{Config} `{Runtime}.

Lemma ban_list_failure_embed_forbidden : forall e r requested_perm s,
  is_RequestException e = true ->
  exn_response e = Some r ->
  status_code r = 403 ->
  (body_json r = None /\ requested_perm = "Read / List Keys")
  \/ (exists members,
        body_json r = Some (JObj members)
        /\ ((dict_lookup members "message" = None /\ requested_perm = "Read / List Keys")
            \/ exists m, dict_lookup members "message" = Some (JStr m)
                         /\ requested_perm = permission_for m)) ->
  ban_list_failure_embed e s = (create_api_error_embed e requested_perm, s).
Proof.
  intros e r requested_perm s Hreq Hresp Hstatus Hcase.
  unfold ban_list_failure_embed. rewrite Hreq, Hresp, Hstatus. cbn [Z.eqb Pos.eqb].
  unfold try_except. unfold bind at 1. unfold response_json.
  destruct Hcase as [(Hbody & ->) | (members & Hbody & Hmessage)]; rewrite Hbody.
  - unfold raise, json_error, lift. destruct modern_requests; reflexivity.
  - unfold ret at 1. unfold bind at 1. unfold py_get at 1. unfold ret at 1.
    destruct Hmessage as [(Hnone & ->) | (m & Hsome & ->)].
    + rewrite Hnone. unfold bind at 1. unfold py_contains at 1. unfold ret at 1.
      cbn [is_infix starts_with orb]. unfold lift.
      destruct (create_api_error_embed_forbidden e r "Read / List Keys" Hresp Hstatus)
        as [raw ->];
        [intros v Hv; rewrite Hbody in Hv; injection Hv as <-; now exists members
        | reflexivity].
    + rewrite Hsome. unfold bind at 1. unfold py_contains at 1. unfold ret at 1.
      unfold permission_for.
      destruct (is_infix "INSUFFICIENT_SCOPE" m).
      * unfold bind at 1. unfold py_get at 1. rewrite Hsome. unfold ret at 1.
        unfold bind at 1. unfold py_contains at 1. unfold ret at 1.
        destruct (is_infix "ListEntries" m); unfold lift;
          match goal with
          | |- context [create_api_error_embed e ?p] =>
              destruct (create_api_error_embed_forbidden e r p Hresp Hstatus) as [raw ->];
              [intros v Hv; rewrite Hbody in Hv; injection Hv as <-; now exists members
              | reflexivity]
          end.
      * unfold lift.
        destruct (create_api_error_embed_forbidden e r "Read / List Keys" Hresp Hstatus)
          as [raw ->];
          [intros v Hv; rewrite Hbody in Hv; injection Hv as <-; now exists members
          | reflexivity].
Qed.
End BanListReply.

(** X24: when the listing has failed with a 403, [banlist_cmd] replies
    with the "API Key Error" embed for a permission chosen from the message
    of the refusal: "List Keys" when the message contains both
    INSUFFICIENT_SCOPE and ListEntries, "Read" when it contains
    INSUFFICIENT_SCOPE only, "Read / List Keys" otherwise, also when the
    refusal has no message or its body is no JSON. *)
Theorem banlist_forbidden_names_permission `{Config} `{Runtime} :
  forall (fuel : nat) (s s' : state) (e : exception) (r : response)
         (requested_perm : string),
    get_datastore_ban_list fuel s = (Ret (Failure e), s') ->
    exn_response e = Some r ->
    status_code r = 403 ->
    ((body_json r = None /\ requested_perm = "Read / List Keys")
     \/ (exists members,
           body_json r = Some (JObj members)
           /\ ((dict_lookup members "message" = None
                /\ requested_perm = "Read / List Keys")
               \/ exists m,
                    dict_lookup members "message" = Some (JStr m)
                    /\ requested_perm
                       = if is_infix "INSUFFICIENT_SCOPE" m
                         then if is_infix "ListEntries" m then "List Keys" else "Read"
                         else "Read / List Keys"))) ->
    exists reply,
      banlist_cmd fuel s = (Ret (reply, None), s')
      /\ title reply = "API Key Error (403 Forbidden)"
      /\ description reply
         = "The bot's API Key does not have the **`" ++ requested_perm
           ++ "`** permission for the DataStore API."
      /\ color reply = EMBED_COLOR_ERROR.
Proof.
  intros fuel s s' e r requested_perm Hrun Hresp Hstatus Hcase.
  destruct (get_datastore_ban_list_log _ _ _ _ Hrun) as (_ & _ & _ & Hfailure & _).
  specialize (Hfailure e eq_refl).
  destruct (create_api_error_embed_forbidden e r requested_perm Hresp Hstatus)
    as [raw Hembed].
  { intros v Hv. destruct Hcase as [(Hbody & _) | (members & Hbody & _)];
      rewrite Hbody in Hv; [discriminate Hv | injection Hv as <-; now exists members]. }
  eexists. split.
  - unfold banlist_cmd. unfold bind at 1. rewrite Hrun. unfold bind at 1.
    rewrite (ban_list_failure_embed_forbidden e r requested_perm s' Hfailure Hresp
               Hstatus Hcase).
    rewrite Hembed. reflexivity.
  - repeat split.
Qed.

Lemma banlist_forbidden_names_permission_witness :
  exists reply,
    fst (@banlist_cmd demo_config mock_runtime 1
           (@State mock_runtime
                   (refused_listing_mock "INSUFFICIENT_SCOPE: ListEntries") []))
    = Ret (reply, None)
    /\ description reply
       = "The bot's API Key does not have the **`List Keys`** permission for the DataStore API.".
Proof.
  destruct (@banlist_forbidden_names_permission demo_config mock_runtime 1
              (@State mock_runtime
                      (refused_listing_mock "INSUFFICIENT_SCOPE: ListEntries") [])
              _ _
              (Response 403 "INSUFFICIENT_SCOPE: ListEntries"
                 (Some (JObj [("message", JStr "INSUFFICIENT_SCOPE: ListEntries")])))
              "List Keys" eq_refl eq_refl eq_refl)
    as (reply & Hrun & _ & Hdescription & _).
  - right. eexists. split; [reflexivity |]. right. eexists. split; reflexivity.
  - exists reply. split; [exact (f_equal fst Hrun) | exact Hdescription].
Defined.

(** X25: when the listing succeeds, [banlist_cmd] replies with the
    "Taurus Global Ban List" embed stamped with the clock: for no key it
    says that the list is empty and has no field; otherwise it says
    "Found N total entries." with N the number of keys listed (records
    that could not be read count too) and carries the fields cut from the
    strings returned. *)
Theorem banlist_reports_every_key `{Config} `{Runtime} :
  forall (fuel : nat) (s s1 s' : state) (keys : list json) (out : list string),
    list_keys fuel (JStr "") [] s = (Ret keys, s1) ->
    get_datastore_ban_list fuel s = (Ret (Success out), s') ->
    banlist_cmd fuel s
    = (Ret (match keys with
            | [] =>
                Embed "Taurus Global Ban List" "The DataStore ban list is empty."
                      EMBED_COLOR_INFO [] None
            | _ =>
                Embed "Taurus Global Ban List"
                      ("Found " ++ str_int (Z.of_nat (List.length keys)) ++ " total entries.")
                      EMBED_COLOR_INFO (ban_list_fields out) None
            end,
            Some (time_time (env s'))),
       s').
Proof.
  intros fuel s s1 s' keys out Hkeys Hrun.
  destruct (list_bans_one_entry_per_key_lemma fuel s s1 s' keys out Hkeys Hrun) as [Hlen _].
  unfold banlist_cmd. unfold bind at 1. rewrite Hrun. unfold bind at 1. unfold clock.
  destruct out as [| entry out]; destruct keys as [| k keys]; try discriminate Hlen.
  - reflexivity.
  - rewrite Hlen. reflexivity.
Qed.

Lemma banlist_reports_every_key_witness :
  fst (@banlist_cmd demo_config mock_runtime 3 (@State mock_runtime missing_mock []))
  = Ret (Embed "Taurus Global Ban List" "Found 2 total entries." EMBED_COLOR_INFO
               [("Ban List (Part 1)",
                 "[2023-11-14 22:13] **Bob** (By: Alice (Discord)) - *cheating*" ++ newline
                 ++ "[ERROR] Data for key `1` was not found (404)." ++ newline)]
               None,
         Some 1700000000).
Proof.
  exact (f_equal fst
           (@banlist_reports_every_key demo_config mock_runtime 3
              (@State mock_runtime missing_mock [])
              (@State mock_runtime missing_mock [@list_request demo_config ""])
              (snd (@get_datastore_ban_list demo_config mock_runtime 3
                      (@State mock_runtime missing_mock [])))
              [JStr "1"; JStr "2"] _ eq_refl eq_refl)).
Defined.

(** ** Banning by name *)

(** A branch of the lookup that ends in an error embed. *)
Ltac failed_lookup :=
  crunch_eval; intros [= <- <-]; right; eexists;
  (split; [reflexivity | split; [reflexivity | (now left) || (now right)]]).

Section BanByName.
Context `{Config} `{Runtime} `{!Services}.

(** The lookup of a player never raises and makes no request to the
    store: it gives an id and a name, or one of its two error embeds. *)
Lemma lookup_player_shape : forall player s x s',
  lookup_player player s = (x, s') ->
  log s' = log s
  /\ exists v, x = Ret v
               /\ forall e, v = inr e ->
                    color e = EMBED_COLOR_ERROR
                    /\ (title e = "User Not Found" \/ title e = "Username Lookup Failed").
Proof.
  intros player s x s'.
  unfold lookup_player, try_except, bind, service_call, raise_for_status, response_json,
    json_error, py_get, py_first, ret, raise.
  destruct (usernames_post (env s) _) as [w [r | r]].
  - crunch_eval; intros [= <- <-]; (split; [reflexivity |]);
      eexists; (split; [reflexivity |]); intros e He; try discriminate He;
      injection He as <-; (split; [reflexivity | (now left) || (now right)]).
  - cbn. intros [= <- <-]. split; [reflexivity |].
    eexists. split; [reflexivity |]. intros e [= <-]. split; [reflexivity | now right].
Qed.

Lemma lookup_player_found : forall player s w r members first rest,
  usernames_post (env s)
    (JObj [("usernames", JArr [JStr player]); ("excludeBannedUsers", JBool false)])
  = (w, Answer r) ->
  (400 <=? status_code r) && (status_code r <? 600) = false ->
  body_json r = Some (JObj members) ->
  dict_lookup members "data" = Some (JArr (JObj first :: rest)) ->
  lookup_player player s
  = (Ret (inl (match dict_lookup first "id" with Some v => v | None => JNull end,
               match dict_lookup first "name" with Some v => v | None => JNull end)),
     {| env := w; log := log s |}).
Proof.
  intros player s w r members first rest Hpost Hstatus Hbody Hdata.
  unfold lookup_player, try_except. unfold bind at 1. unfold service_call.
  rewrite Hpost.
  unfold bind at 1. unfold raise_for_status. rewrite Hstatus. unfold ret at 1.
  unfold bind at 1. unfold response_json. rewrite Hbody. unfold ret at 1.
  unfold bind at 1. unfold py_get at 1. rewrite Hdata. reflexivity.
Qed.

(** Unless the directory answers with a record for the player (a non-error
    answer whose JSON body is an object with a list under "data" that
    starts with an object), the lookup ends in one of its error embeds. *)
Lemma lookup_player_cases : forall player s x s',
  lookup_player player s = (x, s') ->
  let posted :=
    usernames_post (env s)
      (JObj [("usernames", JArr [JStr player]); ("excludeBannedUsers", JBool false)]) in
  (exists r members first rest,
      snd posted = Answer r
      /\ (400 <=? status_code r) && (status_code r <? 600) = false
      /\ body_json r = Some (JObj members)
      /\ dict_lookup members "data" = Some (JArr (JObj first :: rest)))
  \/ (exists e, x = Ret (inr e)
                /\ color e = EMBED_COLOR_ERROR
                /\ (title e = "User Not Found" \/ title e = "Username Lookup Failed")).
Proof.
  intros player s x s'.
  unfold lookup_player, try_except, bind, service_call, raise_for_status, response_json,
    json_error, py_get, py_first, ret, raise.
  cbv zeta.
  destruct (usernames_post (env s) _) as [w [r | ro]] eqn:Hpost; cbn [fst snd];
    [| solve [failed_lookup]].
  destruct ((400 <=? status_code r) && (status_code r <? 600)) eqn:Hstatus;
    [solve [failed_lookup] |].
  destruct (body_json r) as [d |] eqn:Hbody; [| solve [failed_lookup]].
  destruct d as [| b | n | str | items | members]; try solve [failed_lookup].
  destruct (dict_lookup members "data") as [data |] eqn:Hdata; [| solve [failed_lookup]].
  destruct data as [| b | n | str | items | ms]; try solve [failed_lookup].
  destruct items as [| first rest]; [solve [failed_lookup] |].
  destruct first as [| b | n | str | items | first]; try solve [failed_lookup].
  intros _. left. exists r, members, first, rest.
  repeat split; first [assumption | reflexivity | (cbv zeta; rewrite Hpost; reflexivity)].
Qed.

Lemma ban_cmd_shape : forall display_name player reason s x s',
  ban_cmd display_name player reason s = (x, s') ->
  ((log s' = log s
    /\ exists e, x = Ret e /\ color e = EMBED_COLOR_ERROR
                 /\ (title e = "User Not Found" \/ title e = "Username Lookup Failed"))
   \/ exists user_id username now,
        log s'
        = (log s
           ++ [write_request (py_str user_id)
                 (ban_record (match reason with Some r => r | None => default_reason end)
                             display_name username now)])%list)
  /\ x <> Diverge
  /\ forall e, x = Raise e -> is_RequestException e = false.
Proof.
  intros display_name player reason s x s'.
  unfold ban_cmd. unfold bind at 1.
  destruct (lookup_player player s) as [o s1] eqn:Hlookup.
  destruct (lookup_player_shape _ _ _ _ Hlookup) as (Hlog & v & -> & Hembed).
  destruct v as [[user_id username] | e].
  - unfold bind at 1. unfold clock.
    fold (write_request (py_str user_id)
            (ban_record (match reason with Some r => r | None => default_reason end)
                        display_name username (time_time (env s1)))).
    unfold try_except, bind, requests_call, raise_for_status, ret, raise, lift.
    destruct (http (env s1) _) as [w [r | r]]; cbn [is_RequestException]; cbn beta iota.
    + destruct ((400 <=? status_code r) && (status_code r <? 600));
        cbn [is_RequestException]; cbn beta iota; intros [= <- <-];
        (split; [right; exists user_id, username, (time_time (env s1));
                 cbn [log]; now rewrite Hlog |]).
      * split; [apply create_api_error_embed_returns |].
        intros e He. now rewrite (create_api_error_embed_raises _ _ _ He).
      * split; [discriminate | intros e He; discriminate He].
    + intros [= <- <-].
      split; [right; exists user_id, username, (time_time (env s1));
              cbn [log]; now rewrite Hlog |].
      split; [apply create_api_error_embed_returns |].
      intros e He. now rewrite (create_api_error_embed_raises _ _ _ He).
  - unfold ret. intros [= <- <-].
    destruct (Hembed e eq_refl) as [Hcolor Htitle].
    split; [left; split; [exact Hlog | now exists e] |].
    split; [discriminate | intros e' He'; discriminate He'].
Qed.
End BanByName.

(** X26: [ban_cmd] writes to the store at most once, and only after the
    directory has named the player.  When the directory answers the lookup
    with a record for the player (a non-error answer whose JSON body is an
    object with a list under "data" that starts with an object), the
    command makes exactly one request to the store: the write of the ban
    under that record's id, with that record's name.  In every other case
    (the lookup fails in any way, or finds nobody) the reply is the "User
    Not Found" or the "Username Lookup Failed" embed and the store is not
    asked anything.  No request error comes out of the command. *)
Theorem ban_cmd_requests `{Config} `{Runtime} `{!Services} :
  forall (display_name player : string) (reason : option string) (s : state),
    let posted :=
      usernames_post (env s)
        (JObj [("usernames", JArr [JStr player]); ("excludeBannedUsers", JBool false)]) in
    let run := ban_cmd display_name player reason s in
    (forall (r : response) (members first : list (string * json)) (rest : list json),
        snd posted = Answer r ->
        (400 <=? status_code r) && (status_code r <? 600) = false ->
        body_json r = Some (JObj members) ->
        dict_lookup members "data" = Some (JArr (JObj first :: rest)) ->
        log (snd run)
        = (log s
           ++ [write_request
                 (py_str (match dict_lookup first "id" with Some v => v | None => JNull end))
                 (JObj [("Reason", JStr (match reason with
                                          | Some x => x
                                          | None => default_reason
                                          end));
                        ("BannedBy", JStr (display_name ++ " (Discord)"));
                        ("Username",
                         match dict_lookup first "name" with Some v => v | None => JNull end);
                        ("Timestamp", JInt (time_time (fst posted)))])])%list)
    /\ (~ (exists (r : response) (members first : list (string * json)) (rest : list json),
             snd posted = Answer r
             /\ (400 <=? status_code r) && (status_code r <? 600) = false
             /\ body_json r = Some (JObj members)
             /\ dict_lookup members "data" = Some (JArr (JObj first :: rest))) ->
        log (snd run) = log s
        /\ exists e, fst run = Ret e /\ color e = EMBED_COLOR_ERROR
                     /\ (title e = "User Not Found" \/ title e = "Username Lookup Failed"))
    /\ fst run <> Diverge
    /\ forall e, fst run = Raise e -> is_RequestException e = false.
Proof.
  intros display_name player reason s posted run. subst posted run.
  split; [| split].
  - intros r members first rest Hpost Hstatus Hbody Hdata.
    destruct (usernames_post (env s) _) as [w res] eqn:Hposted.
    cbn [fst snd] in *. subst res.
    unfold ban_cmd. unfold bind at 1.
    rewrite (lookup_player_found _ _ _ _ _ _ _ Hposted Hstatus Hbody Hdata).
    unfold bind at 1. unfold clock. cbn [env].
    unfold try_except, bind, requests_call, raise_for_status, ret, raise, lift.
    cbn [env log].
    match goal with
    | |- context [http w ?req] => destruct (http w req) as [w' [r' | r']]
    end; cbn [is_RequestException]; cbn beta iota.
    + destruct ((400 <=? status_code r') && (status_code r' <? 600));
        cbn [is_RequestException]; cbn beta iota; reflexivity.
    + reflexivity.
  - intros Hunnamed.
    destruct (lookup_player player s) as [x s1] eqn:Hlookup.
    destruct (lookup_player_shape _ _ _ _ Hlookup) as (Hlog & _).
    destruct (lookup_player_cases _ _ _ _ Hlookup)
      as [Hnamed | (e & -> & Hcolor & Htitle)]; [contradiction |].
    assert (Hrun : ban_cmd display_name player reason s = (Ret e, s1)).
    { unfold ban_cmd. cbv zeta. unfold bind at 1. now rewrite Hlookup. }
    rewrite Hrun. cbn [fst snd].
    split; [exact Hlog |].
    exists e. split; [reflexivity | split; assumption].
  - destruct (ban_cmd display_name player reason s) as [x s'] eqn:Hrun.
    destruct (ban_cmd_shape _ _ _ _ _ _ Hrun) as (_ & Hret & Hexn).
    split; assumption.
Qed.

(** X27: when the directory answers the lookup of the name with a record,
    [ban_cmd] writes the ban under the key made of that record's id (the
    text "None" when the record has no id), with the record's name as
    Username (not the name as typed), the caller followed by " (Discord)"
    as BannedBy and the clock as Timestamp; when the store accepts, the
    reply is the success embed. *)
Theorem ban_cmd_writes_resolved_id `{Config} `{Runtime} `{!Services} :
  forall (display_name player : string) (reason : option string) (s : state)
         (w w' : world) (r r' : response) (members first : list (string * json))
         (rest : list json),
    usernames_post (env s)
      (JObj [("usernames", JArr [JStr player]); ("excludeBannedUsers", JBool false)])
    = (w, Answer r) ->
    (400 <=? status_code r) && (status_code r <? 600) = false ->
    body_json r = Some (JObj members) ->
    dict_lookup members "data" = Some (JArr (JObj first :: rest)) ->
    let user_id := match dict_lookup first "id" with Some v => v | None => JNull end in
    let username := match dict_lookup first "name" with Some v => v | None => JNull end in
    let reason' := match reason with Some x => x | None => default_reason end in
    let ban_data :=
      JObj [("Reason", JStr reason');
            ("BannedBy", JStr (display_name ++ " (Discord)"));
            ("Username", username);
            ("Timestamp", JInt (time_time w))] in
    http w (write_request (py_str user_id) ban_data) = (w', Answer r') ->
    (400 <=? status_code r') && (status_code r' <? 600) = false ->
    ban_cmd display_name player reason s
    = (Ret (Embed "User Banned (DataStore)"
                  ("Successfully banned **" ++ py_str username ++ "** (`"
                   ++ py_str user_id ++ "`).")
                  EMBED_COLOR_SUCCESS [("Reason", reason')]
                  (Some ("Banned by " ++ display_name))),
       {| env := w'; log := log s ++ [write_request (py_str user_id) ban_data] |}).
Proof.
  intros display_name player reason s w w' r r' members first rest
         Hpost Hstatus Hbody Hdata user_id username reason' ban_data Hhttp Hstatus'.
  unfold ban_cmd. unfold bind at 1.
  rewrite (lookup_player_found _ _ _ _ _ _ _ Hpost Hstatus Hbody Hdata).
  fold user_id username reason'.
  unfold bind at 1. unfold clock. cbn [env].
  change (ban_record reason' display_name username (time_time w)) with ban_data.
  fold (write_request (py_str user_id) ban_data).
  unfold try_except. unfold bind at 1. unfold requests_call. cbn [env log].
  rewrite Hhttp.
  unfold bind at 1. unfold raise_for_status. rewrite Hstatus'. reflexivity.
Qed.

Lemma ban_cmd_writes_resolved_id_witness :
  @ban_cmd demo_config mock_runtime (mock_services bob_directory accepting_topic)
     "Alice" "bob" None (@State mock_runtime accepting_mock [])
  = (Ret (Embed "User Banned (DataStore)" "Successfully banned **Bob** (`12345`)."
                EMBED_COLOR_SUCCESS [("Reason", "Banned via Discord.")]
                (Some "Banned by Alice")),
     @State mock_runtime accepting_mock
            [@write_request demo_config "12345"
               (JObj [("Reason", JStr "Banned via Discord.");
                      ("BannedBy", JStr "Alice (Discord)");
                      ("Username", JStr "Bob");
                      ("Timestamp", JInt 1700000000)])]).
Proof.
  exact (@ban_cmd_writes_resolved_id demo_config mock_runtime
           (mock_services bob_directory accepting_topic)
           "Alice" "bob" None (@State mock_runtime accepting_mock [])
           accepting_mock accepting_mock
           (Response 200 ""
              (Some (JObj [("data", JArr [JObj [("requestedUsername", JStr "bob");
                                                 ("id", JInt 12345);
                                                 ("name", JStr "Bob")]])])))
           (Response 204 "" None) _ _ []
           eq_refl eq_refl eq_refl eq_refl eq_refl eq_refl).
Defined.

(** ** The messaging commands *)


Section Messaging.
Context `{Runtime} `{!Services}.




End Messaging.



(** X29: a game command (kick, announce, fly, ...) publishes the payload
    that names the command type RUN_COMMAND, the caller's id as text and
    display name, the command, its target and its arguments ([None] where
    there is none), with the secret added; when the topic accepts it the
    reply is the "Command Sent" embed for that command, and the store is
    not asked anything. *)
Theorem game_command_sent `{Runtime} `{!Services} :
  forall (user : Z) (display_name command : string) (target arguments : option string)
         (s : state) (w : world) (r : response),
    messaging_post (env s)
      (JObj [("command_type", JStr "RUN_COMMAND");
             ("discord_user_id", JStr (str_int user));
             ("discord_user_name", JStr display_name);
             ("command", JStr command);
             ("target", match target with Some t => JStr t | None => JNull end);
             ("arguments", match arguments with Some a => JStr a | None => JNull end);
             ("internal_secret", JStr INTERNAL_SECRET_KEY)])
    = (w, Answer r) ->
    (400 <=? status_code r) && (status_code r <? 600) = false ->
    send_game_command_embed user display_name command target arguments s
    = (Ret (Embed ("Command Sent: `:" ++ command ++ "`")
                  "Request sent to Roblox game servers." EMBED_COLOR_SUCCESS [] None),
       {| env := w; log := log s |}).
Proof.
  intros user display_name command target arguments s w r Hpost Hstatus.
  unfold send_game_command_embed. unfold bind at 1.
  unfold send_roblox_message, try_except. unfold bind at 1. unfold service_call.
  change (JObj (dict_set (create_run_command_payload user display_name command target
                            arguments)
                         "internal_secret" (JStr INTERNAL_SECRET_KEY)))
    with (JObj [("command_type", JStr "RUN_COMMAND");
                ("discord_user_id", JStr (str_int user));
                ("discord_user_name", JStr display_name);
                ("command", JStr command);
                ("target", match target with Some t => JStr t | None => JNull end);
                ("arguments", match arguments with Some a => JStr a | None => JNull end);
                ("internal_secret", JStr INTERNAL_SECRET_KEY)]).
  rewrite Hpost.
  unfold bind at 1. unfold raise_for_status. rewrite Hstatus. reflexivity.
Qed.

Lemma game_command_sent_witness :
  fst (@kick_cmd mock_runtime (mock_services bob_directory accepting_topic)
         5 "Alice" "bob" (Some "afk") (@State mock_runtime accepting_mock []))
  = Ret (Embed "Command Sent: `:kick`" "Request sent to Roblox game servers."
               EMBED_COLOR_SUCCESS [] None).
Proof.
  exact (f_equal fst
           (@game_command_sent mock_runtime (mock_services bob_directory accepting_topic)
              5 "Alice" "kick" (Some "bob") (Some "afk")
              (@State mock_runtime accepting_mock []) accepting_mock
              (Response 200 "" (Some (JObj []))) eq_refl eq_refl)).
Defined.

Lemma ban_cmd_requests_witness :
  let unnamed := @ban_cmd demo_config mock_runtime
                   (mock_services empty_directory accepting_topic)
                   "Alice" "bob" None (@State mock_runtime accepting_mock []) in
  let named := @ban_cmd demo_config mock_runtime
                 (mock_services bob_directory accepting_topic)
                 "Alice" "bob" None (@State mock_runtime accepting_mock []) in
  (log (snd unnamed) = []
   /\ exists e, fst unnamed = Ret e /\ color e = EMBED_COLOR_ERROR
                /\ (title e = "User Not Found" \/ title e = "Username Lookup Failed"))
  /\ log (snd named)
     = [@write_request demo_config "12345"
          (JObj [("Reason", JStr "Banned via Discord.");
                 ("BannedBy", JStr "Alice (Discord)");
                 ("Username", JStr "Bob");
                 ("Timestamp", JInt 1700000000)])].
Proof.
  intros unnamed named. split.
  - apply (proj1 (proj2 (@ban_cmd_requests demo_config mock_runtime
                           (mock_services empty_directory accepting_topic)
                           "Alice" "bob" None (@State mock_runtime accepting_mock [])))).
    intros (r & members & first & rest & Hpost & _ & Hbody & Hdata).
    cbn in Hpost. injection Hpost as <-.
    cbn in Hbody. injection Hbody as <-.
    discriminate Hdata.
  - exact (proj1 (@ban_cmd_requests demo_config mock_runtime
                    (mock_services bob_directory accepting_topic)
                    "Alice" "bob" None (@State mock_runtime accepting_mock []))
                 (Response 200 ""
                    (Some (JObj [("data", JArr [JObj [("requestedUsername", JStr "bob");
                                                       ("id", JInt 12345);
                                                       ("name", JStr "Bob")]])])))
                 _ _ [] eq_refl eq_refl eq_refl eq_refl).
Defined.

Lemma list_bans_only_reads_witness :
  let run := @get_datastore_ban_list demo_config mock_runtime 3
               (@State mock_runtime forbidden_mock []) in
  (exists cursor_params keys,
     log (snd run) = (map (@list_request demo_config) cursor_params
                      ++ map (@entry_request demo_config mock_runtime) keys)%list)
  /\ is_RequestException (HTTPError forbidden) = true.
Proof.
  intros run.
  destruct (@list_bans_only_reads demo_config mock_runtime 3
              (@State mock_runtime forbidden_mock []))
    as (cursor_params & keys & Hlog & _ & Hfailure & _).
  split.
  - exists cursor_params, keys. exact Hlog.
  - exact (Hfailure (HTTPError forbidden) eq_refl).
Defined.
